(** * Cafeteria ordering: order lifecycle and pickup verification

    A shallow embedding of the PostgreSQL backend of the cafeteria ordering
    application: the order tables, the PL/pgSQL functions (pickup-code
    generation, pickup verification, order total, notification helpers),
    the row triggers on [orders] and [order_items], and the statements of
    [common-operations.sql] that create orders and move them through their
    statuses.

    Conventions of the embedding.
    - A table is the list of its rows, oldest row first.
    - [DECIMAL(10,2)] amounts are integers counting cents.
    - [TIMESTAMP] values are integers; [NOW()] is the [now] argument of a
      statement (PostgreSQL fixes it per transaction).
    - A UUID is its text form.  [uuid_generate_v4()] is modelled as picking
      a key that the target table does not hold yet ([fresh_uuid]); the
      collision of two random 122-bit values is not modelled.
    - [RANDOM()] is an oracle: a statement receives the list [draws] of the
      values [FLOOR(RANDOM() * 10000)] that the loop of
      [generate_pickup_code] would see, in order.
    - A statement either commits a new database or fails with an error and
      leaves the database as it was (statement-level atomicity). *)

From Stdlib Require Import ZArith List String Ascii Bool Lia.
From Stdlib Require Import Sorting.Sorted Sorting.Permutation DecimalString.
From Stdlib Require Import Orders Sorting.Mergesort.
From Stdlib Require QArith_base.
Import ListNotations.

Local Open Scope string_scope.
Local Open Scope list_scope.
Local Open Scope Z_scope.

(** ** SQL values, errors and coercions *)

Module Sql.

Definition uuid := string.
Definition timestamp := Z.
(** [DECIMAL(10,2)], in cents. *)
Definition cents := Z.

(** The error classes PostgreSQL can raise for the modelled statements. *)
Inductive sql_error : Type :=
| unique_violation (constraint_name : string)
| check_violation (constraint_name : string)
| foreign_key_violation (constraint_name : string)
| string_data_right_truncation
| numeric_value_out_of_range
| raise_exception (message : string).

(** Outcome of running a statement.  [Looping] is the one way a statement
    can fail to return: the [LOOP] of [generate_pickup_code] has used up
    every draw it was given without leaving. *)
Inductive result (A : Type) : Type :=
| Ok (a : A)
| Err (e : sql_error)
| Looping.

Arguments Ok {A} a.
Arguments Err {A} e.
Arguments Looping {A}.

Definition bind {A B : Type} (m : result A) (k : A -> result B) : result B :=
  match m with
  | Ok a => k a
  | Err e => Err e
  | Looping => Looping
  end.

Definition guard (b : bool) (e : sql_error) : result unit :=
  if b then Ok tt else Err e.

Fixpoint all_spaces (s : string) : bool :=
  match s with
  | EmptyString => true
  | String c rest => Ascii.eqb c " "%char && all_spaces rest
  end.

(** Assignment to a [VARCHAR(n)] column: a longer value is an error unless
    the excess is spaces only, in which case it is cut to [n] characters. *)
Definition varchar (n : nat) (s : string) : result string :=
  if Nat.leb (String.length s) n then Ok s
  else if all_spaces (substring n (String.length s - n) s)
       then Ok (substring 0 n s)
       else Err string_data_right_truncation.

(** Assignment to a [DECIMAL(10,2)] column or variable. *)
Definition decimal_10_2 (c : Z) : result cents :=
  if Z.abs c <? 10 ^ 10 then Ok c else Err numeric_value_out_of_range.

(** Assignment to an [INT] column. *)
Definition int4 (n : Z) : result Z :=
  if (- 2 ^ 31 <=? n) && (n <? 2 ^ 31) then Ok n
  else Err numeric_value_out_of_range.

(** [n::TEXT] for an integral value. *)
Definition text_of_Z (n : Z) : string :=
  NilZero.string_of_int (Z.to_int n).

Fixpoint repeat_string (n : nat) (s : string) : string :=
  match n with
  | O => EmptyString
  | S k => (s ++ repeat_string k s)%string
  end.

(** [LPAD(s, n, fill)]: [s] cut to [n] characters when it is longer,
    otherwise extended on the left with the characters of [fill]. *)
Definition LPAD (s : string) (n : nat) (fill : string) : string :=
  if Nat.leb n (String.length s) then substring 0 n s
  else
    let missing := (n - String.length s)%nat in
    (substring 0 missing (repeat_string missing fill) ++ s)%string.

(** [SUBSTRING(s, 1, n)]. *)
Definition SUBSTRING_1 (s : string) (n : nat) : string := substring 0 n s.

(** [x = ANY(array)]; a NULL element compares as unknown and selects
    nothing. *)
Definition eq_any (x : uuid) (array : list (option uuid)) : bool :=
  existsb (fun e => match e with
                    | Some y => String.eqb x y
                    | None => false
                    end) array.

Definition in_list (x : string) (l : list string) : bool :=
  existsb (String.eqb x) l.

Definition max_length (l : list string) : nat :=
  fold_right (fun s m => Nat.max (String.length s) m) O l.

(** Stand-in for [uuid_generate_v4()]: a key longer than every key in
    [used], hence different from all of them. *)
Definition fresh_uuid (used : list uuid) : uuid :=
  repeat_string (S (max_length used)) "0".

End Sql.

Export Sql.

Notation "x <- m ;; k" := (bind m (fun x => k))
  (at level 61, m at next level, right associativity).
Notation "m ;;; k" := (bind m (fun _ => k))
  (at level 61, right associativity).

(** ** Tables

    The tables of the order subsystem, with the columns the modelled
    functions, triggers and statements read or write.  [auth.users] is
    managed by the hosting platform; only its key is visible here.  The
    menu tables keep what the order-item trigger needs.  [payments],
    [push_notification_tokens] and [cafeteria_settings] take no part in the
    order lifecycle and are left out. *)

Module Schema.

Record profile : Type := {
  p_id : uuid;
  p_user_id : uuid;
  p_full_name : string;
  p_phone : option string;
  p_role : string
}.

Record menu_item : Type := {
  mi_id : uuid;
  mi_name : string;
  mi_price : cents;
  mi_available : bool
}.

Record order : Type := {
  o_id : uuid;
  o_user_id : uuid;
  o_status : string;
  o_total_amount : cents;
  o_pickup_time : option timestamp;
  o_pickup_code : string;
  o_notes : option string;
  o_created_at : timestamp;
  o_updated_at : timestamp;
  o_completed_at : option timestamp
}.

Record order_item : Type := {
  oi_id : uuid;
  oi_order_id : uuid;
  oi_menu_item_id : uuid;
  oi_quantity : Z;
  oi_unit_price : cents;
  oi_special_instructions : option string;
  oi_created_at : timestamp
}.

Record status_history : Type := {
  h_id : uuid;
  h_order_id : uuid;
  h_previous_status : option string;
  h_new_status : string;
  h_changed_by : option uuid;
  h_changed_at : timestamp;
  h_notes : option string
}.

Record notification : Type := {
  n_id : uuid;
  n_user_id : uuid;
  n_order_id : option uuid;
  n_type : string;
  n_title : string;
  n_message : string;
  n_sent_at : timestamp;
  n_read_at : option timestamp
}.

Record database : Type := {
  auth_users : list uuid;
  profiles : list profile;
  menu_items : list menu_item;
  orders : list order;
  order_items : list order_item;
  order_status_history : list status_history;
  notifications : list notification
}.

Definition empty_database : database :=
  {| auth_users := []; profiles := []; menu_items := []; orders := [];
     order_items := []; order_status_history := []; notifications := [] |}.

(** [CHECK (status IN ('placed', ..., 'cancelled'))] on [orders]. *)
Definition order_statuses : list string :=
  ["placed"; "confirmed"; "preparing"; "ready"; "completed"; "cancelled"].

Definition orders_status_check (status : string) : bool :=
  in_list status order_statuses.

(** [status NOT IN ('completed', 'cancelled')]. *)
Definition active_status (status : string) : bool :=
  negb (in_list status ["completed"; "cancelled"]).

(** Functional updates of single columns. *)
Definition set_status (s : string) (o : order) : order :=
  {| o_id := o_id o; o_user_id := o_user_id o; o_status := s;
     o_total_amount := o_total_amount o; o_pickup_time := o_pickup_time o;
     o_pickup_code := o_pickup_code o; o_notes := o_notes o;
     o_created_at := o_created_at o; o_updated_at := o_updated_at o;
     o_completed_at := o_completed_at o |}.

Definition set_updated_at (t : timestamp) (o : order) : order :=
  {| o_id := o_id o; o_user_id := o_user_id o; o_status := o_status o;
     o_total_amount := o_total_amount o; o_pickup_time := o_pickup_time o;
     o_pickup_code := o_pickup_code o; o_notes := o_notes o;
     o_created_at := o_created_at o; o_updated_at := t;
     o_completed_at := o_completed_at o |}.

Definition set_completed_at (t : option timestamp) (o : order) : order :=
  {| o_id := o_id o; o_user_id := o_user_id o; o_status := o_status o;
     o_total_amount := o_total_amount o; o_pickup_time := o_pickup_time o;
     o_pickup_code := o_pickup_code o; o_notes := o_notes o;
     o_created_at := o_created_at o; o_updated_at := o_updated_at o;
     o_completed_at := t |}.

Definition set_read_at (t : option timestamp) (n : notification)
  : notification :=
  {| n_id := n_id n; n_user_id := n_user_id n; n_order_id := n_order_id n;
     n_type := n_type n; n_title := n_title n; n_message := n_message n;
     n_sent_at := n_sent_at n; n_read_at := t |}.

Definition set_available (b : bool) (m : menu_item) : menu_item :=
  {| mi_id := mi_id m; mi_name := mi_name m; mi_price := mi_price m;
     mi_available := b |}.

(** Replacement of whole tables. *)
Definition with_orders (l : list order) (db : database) : database :=
  {| auth_users := auth_users db; profiles := profiles db;
     menu_items := menu_items db; orders := l;
     order_items := order_items db;
     order_status_history := order_status_history db;
     notifications := notifications db |}.

Definition with_history (l : list status_history) (db : database)
  : database :=
  {| auth_users := auth_users db; profiles := profiles db;
     menu_items := menu_items db; orders := orders db;
     order_items := order_items db; order_status_history := l;
     notifications := notifications db |}.

Definition with_notifications (l : list notification) (db : database)
  : database :=
  {| auth_users := auth_users db; profiles := profiles db;
     menu_items := menu_items db; orders := orders db;
     order_items := order_items db;
     order_status_history := order_status_history db;
     notifications := l |}.

Definition with_order_items (l : list order_item) (db : database)
  : database :=
  {| auth_users := auth_users db; profiles := profiles db;
     menu_items := menu_items db; orders := orders db;
     order_items := l;
     order_status_history := order_status_history db;
     notifications := notifications db |}.

Definition with_menu_items (l : list menu_item) (db : database)
  : database :=
  {| auth_users := auth_users db; profiles := profiles db;
     menu_items := l; orders := orders db;
     order_items := order_items db;
     order_status_history := order_status_history db;
     notifications := notifications db |}.

Definition with_user (u : uuid) (ps : list profile) (db : database)
  : database :=
  {| auth_users := auth_users db ++ [u]; profiles := ps;
     menu_items := menu_items db; orders := orders db;
     order_items := order_items db;
     order_status_history := order_status_history db;
     notifications := notifications db |}.

End Schema.

Export Schema.

(** ** Database functions *)

Module Functions.

(** The code drawn in one turn of the loop:
    [LPAD(FLOOR(RANDOM() * 10000)::TEXT, 4, '0')], for the draw
    [d = FLOOR(RANDOM() * 10000)]. *)
Definition code_of_draw (d : Z) : string := LPAD (text_of_Z d) 4 "0".

(** [EXISTS (SELECT 1 FROM orders WHERE pickup_code = new_code
             AND status NOT IN ('completed', 'cancelled'))]. *)
Definition code_exists (new_code : string) (db : database) : bool :=
  existsb (fun o => String.eqb (o_pickup_code o) new_code
                    && active_status (o_status o)) (orders db).

(** [generate_pickup_code()]: the loop leaves at the first draw whose code
    no active order carries. *)
Fixpoint generate_pickup_code (draws : list Z) (db : database)
  : result string :=
  match draws with
  | [] => Looping
  | d :: later =>
      let new_code := code_of_draw d in
      if negb (code_exists new_code db) then Ok new_code
      else generate_pickup_code later db
  end.

(** [SUM(quantity * unit_price)] over the items of an order, 0 when there
    are none ([COALESCE]). *)
Definition order_items_sum (p_order_id : uuid) (db : database) : Z :=
  fold_right Z.add 0
    (map (fun oi => oi_quantity oi * oi_unit_price oi)
       (filter (fun oi => String.eqb (oi_order_id oi) p_order_id)
          (order_items db))).

(** [calculate_order_total(p_order_id)]. *)
Definition calculate_order_total (p_order_id : uuid) (db : database)
  : result cents :=
  decimal_10_2 (order_items_sum p_order_id db).

(** The row type of [verify_pickup_code]. *)
Record pickup_details : Type := {
  pd_order_id : uuid;
  pd_user_id : uuid;
  pd_status : string;
  pd_total_amount : cents;
  pd_created_at : timestamp
}.

Definition pickup_details_of (o : order) : pickup_details :=
  {| pd_order_id := o_id o; pd_user_id := o_user_id o;
     pd_status := o_status o; pd_total_amount := o_total_amount o;
     pd_created_at := o_created_at o |}.

(** [verify_pickup_code(p_pickup_code)]: the rows of the orders with this
    code and status ['ready']; no row means the code is not accepted. *)
Definition verify_pickup_code (p_pickup_code : string) (db : database)
  : list pickup_details :=
  map pickup_details_of
    (filter (fun o => String.eqb (o_pickup_code o) p_pickup_code
                      && String.eqb (o_status o) "ready") (orders db)).

(** The [WHERE] clause of the two branches of [mark_notifications_read];
    [p_notification_ids = None] is the SQL [NULL] default. *)
Definition to_mark (p_user_id : uuid)
    (p_notification_ids : option (list (option uuid))) (n : notification)
  : bool :=
  match p_notification_ids with
  | None =>
      String.eqb (n_user_id n) p_user_id
      && match n_read_at n with None => true | Some _ => false end
  | Some ids =>
      String.eqb (n_user_id n) p_user_id
      && eq_any (n_id n) ids
      && match n_read_at n with None => true | Some _ => false end
  end.

(** [mark_notifications_read(p_user_id, p_notification_ids)]: the updated
    table and [ROW_COUNT]. *)
Definition mark_notifications_read (now : timestamp) (p_user_id : uuid)
    (p_notification_ids : option (list (option uuid))) (db : database)
  : Z * database :=
  let hit := to_mark p_user_id p_notification_ids in
  let rows_updated := Z.of_nat (List.length (filter hit (notifications db))) in
  (rows_updated,
   with_notifications
     (map (fun n => if hit n then set_read_at (Some now) n else n)
        (notifications db)) db).

End Functions.

Export Functions.

(** ** Trigger functions *)

Module Triggers.

(** [update_updated_at_column()]. *)
Definition update_updated_at_column (now : timestamp) (NEW : order)
  : order :=
  set_updated_at now NEW.

(** [set_pickup_code()], on the [pickup_code] of the row to insert
    ([None] is [NULL]). *)
Definition set_pickup_code (draws : list Z) (new_pickup_code : option string)
    (db : database) : result string :=
  match new_pickup_code with
  | None => generate_pickup_code draws db
  | Some c =>
      if String.eqb c "" then generate_pickup_code draws db else Ok c
  end.

(** [log_order_status_change()]: returns the row to store and the
    history table. *)
Definition log_order_status_change (now : timestamp) (TG_OP : string)
    (OLD NEW : order) (history : list status_history)
  : order * list status_history :=
  if String.eqb TG_OP "UPDATE"
     && negb (String.eqb (o_status OLD) (o_status NEW))
  then
    let entry :=
      {| h_id := fresh_uuid (map h_id history);
         h_order_id := o_id NEW;
         h_previous_status := Some (o_status OLD);
         h_new_status := o_status NEW;
         h_changed_by := Some (o_user_id NEW);
         h_changed_at := now;
         h_notes := Some ("Status changed from " ++ o_status OLD
                          ++ " to " ++ o_status NEW)%string |} in
    (if String.eqb (o_status NEW) "completed"
     then set_completed_at (Some now) NEW else NEW,
     history ++ [entry])
  else (NEW, history).

(** [validate_order_total()].  Its trigger is commented out in the
    source, so no statement below calls it. *)
Definition validate_order_total (NEW : order) (db : database)
  : result order :=
  calculated_total <- calculate_order_total (o_id NEW) db ;;
  if 5 <? Z.abs (o_total_amount NEW - calculated_total)
  then Err (raise_exception
              "Order total (%) does not match sum of items (%)")
  else Ok NEW.

(** [notify_order_ready()]. *)
Definition notify_order_ready (now : timestamp) (TG_OP : string)
    (OLD NEW : order) (ns : list notification) : list notification :=
  if String.eqb TG_OP "UPDATE"
     && negb (String.eqb (o_status OLD) (o_status NEW))
     && String.eqb (o_status NEW) "ready"
  then
    ns ++ [ {| n_id := fresh_uuid (map n_id ns);
               n_user_id := o_user_id NEW;
               n_order_id := Some (o_id NEW);
               n_type := "order_ready";
               n_title := "Your Order is Ready!";
               n_message :=
                 ("Order #" ++ SUBSTRING_1 (o_id NEW) 8
                  ++ " is ready for pickup. Your pickup code is: "
                  ++ o_pickup_code NEW)%string;
               n_sent_at := now;
               n_read_at := None |} ]
  else ns.

(** [notify_order_placed()]. *)
Definition notify_order_placed (now : timestamp) (NEW : order)
    (ns : list notification) : list notification :=
  ns ++ [ {| n_id := fresh_uuid (map n_id ns);
             n_user_id := o_user_id NEW;
             n_order_id := Some (o_id NEW);
             n_type := "order_placed";
             n_title := "Order Confirmed";
             n_message :=
               "Your order has been received and is being prepared. We'll notify you when it's ready!";
             n_sent_at := now;
             n_read_at := None |} ].

(** [validate_menu_item_availability()]: [item_available] stays [NULL]
    when no menu item has the key, and [IF NOT NULL] does not raise. *)
Definition validate_menu_item_availability (new_menu_item_id : uuid)
    (db : database) : result unit :=
  let item_available :=
    option_map mi_available
      (find (fun m => String.eqb (mi_id m) new_menu_item_id)
         (menu_items db)) in
  match item_available with
  | Some false =>
      Err (raise_exception "Cannot order unavailable menu item %")
  | _ => Ok tt
  end.

(** [create_profile_for_new_user()]: [full_name] is
    [raw_user_meta_data->>'full_name']. *)
Definition create_profile_for_new_user (new_id : uuid)
    (full_name : option string) (ps : list profile)
  : result (list profile) :=
  name <- varchar 255 (match full_name with
                       | Some s => s
                       | None => "User"
                       end) ;;
  if existsb (fun p => String.eqb (p_user_id p) new_id) ps
  then Ok ps
  else Ok (ps ++ [ {| p_id := fresh_uuid (map p_id ps);
                      p_user_id := new_id;
                      p_full_name := name;
                      p_phone := None;
                      p_role := "student" |} ]).

End Triggers.

Export Triggers.

(** ** Statements

    The statements of [common-operations.sql] (and the seed inserts) that
    write or read the order tables, with the constraints of the table
    definitions and the row triggers run in PostgreSQL's order: column
    coercion, [BEFORE] triggers by name, [CHECK] constraints, unique
    indexes, then foreign keys and [AFTER] triggers. *)

Module Statements.

(** [CHECK] constraints of [orders]. *)
Definition orders_row_checks (o : order) : result unit :=
  guard (orders_status_check (o_status o))
    (check_violation "orders_status_check") ;;;
  guard (0 <=? o_total_amount o)
    (check_violation "orders_total_amount_check").

(** *** Sign-up: a row appears in [auth.users]
    ([AFTER INSERT] trigger [on_auth_user_created]). *)
Definition auth_user_insert (new_id : uuid) (full_name : option string)
    (db : database) : result database :=
  guard (negb (in_list new_id (auth_users db)))
    (unique_violation "users_pkey") ;;;
  ps <- create_profile_for_new_user new_id full_name (profiles db) ;;
  Ok (with_user new_id ps db).

(** *** Menu: seed insert and batch availability update *)
Definition insert_menu_item (name : string) (price : Z) (available : bool)
    (db : database) : result database :=
  name' <- varchar 255 name ;;
  price' <- decimal_10_2 price ;;
  guard (0 <=? price') (check_violation "menu_items_price_check") ;;;
  Ok (with_menu_items
        (menu_items db
         ++ [ {| mi_id := fresh_uuid (map mi_id (menu_items db));
                 mi_name := name'; mi_price := price';
                 mi_available := available |} ]) db).

(** [UPDATE menu_items SET available = FALSE WHERE id = ANY(ids)]. *)
Definition disable_menu_items (ids : list (option uuid)) (db : database)
  : database :=
  with_menu_items
    (map (fun m => if eq_any (mi_id m) ids then set_available false m
                   else m) (menu_items db)) db.

(** *** Order placement *)

(** The [VALUES] of [INSERT INTO orders]; [None] for [v_status] and
    [v_pickup_code] is a column left to its default. *)
Record order_values : Type := {
  v_user_id : uuid;
  v_status : option string;
  v_total_amount : Z;
  v_pickup_time : option timestamp;
  v_pickup_code : option string;
  v_notes : option string
}.

(** [INSERT INTO orders ... RETURNING id, pickup_code], with the
    [BEFORE INSERT] trigger [generate_pickup_code_on_insert] and the
    [AFTER INSERT] trigger [create_order_placed_notification]. *)
Definition insert_order (now : timestamp) (draws : list Z)
    (v : order_values) (db : database)
  : result ((uuid * string) * database) :=
  status <- varchar 20 (match v_status v with
                        | Some s => s
                        | None => "placed"
                        end) ;;
  total <- decimal_10_2 (v_total_amount v) ;;
  given_code <- match v_pickup_code v with
                | None => Ok None
                | Some c => c' <- varchar 4 c ;; Ok (Some c')
                end ;;
  code <- set_pickup_code draws given_code db ;;
  let NEW :=
    {| o_id := fresh_uuid (map o_id (orders db));
       o_user_id := v_user_id v;
       o_status := status;
       o_total_amount := total;
       o_pickup_time := v_pickup_time v;
       o_pickup_code := code;
       o_notes := v_notes v;
       o_created_at := now;
       o_updated_at := now;
       o_completed_at := None |} in
  orders_row_checks NEW ;;;
  guard (negb (in_list code (map o_pickup_code (orders db))))
    (unique_violation "orders_pickup_code_key") ;;;
  guard (in_list (v_user_id v) (auth_users db))
    (foreign_key_violation "orders_user_id_fkey") ;;;
  Ok ((o_id NEW, code),
      with_notifications
        (notify_order_placed now NEW (notifications db))
        (with_orders (orders db ++ [NEW]) db)).

Record order_item_values : Type := {
  iv_order_id : uuid;
  iv_menu_item_id : uuid;
  iv_quantity : option Z;
  iv_unit_price : Z;
  iv_special_instructions : option string
}.

(** One row of [INSERT INTO order_items], with the [BEFORE INSERT]
    trigger [check_menu_item_available]. *)
Definition insert_order_item (now : timestamp) (v : order_item_values)
    (db : database) : result database :=
  quantity <- int4 (match iv_quantity v with
                    | Some q => q
                    | None => 1
                    end) ;;
  unit_price <- decimal_10_2 (iv_unit_price v) ;;
  validate_menu_item_availability (iv_menu_item_id v) db ;;;
  guard (1 <=? quantity) (check_violation "order_items_quantity_check") ;;;
  guard (0 <=? unit_price)
    (check_violation "order_items_unit_price_check") ;;;
  guard (in_list (iv_order_id v) (map o_id (orders db)))
    (foreign_key_violation "order_items_order_id_fkey") ;;;
  guard (in_list (iv_menu_item_id v) (map mi_id (menu_items db)))
    (foreign_key_violation "order_items_menu_item_id_fkey") ;;;
  Ok (with_order_items
        (order_items db
         ++ [ {| oi_id := fresh_uuid (map oi_id (order_items db));
                 oi_order_id := iv_order_id v;
                 oi_menu_item_id := iv_menu_item_id v;
                 oi_quantity := quantity;
                 oi_unit_price := unit_price;
                 oi_special_instructions := iv_special_instructions v;
                 oi_created_at := now |} ]) db).

(** *** [UPDATE orders]

    The [BEFORE UPDATE] row triggers of [orders] fire in name order:
    [set_updated_at_orders], then [track_order_status_changes]. *)
Definition before_update_orders (now : timestamp) (OLD NEW : order)
    (history : list status_history) : order * list status_history :=
  log_order_status_change now "UPDATE" OLD
    (update_updated_at_column now NEW) history.

(** The rows of [orders] are visited in turn; a row selected by the
    [WHERE] clause is replaced by the row its [SET] clause and the
    [BEFORE] triggers produce.  The [SET] clauses below leave [id] and
    [pickup_code] alone, so the unique indexes need no new check.
    Result: the new table, the (old, new) pairs of the updated rows and
    the history table. *)
Fixpoint update_rows (now : timestamp) (where_ : order -> bool)
    (set_ : order -> order) (rows : list order)
    (history : list status_history)
  : result (list order * list (order * order) * list status_history) :=
  match rows with
  | [] => Ok ([], [], history)
  | OLD :: rest =>
      if where_ OLD then
        let (NEW, history1) :=
          before_update_orders now OLD (set_ OLD) history in
        orders_row_checks NEW ;;;
        r <- update_rows now where_ set_ rest history1 ;;
        let '(rest', updated, history2) := r in
        Ok (NEW :: rest', (OLD, NEW) :: updated, history2)
      else
        r <- update_rows now where_ set_ rest history ;;
        let '(rest', updated, history2) := r in
        Ok (OLD :: rest', updated, history2)
  end.

(** A whole [UPDATE orders ... RETURNING]: the [AFTER UPDATE] trigger
    [create_order_ready_notification] runs for every updated row once
    the rows are written.  Returns the updated rows. *)
Definition update_orders (now : timestamp) (where_ : order -> bool)
    (set_ : order -> order) (db : database)
  : result (list order * database) :=
  r <- update_rows now where_ set_ (orders db)
         (order_status_history db) ;;
  let '(rows', updated, history') := r in
  let notifications' :=
    fold_left (fun ns p => notify_order_ready now "UPDATE" (fst p) (snd p) ns)
      updated (notifications db) in
  Ok (map snd updated,
      with_notifications notifications'
        (with_history history' (with_orders rows' db))).

(** [UPDATE orders SET status = :status
     WHERE id = :id AND status = :expected
     RETURNING id, status, pickup_code]
    (the source shows it for ['ready'] and ['preparing']). *)
Definition update_order_status (now : timestamp) (id : uuid)
    (expected status : string) (db : database)
  : result (list (uuid * string * string) * database) :=
  status' <- varchar 20 status ;;
  r <- update_orders now
         (fun o => String.eqb (o_id o) id
                   && String.eqb (o_status o) expected)
         (set_status status') db ;;
  Ok (map (fun o => (o_id o, o_status o, o_pickup_code o)) (fst r), snd r).

(** [UPDATE orders SET status = 'completed', completed_at = NOW()
     WHERE pickup_code = :code AND status = 'ready'
     RETURNING id, user_id]. *)
Definition complete_order_after_pickup (now : timestamp) (code : string)
    (db : database) : result (list (uuid * uuid) * database) :=
  r <- update_orders now
         (fun o => String.eqb (o_pickup_code o) code
                   && String.eqb (o_status o) "ready")
         (fun o => set_completed_at (Some now) (set_status "completed" o))
         db ;;
  Ok (map (fun o => (o_id o, o_user_id o)) (fst r), snd r).

(** [UPDATE orders SET status = 'cancelled'
     WHERE id = ANY(:ids) AND status IN ('placed', 'confirmed')
     RETURNING id, user_id, status]. *)
Definition cancel_orders (now : timestamp) (ids : list (option uuid))
    (db : database) : result (list (uuid * uuid * string) * database) :=
  r <- update_orders now
         (fun o => eq_any (o_id o) ids
                   && in_list (o_status o) ["placed"; "confirmed"])
         (set_status "cancelled") db ;;
  Ok (map (fun o => (o_id o, o_user_id o, o_status o)) (fst r), snd r).

End Statements.

Export Statements.

(** ** Queries *)

Module Queries.

(** The row of the staff order queue.  [q_age_minutes] is
    [EXTRACT(EPOCH FROM (NOW() - o.created_at)) / 60], timestamps
    counting microseconds. *)
Record queue_row : Type := {
  q_id : uuid;
  q_status : string;
  q_pickup_time : option timestamp;
  q_pickup_code : string;
  q_created_at : timestamp;
  q_age_minutes : QArith_base.Q;
  q_customer_name : string;
  q_customer_phone : option string;
  q_item_count : Z;
  q_total_amount : cents;
  q_notes : option string
}.

(** [CASE o.status WHEN 'placed' THEN 1 ... WHEN 'ready' THEN 4 END];
    [None] is the [NULL] of a status without a branch. *)
Definition status_priority (status : string) : option Z :=
  if String.eqb status "placed" then Some 1
  else if String.eqb status "confirmed" then Some 2
  else if String.eqb status "preparing" then Some 3
  else if String.eqb status "ready" then Some 4
  else None.

(** Ascending order of a nullable key, [NULL] last. *)
Definition option_leb (a b : option Z) : bool :=
  match a, b with
  | Some x, Some y => x <=? y
  | _, None => true
  | None, Some _ => false
  end.

Definition option_eqb (a b : option Z) : bool :=
  match a, b with
  | Some x, Some y => x =? y
  | None, None => true
  | _, _ => false
  end.

(** [ORDER BY CASE o.status ... END, o.created_at ASC]. *)
Definition queue_leb (r1 r2 : queue_row) : bool :=
  let k1 := status_priority (q_status r1) in
  let k2 := status_priority (q_status r2) in
  if option_eqb k1 k2 then q_created_at r1 <=? q_created_at r2
  else option_leb k1 k2.

(** [FROM orders o JOIN profiles p ON o.user_id = p.user_id
     LEFT JOIN order_items oi ON o.id = oi.order_id
     WHERE o.status IN ('placed', 'confirmed', 'preparing', 'ready')
     GROUP BY o.id, ..., p.full_name, p.phone, ...]:
    one row for an order and its owner's profile ([profiles.user_id] is
    unique), with the number of its items. *)
Definition queue_rows (now : timestamp) (db : database) : list queue_row :=
  flat_map
    (fun o =>
       map (fun p =>
              {| q_id := o_id o;
                 q_status := o_status o;
                 q_pickup_time := o_pickup_time o;
                 q_pickup_code := o_pickup_code o;
                 q_created_at := o_created_at o;
                 q_age_minutes :=
                   QArith_base.Qmake (now - o_created_at o) 60000000;
                 q_customer_name := p_full_name p;
                 q_customer_phone := p_phone p;
                 q_item_count :=
                   Z.of_nat
                     (List.length
                        (filter (fun oi => String.eqb (oi_order_id oi)
                                             (o_id o)) (order_items db)));
                 q_total_amount := o_total_amount o;
                 q_notes := o_notes o |})
         (filter (fun p => String.eqb (o_user_id o) (p_user_id p))
            (profiles db)))
    (filter (fun o => in_list (o_status o)
                        ["placed"; "confirmed"; "preparing"; "ready"])
       (orders db)).

(** Row of the pickup verification query. *)
Record pickup_row : Type := {
  pr_id : uuid;
  pr_user_id : uuid;
  pr_status : string;
  pr_pickup_code : string;
  pr_customer_name : string;
  pr_total_amount : cents;
  pr_items : list (string * Z)
}.

(** The pickup verification query of [common-operations.sql]: inner
    joins of the order with its owner's profile, its items and their
    menu items, grouped by order and customer name. *)
Definition pickup_verification_query (code : string) (db : database)
  : list pickup_row :=
  flat_map
    (fun o =>
       flat_map
         (fun p =>
            let items :=
              flat_map
                (fun oi =>
                   map (fun mi => (mi_name mi, oi_quantity oi))
                     (filter (fun mi => String.eqb (oi_menu_item_id oi)
                                          (mi_id mi)) (menu_items db)))
                (filter (fun oi => String.eqb (o_id o) (oi_order_id oi))
                   (order_items db)) in
            match items with
            | [] => []
            | _ :: _ =>
                [ {| pr_id := o_id o; pr_user_id := o_user_id o;
                     pr_status := o_status o;
                     pr_pickup_code := o_pickup_code o;
                     pr_customer_name := p_full_name p;
                     pr_total_amount := o_total_amount o;
                     pr_items := items |} ]
            end)
         (filter (fun p => String.eqb (o_user_id o) (p_user_id p))
            (profiles db)))
    (filter (fun o => String.eqb (o_pickup_code o) code
                      && String.eqb (o_status o) "ready") (orders db)).

End Queries.

Export Queries.

(** The sort of the queue: any sort by [queue_leb] is a possible answer of
    the query; the standard merge sort is taken. *)
Module QueueOrder <: Orders.TotalLeBool.
Definition t := queue_row.
Definition leb := queue_leb.
Theorem leb_total : forall r1 r2, leb r1 r2 = true \/ leb r2 r1 = true.
Proof.
  intros r1 r2. unfold leb, queue_leb.
  destruct (status_priority (q_status r1)) as [x|],
           (status_priority (q_status r2)) as [y|]; simpl; auto.
  - destruct (Z.eqb_spec x y) as [->|Hne].
    + rewrite Z.eqb_refl. lia.
    + destruct (Z.eqb_spec y x); [congruence | lia].
  - lia.
Qed.
End QueueOrder.

Module QueueSort := Mergesort.Sort QueueOrder.

(** The staff order queue: "Get active orders queue for staff dashboard". *)
Definition staff_order_queue (now : timestamp) (db : database)
  : list queue_row :=
  QueueSort.sort (queue_rows now db).

(** ** The order lifecycle as a transition system *)

Module Lifecycle.

(** The three statements that move an order to another status. *)
Inductive transition : Type :=
| to_status (id : uuid) (expected status : string)
| pickup_completed (code : string)
| cancelled_by_ids (ids : list (option uuid)).

Definition run_transition (now : timestamp) (t : transition)
    (db : database) : result database :=
  match t with
  | to_status id expected status =>
      r <- update_order_status now id expected status db ;; Ok (snd r)
  | pickup_completed code =>
      r <- complete_order_after_pickup now code db ;; Ok (snd r)
  | cancelled_by_ids ids =>
      r <- cancel_orders now ids db ;; Ok (snd r)
  end.

(** The statements the application issues. *)
Inductive command : Type :=
| sign_up (id : uuid) (full_name : option string)
| add_menu_item (name : string) (price : Z) (available : bool)
| disable_items (ids : list (option uuid))
| place_order (now : timestamp) (draws : list Z) (v : order_values)
| add_order_item (now : timestamp) (v : order_item_values)
| move (now : timestamp) (t : transition)
| read_notifications (now : timestamp) (user : uuid)
    (ids : option (list (option uuid))).

Definition execute (c : command) (db : database) : result database :=
  match c with
  | sign_up id full_name => auth_user_insert id full_name db
  | add_menu_item name price available =>
      insert_menu_item name price available db
  | disable_items ids => Ok (disable_menu_items ids db)
  | place_order now draws v =>
      r <- insert_order now draws v db ;; Ok (snd r)
  | add_order_item now v => insert_order_item now v db
  | move now t => run_transition now t db
  | read_notifications now user ids =>
      Ok (snd (mark_notifications_read now user ids db))
  end.

(** A script runs until a statement fails. *)
Fixpoint run (script : list command) (db : database) : result database :=
  match script with
  | [] => Ok db
  | c :: later => db1 <- execute c db ;; run later db1
  end.

(** One committed statement. *)
Definition step (db db' : database) : Prop :=
  exists c, execute c db = Ok db'.

(** The databases the application can be in: those obtained from the
    empty schema by committed statements. *)
Inductive reachable : database -> Prop :=
| reachable_empty : reachable empty_database
| reachable_step : forall db db',
    reachable db -> step db db' -> reachable db'.

(** What the table constraints and the sign-up trigger maintain. *)
Record consistent (db : database) : Prop := {
  order_ids_unique : NoDup (map o_id (orders db));
  pickup_codes_unique : NoDup (map o_pickup_code (orders db));
  pickup_codes_sized :
    Forall (fun o => o_pickup_code o <> ""
                     /\ (String.length (o_pickup_code o) <= 4)%nat)
      (orders db);
  statuses_checked :
    Forall (fun o => orders_status_check (o_status o) = true) (orders db);
  totals_checked : Forall (fun o => 0 <= o_total_amount o) (orders db);
  owners_are_users :
    Forall (fun o => In (o_user_id o) (auth_users db)) (orders db);
  users_have_profiles :
    Forall (fun u => exists p, In p (profiles db) /\ p_user_id p = u)
      (auth_users db);
  profile_users_unique : NoDup (map p_user_id (profiles db))
}.

(** The columns of an order that no status transition assigns: all but
    [status], [updated_at] and [completed_at]. *)
Definition same_fixed_columns (o o' : order) : Prop :=
  o_id o' = o_id o /\ o_user_id o' = o_user_id o
  /\ o_total_amount o' = o_total_amount o
  /\ o_pickup_time o' = o_pickup_time o
  /\ o_pickup_code o' = o_pickup_code o
  /\ o_notes o' = o_notes o
  /\ o_created_at o' = o_created_at o.

Definition keeps_fixed_columns (set_ : order -> order) : Prop :=
  forall o, same_fixed_columns o (set_ o).

(** The difference between the stored total and the sum of the items,
    per order. *)
Definition total_gap (db : database) (o : order) : Z :=
  o_total_amount o - order_items_sum (o_id o) db.

(** The tolerance of the total: at most 0.05, that is 5 cents. *)
Definition total_within_tolerance (db : database) (o : order) : Prop :=
  Z.abs (total_gap db o) <= 5.

(** The status graph as the specification words it:
    placed -> confirmed -> preparing -> ready -> completed, and cancelled
    from placed or confirmed only. *)
Definition legal_successor (current next : string) : bool :=
  (String.eqb current "placed" && String.eqb next "confirmed")
  || (String.eqb current "confirmed" && String.eqb next "preparing")
  || (String.eqb current "preparing" && String.eqb next "ready")
  || (String.eqb current "ready" && String.eqb next "completed")
  || (String.eqb current "placed" && String.eqb next "cancelled")
  || (String.eqb current "confirmed" && String.eqb next "cancelled").

(** A code of four decimal digits. *)
Definition is_digit (c : ascii) : bool :=
  let n := nat_of_ascii c in Nat.leb 48 n && Nat.leb n 57.

Fixpoint all_digits (s : string) : bool :=
  match s with
  | EmptyString => true
  | String c rest => is_digit c && all_digits rest
  end.

Definition four_digit_code (s : string) : bool :=
  Nat.eqb (String.length s) 4 && all_digits s.

(** A notification that [markRead(user, ids?)] is to mark: one of the
    user's, unread, and among [ids] when they are given. *)
Definition unread_selected (user : uuid)
    (ids : option (list (option uuid))) (n : notification) : Prop :=
  n_user_id n = user /\ n_read_at n = None
  /\ match ids with
     | None => True
     | Some l => In (Some (n_id n)) l
     end.

(** The order with a given key. *)
Definition order_by_id (id : uuid) (db : database) : option order :=
  find (fun o => String.eqb (o_id o) id) (orders db).

(** The fixed status priority of the queue,
    placed < confirmed < preparing < ready, as the specification words
    it: a status comes before those that follow it in this chain. *)
Definition priority_chain : list string :=
  ["placed"; "confirmed"; "preparing"; "ready"].

Fixpoint position_in (s : string) (chain : list string) : option nat :=
  match chain with
  | [] => None
  | s' :: later =>
      if String.eqb s s' then Some O
      else option_map S (position_in s later)
  end.

(** The order of the queue in the specification's words: status priority
    first, creation time ascending within one status. *)
Definition queue_before (r1 r2 : queue_row) : Prop :=
  match position_in (q_status r1) priority_chain,
        position_in (q_status r2) priority_chain with
  | Some k1, Some k2 =>
      (k1 < k2)%nat \/ (k1 = k2 /\ q_created_at r1 <= q_created_at r2)
  | _, _ => False
  end.

(** The user has a row in [profiles]. *)
Definition has_profile (user : uuid) (db : database) : bool :=
  existsb (fun p => String.eqb user (p_user_id p)) (profiles db).

End Lifecycle.

Export Lifecycle.

(** ** A worked scenario

    The checkout transaction of [common-operations.sql] (an order of 24.50
    with its four items), run on a database with one customer, one staff
    member and the four menu items it names. *)

Module Checkout.

Definition customer : uuid := "customer-1".
Definition staff : uuid := "staff-1".

Definition setup : list command :=
  [ sign_up customer (Some "Ana");
    sign_up staff (Some "Luis");
    add_menu_item "Cheeseburger" 900 true;
    add_menu_item "French Fries" 350 true;
    add_menu_item "Latte" 400 true;
    add_menu_item "Brownie" 350 true ].

Definition order_values_1 : order_values :=
  {| v_user_id := customer; v_status := Some "placed";
     v_total_amount := 2450; v_pickup_time := Some 1800001000;
     v_pickup_code := None; v_notes := Some "Extra napkins please" |}.

(** The keys [fresh_uuid] hands out are "0", "00", "000", ... per table. *)
Definition item (menu_item_id : uuid) (quantity unit_price : Z)
    (instructions : option string) : command :=
  add_order_item 1000
    {| iv_order_id := "0"; iv_menu_item_id := menu_item_id;
       iv_quantity := Some quantity; iv_unit_price := unit_price;
       iv_special_instructions := instructions |}.

Definition checkout : list command :=
  [ place_order 1000 [1234] order_values_1;
    item "0" 1 900 (Some "No onions");
    item "00" 2 350 None;
    item "000" 1 400 (Some "Extra shot");
    item "0000" 1 350 None ].

Definition order_values_2 : order_values :=
  {| v_user_id := customer; v_status := None;
     v_total_amount := 400; v_pickup_time := None;
     v_pickup_code := None; v_notes := None |}.

(** A second order; its first draw repeats the code of the first order. *)
Definition second_order : list command :=
  [ place_order 2000 [1234; 77] order_values_2 ].

(** The first order through the kitchen, up to [ready]. *)
Definition cooking : list command :=
  [ move 3000 (to_status "0" "placed" "confirmed");
    move 4000 (to_status "0" "confirmed" "preparing") ].

Definition kitchen : list command :=
  cooking ++ [ move 5000 (to_status "0" "preparing" "ready") ].

Definition outcome (script : list command) : database :=
  match run script empty_database with
  | Ok db => db
  | _ => empty_database
  end.

Definition order_inserted : database :=
  Eval vm_compute in
    outcome (setup ++ [place_order 1000 [1234] order_values_1]).

Definition checked_out : database :=
  Eval vm_compute in outcome (setup ++ checkout).

Definition two_orders : database :=
  Eval vm_compute in outcome (setup ++ checkout ++ second_order).

Definition first_preparing : database :=
  Eval vm_compute in
    outcome (setup ++ checkout ++ second_order ++ cooking).

Definition first_ready : database :=
  Eval vm_compute in
    outcome (setup ++ checkout ++ second_order ++ kitchen).

Definition first_completed : database :=
  Eval vm_compute in
    outcome (setup ++ checkout ++ second_order ++ kitchen
             ++ [move 6000 (pickup_completed "1234")]).

End Checkout.

(** ** Role checks, reports and the notification inbox

    The remaining functions of the functions file that can be embedded,
    and the notification statements of [common-operations.sql].
    [get_popular_items] and [get_user_order_stats] return a
    [VARCHAR(255)] column where their result type says [TEXT], and
    [get_avg_prep_time] works on floating-point percentiles; they are
    left out. *)

Module Roles.

(** [SELECT role INTO user_role FROM profiles WHERE user_id = p_user_id];
    [None] is the [NULL] left in [user_role] when the user has no
    profile. *)
Definition user_role (user : uuid) (db : database) : option string :=
  option_map p_role
    (find (fun p => String.eqb (p_user_id p) user) (profiles db)).

(** [is_staff(p_user_id)]: [user_role IN ('staff', 'admin')], [NULL] for
    a [NULL] role. *)
Definition is_staff (user : uuid) (db : database) : option bool :=
  option_map (fun role => in_list role ["staff"; "admin"])
    (user_role user db).

(** [is_admin(p_user_id)]: [user_role = 'admin']. *)
Definition is_admin (user : uuid) (db : database) : option bool :=
  option_map (fun role => String.eqb role "admin") (user_role user db).

(** A database with a student, a staff member and an admin. *)
Definition roster : database :=
  {| auth_users := ["u-student"; "u-staff"; "u-admin"];
     profiles :=
       [ {| p_id := "0"; p_user_id := "u-student"; p_full_name := "Ana";
            p_phone := None; p_role := "student" |};
         {| p_id := "00"; p_user_id := "u-staff"; p_full_name := "Luis";
            p_phone := None; p_role := "staff" |};
         {| p_id := "000"; p_user_id := "u-admin"; p_full_name := "Eva";
            p_phone := None; p_role := "admin" |} ];
     menu_items := []; orders := []; order_items := [];
     order_status_history := []; notifications := [] |}.

End Roles.

Export Roles.

Module Reports.

(** Timestamps count microseconds: [EXTRACT(HOUR FROM t)] and [DATE(t)],
    the latter as a day number. *)
Definition hour_of_timestamp (t : timestamp) : Z :=
  (t / 3600000000) mod 24.

Definition date_of_timestamp (t : timestamp) : Z := t / 86400000000.

(** The row of [get_peak_hours_stats], without [avg_order_value] (the
    rounded quotient of the revenue and the count). *)
Record peak_hour_row : Type := {
  ph_hour_of_day : Z;
  ph_order_count : Z;
  ph_total_revenue : cents
}.

(** [WHERE DATE(created_at) BETWEEN p_start_date AND p_end_date
     AND status NOT IN ('cancelled')]. *)
Definition counted_in_peak_hours (p_start_date p_end_date : Z) (o : order)
  : bool :=
  (p_start_date <=? date_of_timestamp (o_created_at o))
  && (date_of_timestamp (o_created_at o) <=? p_end_date)
  && negb (in_list (o_status o) ["cancelled"]).

Definition hours_of_day : list Z := map Z.of_nat (seq 0 24).

(** [get_peak_hours_stats(p_start_date, p_end_date)]:
    [GROUP BY EXTRACT(HOUR FROM created_at) ORDER BY hour_of_day], written
    as a pass over the hours of the day that keeps the hours with an
    order. *)
Definition get_peak_hours_stats (p_start_date p_end_date : Z)
    (db : database) : list peak_hour_row :=
  let selected :=
    filter (counted_in_peak_hours p_start_date p_end_date) (orders db) in
  flat_map
    (fun h =>
       match filter (fun o => hour_of_timestamp (o_created_at o) =? h)
               selected with
       | [] => []
       | o :: group =>
           [ {| ph_hour_of_day := h;
                ph_order_count := Z.of_nat (List.length (o :: group));
                ph_total_revenue :=
                  fold_right Z.add 0 (map o_total_amount (o :: group)) |} ]
       end)
    hours_of_day.

End Reports.

Export Reports.

Module Inbox.

(** The row of the unread-notifications query. *)
Record unread_row : Type := {
  u_id : uuid;
  u_type : string;
  u_title : string;
  u_message : string;
  u_sent_at : timestamp;
  u_order_id : option uuid
}.

Definition unread_row_of (n : notification) : unread_row :=
  {| u_id := n_id n; u_type := n_type n; u_title := n_title n;
     u_message := n_message n; u_sent_at := n_sent_at n;
     u_order_id := n_order_id n |}.

(** [WHERE user_id = :user AND read_at IS NULL]. *)
Definition unread_of (user : uuid) (n : notification) : bool :=
  String.eqb (n_user_id n) user
  && match n_read_at n with None => true | Some _ => false end.

(** [ORDER BY sent_at DESC]. *)
Definition sent_after (n1 n2 : notification) : bool :=
  n_sent_at n2 <=? n_sent_at n1.

(** [UPDATE notifications SET read_at = NOW()
     WHERE user_id = :user AND id = ANY(:ids)], the statement of
    [common-operations.sql]; unlike the function it has no
    [read_at IS NULL]. *)
Definition mark_read_statement (now : timestamp) (user : uuid)
    (ids : list (option uuid)) (db : database) : database :=
  with_notifications
    (map (fun n => if String.eqb (n_user_id n) user && eq_any (n_id n) ids
                   then set_read_at (Some now) n else n)
       (notifications db)) db.

End Inbox.

Export Inbox.

Module SentOrder <: Orders.TotalLeBool.
Definition t := notification.
Definition leb := sent_after.
Definition leb_total (n1 n2 : notification)
  : leb n1 n2 = true \/ leb n2 n1 = true.
Proof. unfold leb, sent_after. lia. Qed.
End SentOrder.

Module SentSort := Mergesort.Sort SentOrder.

(** "Get unread notifications for user": newest first, 50 at most. *)
Definition unread_notifications (user : uuid) (db : database)
  : list unread_row :=
  map unread_row_of
    (firstn 50 (SentSort.sort (filter (unread_of user) (notifications db)))).

(** ** Referential integrity

    What the foreign keys, the [CHECK] constraints of [order_items] and
    the guards of the triggers maintain, beside [consistent]. *)

Module Integrity.

Record referenced (db : database) : Prop := {
  items_checked :
    Forall (fun oi => 1 <= oi_quantity oi /\ 0 <= oi_unit_price oi)
      (order_items db);
  items_of_orders :
    Forall (fun oi => In (oi_order_id oi) (map o_id (orders db)))
      (order_items db);
  items_of_menu :
    Forall (fun oi => In (oi_menu_item_id oi) (map mi_id (menu_items db)))
      (order_items db);
  history_of_orders :
    Forall (fun h => In (h_order_id h) (map o_id (orders db)))
      (order_status_history db);
  history_of_changes :
    Forall (fun h => exists s, h_previous_status h = Some s
                               /\ s <> h_new_status h)
      (order_status_history db);
  notifications_of_users :
    Forall (fun n => In (n_user_id n) (auth_users db)) (notifications db);
  notifications_of_orders :
    Forall (fun n => exists id, n_order_id n = Some id
                                /\ In id (map o_id (orders db)))
      (notifications db)
}.

(** The row an [UPDATE orders] stores for a selected row [o]: the [SET]
    clause, then the [BEFORE] triggers (their effect on the row does not
    depend on the history table). *)
Definition updated_row (now : timestamp) (set_ : order -> order) (o : order)
  : order :=
  fst (before_update_orders now o (set_ o) []).

(** The [WHERE] clauses of the two fixed transitions. *)
Definition awaiting_pickup (code : string) (o : order) : bool :=
  String.eqb (o_pickup_code o) code && String.eqb (o_status o) "ready".

Definition cancellable (ids : list (option uuid)) (o : order) : bool :=
  eq_any (o_id o) ids && in_list (o_status o) ["placed"; "confirmed"].

(** Reading a four-digit code back as a number. *)
Fixpoint number_of_digits (acc : Z) (s : string) : Z :=
  match s with
  | EmptyString => acc
  | String c rest =>
      number_of_digits (10 * acc + (Z.of_nat (nat_of_ascii c) - 48)) rest
  end.

End Integrity.

Export Integrity.

(** ** The items of a pickup

    The pairs of item name and quantity that the pickup verification
    query aggregates for an order: its order items joined with their menu
    items. *)
Definition pickup_items (o : order) (db : database) : list (string * Z) :=
  flat_map
    (fun oi =>
       map (fun mi => (mi_name mi, oi_quantity oi))
         (filter (fun mi => String.eqb (oi_menu_item_id oi) (mi_id mi))
            (menu_items db)))
    (filter (fun oi => String.eqb (o_id o) (oi_order_id oi))
       (order_items db)).

(** ** Further scenarios *)

Module Rush.

(** Five orders of the customer of the checkout scenario, placed one
    after the other; the older an order the further it has come: the
    first is ready, the second in preparation, the third confirmed, the
    last two still placed. *)
Definition orders_placed : list command :=
  [ place_order 1000 [1] Checkout.order_values_2;
    place_order 2000 [2] Checkout.order_values_2;
    place_order 3000 [3] Checkout.order_values_2;
    place_order 4000 [4] Checkout.order_values_2;
    place_order 5000 [5] Checkout.order_values_2 ].

Definition orders_moved : list command :=
  [ move 6000 (to_status "0" "placed" "confirmed");
    move 6100 (to_status "0" "confirmed" "preparing");
    move 6200 (to_status "0" "preparing" "ready");
    move 6300 (to_status "00" "placed" "confirmed");
    move 6400 (to_status "00" "confirmed" "preparing");
    move 6500 (to_status "000" "placed" "confirmed") ].

Definition rush_hour : database :=
  Eval vm_compute in
    Checkout.outcome (Checkout.setup ++ orders_placed ++ orders_moved).

(** The second order of the checkout scenario, which has no items, made
    ready. *)
Definition second_ready : database :=
  Eval vm_compute in
    Checkout.outcome
      (Checkout.setup ++ Checkout.checkout ++ Checkout.second_order
       ++ [ move 3000 (to_status "00" "placed" "confirmed");
            move 4000 (to_status "00" "confirmed" "preparing");
            move 5000 (to_status "00" "preparing" "ready") ]).

(** The database of the two orders after the customer's profile row is
    removed ([DELETE FROM profiles WHERE user_id = ...]; no table
    references [profiles], and the seed script asks to "remove all test
    user profiles" for production): the account in [auth.users] and its
    orders stay. *)
Definition profile_removed : database :=
  Eval vm_compute in
    {| auth_users := auth_users Checkout.two_orders;
       profiles :=
         filter (fun p => negb (String.eqb (p_user_id p) Checkout.customer))
           (profiles Checkout.two_orders);
       menu_items := menu_items Checkout.two_orders;
       orders := orders Checkout.two_orders;
       order_items := order_items Checkout.two_orders;
       order_status_history := order_status_history Checkout.two_orders;
       notifications := notifications Checkout.two_orders |}.

End Rush.

(** * Properties *)

(** ** Results and guards *)

Lemma bind_Ok {A B : Type} (m : result A) (k : A -> result B) (b : B) :
  bind m k = Ok b -> exists a, m = Ok a /\ k a = Ok b.
Proof.
  destruct m as [a| |]; simpl; intros H; try discriminate.
  exists a; auto.
Qed.

Lemma guard_Ok {B : Type} (c : bool) (e : sql_error) (k : result B) (b : B) :
  (guard c e ;;; k) = Ok b -> c = true /\ k = Ok b.
Proof.
  destruct c; simpl; intros H; [auto | discriminate].
Qed.

Lemma in_list_In (x : string) (l : list string) :
  in_list x l = true <-> In x l.
Proof.
  unfold in_list. rewrite existsb_exists. split.
  - intros [y [Hy He]]. apply String.eqb_eq in He. subst; assumption.
  - intros Hx. exists x. split; [assumption | apply String.eqb_refl].
Qed.

Lemma in_list_not_In (x : string) (l : list string) :
  in_list x l = false <-> ~ In x l.
Proof.
  rewrite <- in_list_In. destruct (in_list x l); split; intros H;
    try discriminate; try reflexivity; try (intros H1; discriminate).
  exfalso; apply H; reflexivity.
Qed.

(** ** Strings *)

Lemma length_append (s1 s2 : string) :
  String.length (s1 ++ s2)%string = (String.length s1 + String.length s2)%nat.
Proof.
  induction s1 as [|c s1 IH]; simpl; [reflexivity | now rewrite IH].
Qed.

Lemma length_substring_0 (n : nat) (s : string) :
  (n <= String.length s)%nat -> String.length (substring 0 n s) = n.
Proof.
  revert s. induction n as [|n IH]; intros s Hn.
  - destruct s; reflexivity.
  - destruct s as [|c s]; simpl in *; [lia |].
    rewrite IH; [reflexivity | lia].
Qed.

Lemma length_repeat_string_0 (n : nat) :
  String.length (repeat_string n "0") = n.
Proof.
  induction n as [|n IH]; simpl; [reflexivity | now rewrite IH].
Qed.

Lemma max_length_bound (l : list string) (s : string) :
  In s l -> (String.length s <= max_length l)%nat.
Proof.
  induction l as [|x l IH]; simpl; [tauto |].
  intros [->|Hs]; [lia |]. specialize (IH Hs). lia.
Qed.

(** A generated key is new to the table it is generated for. *)
Lemma fresh_uuid_new (used : list uuid) : ~ In (fresh_uuid used) used.
Proof.
  intros Hin. apply max_length_bound in Hin.
  unfold fresh_uuid in Hin. rewrite length_repeat_string_0 in Hin. lia.
Qed.

Lemma LPAD_length_4 (s : string) : String.length (LPAD s 4 "0") = 4%nat.
Proof.
  unfold LPAD. destruct (Nat.leb 4 (String.length s)) eqn:Hle.
  - apply Nat.leb_le in Hle. now apply length_substring_0.
  - apply Nat.leb_gt in Hle. rewrite length_append.
    rewrite length_substring_0; [lia |].
    rewrite length_repeat_string_0. lia.
Qed.

Lemma code_of_draw_length (d : Z) : String.length (code_of_draw d) = 4%nat.
Proof. apply LPAD_length_4. Qed.

Lemma varchar_Ok_length (n : nat) (s s' : string) :
  varchar n s = Ok s' -> (String.length s' <= n)%nat.
Proof.
  unfold varchar. destruct (Nat.leb (String.length s) n) eqn:Hle.
  - intros H; injection H as <-. now apply Nat.leb_le.
  - destruct (all_spaces _); intros H; [|discriminate].
    injection H as <-. apply Nat.leb_gt in Hle.
    rewrite length_substring_0; lia.
Qed.

Lemma varchar_short (n : nat) (s : string) :
  (String.length s <= n)%nat -> varchar n s = Ok s.
Proof.
  intros H. unfold varchar. apply Nat.leb_le in H. now rewrite H.
Qed.

Lemma orders_status_check_length (s : string) :
  orders_status_check s = true -> (String.length s <= 20)%nat.
Proof.
  intros H. apply in_list_In in H. simpl in H.
  repeat (destruct H as [<-|H]; [simpl; lia |]). contradiction.
Qed.

(** ** The [UPDATE orders] engine *)

Lemma same_fixed_columns_refl (o : order) : same_fixed_columns o o.
Proof. unfold same_fixed_columns; repeat split. Qed.

Lemma same_fixed_columns_trans (o1 o2 o3 : order) :
  same_fixed_columns o1 o2 -> same_fixed_columns o2 o3 ->
  same_fixed_columns o1 o3.
Proof.
  unfold same_fixed_columns. intros H1 H2.
  repeat match goal with H : _ /\ _ |- _ => destruct H end.
  repeat split; congruence.
Qed.

Lemma set_status_fixed (s : string) : keeps_fixed_columns (set_status s).
Proof. intros o. unfold same_fixed_columns; repeat split. Qed.

Lemma set_completed_fixed (now : timestamp) :
  keeps_fixed_columns
    (fun o => set_completed_at (Some now) (set_status "completed" o)).
Proof. intros o. unfold same_fixed_columns; repeat split. Qed.

Lemma before_update_fixed (now : timestamp) (OLD NEW : order)
    (h : list status_history) :
  same_fixed_columns OLD NEW ->
  same_fixed_columns OLD (fst (before_update_orders now OLD NEW h)).
Proof.
  intros H. unfold before_update_orders, log_order_status_change.
  eapply same_fixed_columns_trans; [exact H |].
  destruct (_ && _); simpl; [destruct (String.eqb _ "completed") |];
    unfold same_fixed_columns; repeat split.
Qed.

Lemma before_update_status (now : timestamp) (OLD NEW : order)
    (h : list status_history) :
  o_status (fst (before_update_orders now OLD NEW h)) = o_status NEW.
Proof.
  unfold before_update_orders, log_order_status_change.
  destruct (_ && _); simpl; [destruct (String.eqb _ "completed") |];
    reflexivity.
Qed.

(** Row by row, an update keeps the fixed columns, and a row it rewrote
    passed the [CHECK] constraints. *)
Lemma update_rows_Forall2 (now : timestamp) (where_ : order -> bool)
    (set_ : order -> order) :
  keeps_fixed_columns set_ ->
  forall rows h rows' updated h',
    update_rows now where_ set_ rows h = Ok (rows', updated, h') ->
    Forall2 (fun o o' =>
               same_fixed_columns o o'
               /\ (o' = o \/ orders_row_checks o' = Ok tt)) rows rows'.
Proof.
  intros Hset. induction rows as [|OLD rest IH]; intros h rows' updated h' H.
  - simpl in H. injection H as <- <- <-. constructor.
  - simpl in H. destruct (where_ OLD).
    + pose proof (before_update_fixed now OLD (set_ OLD) h (Hset OLD)) as Hfix.
      destruct (before_update_orders now OLD (set_ OLD) h) as [NEW h1].
      simpl in Hfix.
      destruct (orders_row_checks NEW) as [[]| |] eqn:Hchk;
        simpl in H; try discriminate.
      apply bind_Ok in H. destruct H as [[[rest' upd'] h2] [Hrec H]].
      injection H as <- <- <-.
      constructor; [split; [exact Hfix | right; exact Hchk] |].
      eapply IH; eassumption.
    + apply bind_Ok in H. destruct H as [[[rest' upd'] h2] [Hrec H]].
      injection H as <- <- <-.
      constructor; [split; [apply same_fixed_columns_refl | left; reflexivity] |].
      eapply IH; eassumption.
Qed.

(** An update that selects no row changes nothing. *)
Lemma update_rows_miss (now : timestamp) (where_ : order -> bool)
    (set_ : order -> order) (rows : list order) (h : list status_history) :
  Forall (fun o => where_ o = false) rows ->
  update_rows now where_ set_ rows h = Ok (rows, [], h).
Proof.
  induction 1 as [|o rest Ho Hrest IH]; simpl; [reflexivity |].
  rewrite Ho, IH. reflexivity.
Qed.

(** An update that selects one row rewrites that row. *)
Lemma update_rows_hit (now : timestamp) (where_ : order -> bool)
    (set_ : order -> order) (l1 l2 : list order) (o : order)
    (h : list status_history) :
  Forall (fun x => where_ x = false) l1 ->
  Forall (fun x => where_ x = false) l2 ->
  where_ o = true ->
  orders_row_checks (fst (before_update_orders now o (set_ o) h)) = Ok tt ->
  update_rows now where_ set_ (l1 ++ o :: l2) h
  = Ok (l1 ++ fst (before_update_orders now o (set_ o) h) :: l2,
        [(o, fst (before_update_orders now o (set_ o) h))],
        snd (before_update_orders now o (set_ o) h)).
Proof.
  intros H1 H2 Ho Hchk. induction H1 as [|x l1 Hx Hl1 IH]; simpl.
  - rewrite Ho.
    destruct (before_update_orders now o (set_ o) h) as [NEW h1].
    simpl in *. rewrite Hchk. simpl.
    rewrite (update_rows_miss now where_ set_ l2 h1 H2). reflexivity.
  - rewrite Hx, IH. reflexivity.
Qed.

Lemma update_orders_tables (now : timestamp) (where_ : order -> bool)
    (set_ : order -> order) (db db' : database) (rows : list order) :
  update_orders now where_ set_ db = Ok (rows, db') ->
  auth_users db' = auth_users db /\ profiles db' = profiles db
  /\ menu_items db' = menu_items db /\ order_items db' = order_items db
  /\ exists updated h',
       update_rows now where_ set_ (orders db) (order_status_history db)
       = Ok (orders db', updated, h').
Proof.
  unfold update_orders. intros H.
  apply bind_Ok in H. destruct H as [[[rows' updated] h'] [Hrows H]].
  injection H as <- <-. simpl. repeat split. eauto.
Qed.

(** ** Status transitions and the other tables *)

Lemma run_transition_rows (now : timestamp) (t : transition)
    (db db' : database) :
  run_transition now t db = Ok db' ->
  auth_users db' = auth_users db /\ profiles db' = profiles db
  /\ menu_items db' = menu_items db /\ order_items db' = order_items db
  /\ Forall2 (fun o o' =>
                same_fixed_columns o o'
                /\ (o' = o \/ orders_row_checks o' = Ok tt))
       (orders db) (orders db').
Proof.
  intros H.
  assert (exists where_ set_ rows,
             keeps_fixed_columns set_
             /\ update_orders now where_ set_ db = Ok (rows, db'))
    as (where_ & set_ & rows & Hset & Hupd).
  { destruct t as [id expected status | code | ids]; simpl in H.
    - unfold update_order_status in H.
      apply bind_Ok in H. destruct H as [[r d] [H Hd]].
      injection Hd as <-.
      apply bind_Ok in H. destruct H as [status' [_ H]].
      apply bind_Ok in H. destruct H as [[rows d'] [H Hd]].
      injection Hd as _ <-.
      eexists _, _, _. split; [apply (set_status_fixed status') | exact H].
    - unfold complete_order_after_pickup in H.
      apply bind_Ok in H. destruct H as [[r d] [H Hd]].
      injection Hd as <-.
      apply bind_Ok in H. destruct H as [[rows d'] [H Hd]].
      injection Hd as _ <-.
      eexists _, _, _. split; [apply (set_completed_fixed now) | exact H].
    - unfold cancel_orders in H.
      apply bind_Ok in H. destruct H as [[r d] [H Hd]].
      injection Hd as <-.
      apply bind_Ok in H. destruct H as [[rows d'] [H Hd]].
      injection Hd as _ <-.
      eexists _, _, _. split; [apply (set_status_fixed "cancelled") | exact H]. }
  apply update_orders_tables in Hupd.
  destruct Hupd as (Ha & Hp & Hm & Hi & updated & h' & Hrows).
  repeat split; try assumption.
  eapply update_rows_Forall2; eassumption.
Qed.

Lemma Forall2_map_eq {A B : Type} (f : A -> B) (R : A -> A -> Prop)
    (l l' : list A) :
  (forall x y, R x y -> f y = f x) -> Forall2 R l l' -> map f l' = map f l.
Proof.
  intros HR H. induction H as [|x y l l' Hxy _ IH]; simpl;
    [reflexivity | now rewrite (HR x y Hxy), IH].
Qed.

Lemma Forall2_Forall_r {A : Type} (R : A -> A -> Prop) (P : A -> Prop)
    (l l' : list A) :
  (forall x y, R x y -> P x -> P y) ->
  Forall2 R l l' -> Forall P l -> Forall P l'.
Proof.
  intros HR H. induction H as [|x y l l' Hxy _ IH]; intros HP;
    [constructor |].
  inversion HP; subst. constructor; eauto.
Qed.

Lemma orders_row_checks_Ok (o : order) :
  orders_row_checks o = Ok tt ->
  orders_status_check (o_status o) = true /\ 0 <= o_total_amount o.
Proof.
  unfold orders_row_checks. intros H.
  apply guard_Ok in H. destruct H as [Hs H].
  split; [exact Hs |].
  destruct (0 <=? o_total_amount o) eqn:Ht; simpl in H; [|discriminate].
  now apply Z.leb_le.
Qed.

Lemma orders_row_checks_pass (o : order) :
  orders_status_check (o_status o) = true -> 0 <= o_total_amount o ->
  orders_row_checks o = Ok tt.
Proof.
  intros Hs Ht. unfold orders_row_checks. rewrite Hs. simpl.
  apply Z.leb_le in Ht. now rewrite Ht.
Qed.

(** ** Consistency is kept by every committed statement *)

Lemma transition_consistent (now : timestamp) (t : transition)
    (db db' : database) :
  consistent db -> run_transition now t db = Ok db' -> consistent db'.
Proof.
  intros [Hid Hcode Hsize Hst Htot Hown Husr Hprof] H.
  apply run_transition_rows in H.
  destruct H as (Ha & Hp & _ & _ & HF).
  constructor.
  - erewrite (Forall2_map_eq o_id); [exact Hid | | exact HF].
    intros x y [Hxy _]. apply Hxy.
  - erewrite (Forall2_map_eq o_pickup_code); [exact Hcode | | exact HF].
    intros x y [Hxy _]. apply Hxy.
  - eapply Forall2_Forall_r; [| exact HF | exact Hsize].
    intros x y [Hxy _] Hx. simpl in *.
    destruct Hxy as (_ & _ & _ & _ & -> & _). exact Hx.
  - eapply Forall2_Forall_r; [| exact HF | exact Hst].
    intros x y [_ [->|Hchk]] Hx; [exact Hx |].
    now apply orders_row_checks_Ok in Hchk.
  - eapply Forall2_Forall_r; [| exact HF | exact Htot].
    intros x y [Hxy _] Hx. simpl in *.
    destruct Hxy as (_ & _ & -> & _). exact Hx.
  - rewrite Ha. eapply Forall2_Forall_r; [| exact HF | exact Hown].
    intros x y [Hxy _] Hx. simpl in *.
    destruct Hxy as (_ & -> & _). exact Hx.
  - rewrite Ha, Hp. exact Husr.
  - rewrite Hp. exact Hprof.
Qed.

Lemma consistent_same_core (db db' : database) :
  auth_users db' = auth_users db -> profiles db' = profiles db ->
  orders db' = orders db -> consistent db -> consistent db'.
Proof.
  intros Ha Hp Ho [Hid Hcode Hsize Hst Htot Hown Husr Hprof].
  constructor; rewrite ?Ha, ?Hp, ?Ho; assumption.
Qed.

Lemma generate_pickup_code_length (draws : list Z) (db : database)
    (code : string) :
  generate_pickup_code draws db = Ok code -> String.length code = 4%nat.
Proof.
  induction draws as [|d later IH]; simpl; [discriminate |].
  destruct (negb (code_exists (code_of_draw d) db)); [|exact IH].
  intros H; injection H as <-. apply code_of_draw_length.
Qed.

Lemma set_pickup_code_sized (draws : list Z) (given : option string)
    (db : database) (code : string) :
  (forall c, given = Some c -> (String.length c <= 4)%nat) ->
  set_pickup_code draws given db = Ok code ->
  code <> "" /\ (String.length code <= 4)%nat.
Proof.
  intros Hgiven H.
  assert (generate_pickup_code draws db = Ok code ->
          code <> "" /\ (String.length code <= 4)%nat) as Hgen.
  { intros Hg. apply generate_pickup_code_length in Hg.
    split; [intros -> ; discriminate | lia]. }
  unfold set_pickup_code in H. destruct given as [c|]; [|auto].
  destruct (String.eqb_spec c ""); [auto |].
  injection H as <-. split; [assumption | now apply Hgiven].
Qed.

(** What a committed [INSERT INTO orders] has checked and written. *)
Lemma insert_order_Ok (now : timestamp) (draws : list Z) (v : order_values)
    (db db' : database) (r : uuid * string) :
  insert_order now draws v db = Ok (r, db') ->
  exists NEW,
    db' = with_notifications
            (notify_order_placed now NEW (notifications db))
            (with_orders (orders db ++ [NEW]) db)
    /\ r = (o_id NEW, o_pickup_code NEW)
    /\ o_id NEW = fresh_uuid (map o_id (orders db))
    /\ o_user_id NEW = v_user_id v
    /\ o_total_amount NEW = v_total_amount v
    /\ o_created_at NEW = now
    /\ orders_row_checks NEW = Ok tt
    /\ ~ In (o_pickup_code NEW) (map o_pickup_code (orders db))
    /\ In (v_user_id v) (auth_users db)
    /\ (o_pickup_code NEW <> ""
        /\ (String.length (o_pickup_code NEW) <= 4)%nat).
Proof.
  unfold insert_order. intros H.
  apply bind_Ok in H. destruct H as [status [Hstatus H]].
  apply bind_Ok in H. destruct H as [total [Htotal H]].
  apply bind_Ok in H. destruct H as [given [Hgiven H]].
  apply bind_Ok in H. destruct H as [code [Hcode H]].
  match type of H with
  | (orders_row_checks ?N ;;; _) = _ => set (NEW := N) in *
  end.
  destruct (orders_row_checks NEW) as [[]| |] eqn:Hchk; simpl in H;
    try discriminate.
  apply guard_Ok in H. destruct H as [Huniq H].
  apply guard_Ok in H. destruct H as [Hfk H].
  injection H as <- <-.
  exists NEW. repeat split; try assumption.
  - unfold decimal_10_2 in Htotal.
    destruct (Z.abs _ <? 10 ^ 10); [|discriminate].
    injection Htotal as <-. reflexivity.
  - apply negb_true_iff in Huniq. now apply in_list_not_In in Huniq.
  - now apply in_list_In.
  - eapply set_pickup_code_sized; [| exact Hcode].
    intros c ->. destruct (v_pickup_code v) as [c0|]; [|discriminate].
    apply bind_Ok in Hgiven. destruct Hgiven as [c' [Hv Hc]].
    injection Hc as <-. eapply varchar_Ok_length; exact Hv.
  - eapply set_pickup_code_sized; [| exact Hcode].
    intros c ->. destruct (v_pickup_code v) as [c0|]; [|discriminate].
    apply bind_Ok in Hgiven. destruct Hgiven as [c' [Hv Hc]].
    injection Hc as <-. eapply varchar_Ok_length; exact Hv.
Qed.

Lemma NoDup_snoc {A : Type} (l : list A) (x : A) :
  NoDup l -> ~ In x l -> NoDup (l ++ [x]).
Proof.
  intros Hl Hx. induction Hl as [|y l Hy Hl IH]; simpl.
  - constructor; [intros [] | constructor].
  - constructor.
    + rewrite in_app_iff. intros [Hin|[->|[]]]; [contradiction |].
      apply Hx. left; reflexivity.
    + apply IH. intros Hin. apply Hx. right; assumption.
Qed.

Lemma insert_order_consistent (now : timestamp) (draws : list Z)
    (v : order_values) (db db' : database) (r : uuid * string) :
  consistent db -> insert_order now draws v db = Ok (r, db') ->
  consistent db'.
Proof.
  intros [Hid Hcode Hsize Hst Htot Hown Husr Hprof] H.
  apply insert_order_Ok in H.
  destruct H as (NEW & -> & _ & Hnid & Huser & _ & _ & Hchk & Hnew & Hfk & Hsz).
  apply orders_row_checks_Ok in Hchk. destruct Hchk as [Hs Ht].
  constructor; simpl.
  - rewrite map_app. simpl. apply NoDup_snoc; [assumption |].
    rewrite Hnid. apply fresh_uuid_new.
  - rewrite map_app. simpl. apply NoDup_snoc; assumption.
  - apply Forall_app; split; [assumption | constructor; [exact Hsz | constructor]].
  - apply Forall_app; split; [assumption | constructor; [exact Hs | constructor]].
  - apply Forall_app; split; [assumption | constructor; [exact Ht | constructor]].
  - apply Forall_app; split; [assumption |].
    constructor; [rewrite Huser; exact Hfk | constructor].
  - assumption.
  - assumption.
Qed.

Lemma sign_up_consistent (id : uuid) (full_name : option string)
    (db db' : database) :
  consistent db -> auth_user_insert id full_name db = Ok db' ->
  consistent db'.
Proof.
  intros [Hid Hcode Hsize Hst Htot Hown Husr Hprof] H.
  unfold auth_user_insert in H.
  apply guard_Ok in H. destruct H as [Hnew H].
  apply bind_Ok in H. destruct H as [ps [Hps H]]. injection H as <-.
  unfold create_profile_for_new_user in Hps.
  apply bind_Ok in Hps. destruct Hps as [name [_ Hps]].
  assert (Hsub : forall p, In p (profiles db) -> In p ps).
  { intros p Hp.
    destruct (existsb _ (profiles db)); injection Hps as <-;
      [assumption | apply in_or_app; left; assumption]. }
  constructor; simpl; try assumption.
  - eapply Forall_impl; [| exact Hown].
    intros o Ho. apply in_or_app; left; exact Ho.
  - apply Forall_app; split.
    + eapply Forall_impl; [| exact Husr].
      intros u (p & Hp & Hu). exists p; auto.
    + constructor; [| constructor].
      destruct (existsb _ (profiles db)) eqn:Hex.
      * injection Hps as <-. apply existsb_exists in Hex.
        destruct Hex as (p & Hp & He). apply String.eqb_eq in He.
        exists p; auto.
      * injection Hps as <-. eexists. split;
          [apply in_or_app; right; left; reflexivity | reflexivity].
  - destruct (existsb _ (profiles db)) eqn:Hex; injection Hps as <-;
      [assumption |].
    rewrite map_app. simpl. apply NoDup_snoc; [assumption |].
    intros Hin. apply in_map_iff in Hin. destruct Hin as (p & Hp & Hin).
    assert (existsb (fun p => String.eqb (p_user_id p) id) (profiles db)
            = true) as Habs; [| congruence].
    apply existsb_exists. exists p. split; [assumption |].
    apply String.eqb_eq; assumption.
Qed.

Lemma step_consistent (db db' : database) :
  consistent db -> step db db' -> consistent db'.
Proof.
  intros Hc [c H]. destruct c; simpl in H.
  - eapply sign_up_consistent; eassumption.
  - unfold insert_menu_item in H.
    apply bind_Ok in H. destruct H as [n [_ H]].
    apply bind_Ok in H. destruct H as [p [_ H]].
    apply guard_Ok in H. destruct H as [_ H]. injection H as <-.
    eapply consistent_same_core; [| | | exact Hc]; reflexivity.
  - injection H as <-.
    eapply consistent_same_core; [| | | exact Hc]; reflexivity.
  - apply bind_Ok in H. destruct H as [[r d] [H Hd]]. injection Hd as <-.
    eapply insert_order_consistent; eassumption.
  - unfold insert_order_item in H.
    apply bind_Ok in H. destruct H as [q [_ H]].
    apply bind_Ok in H. destruct H as [p [_ H]].
    apply bind_Ok in H. destruct H as [[] [_ H]].
    repeat (apply guard_Ok in H; destruct H as [_ H]).
    injection H as <-.
    eapply consistent_same_core; [| | | exact Hc]; reflexivity.
  - eapply transition_consistent; eassumption.
  - injection H as <-.
    eapply consistent_same_core; [| | | exact Hc]; reflexivity.
Qed.

Lemma empty_consistent : consistent empty_database.
Proof. constructor; simpl; constructor. Qed.

(** Every database the application can be in satisfies the table
    constraints. *)
Lemma reachable_consistent (db : database) : reachable db -> consistent db.
Proof.
  induction 1 as [|db db' _ IH Hstep];
    [apply empty_consistent | eapply step_consistent; eassumption].
Qed.

Lemma run_app (s1 s2 : list command) (db : database) :
  run (s1 ++ s2) db = (db1 <- run s1 db ;; run s2 db1).
Proof.
  revert db. induction s1 as [|c s1 IH]; intros db; simpl; [reflexivity |].
  destruct (execute c db); simpl; [apply IH | reflexivity | reflexivity].
Qed.

(** A script that runs to its end leads from one possible database to
    another. *)
Lemma run_reachable (script : list command) (db db' : database) :
  reachable db -> run script db = Ok db' -> reachable db'.
Proof.
  revert db. induction script as [|c later IH]; intros db Hr H; simpl in H.
  - injection H as <-. exact Hr.
  - apply bind_Ok in H. destruct H as [db1 [Hc H]].
    apply (IH db1); [| exact H].
    eapply reachable_step; [exact Hr | exists c; exact Hc].
Qed.

Lemma checked_out_reachable : reachable Checkout.checked_out.
Proof.
  apply (run_reachable (Checkout.setup ++ Checkout.checkout) empty_database);
    [apply reachable_empty | vm_compute; reflexivity].
Qed.

Lemma two_orders_reachable : reachable Checkout.two_orders.
Proof.
  apply (run_reachable
           (Checkout.setup ++ Checkout.checkout ++ Checkout.second_order)
           empty_database);
    [apply reachable_empty | vm_compute; reflexivity].
Qed.

Lemma order_inserted_reachable : reachable Checkout.order_inserted.
Proof.
  apply (run_reachable
           (Checkout.setup
            ++ [place_order 1000 [1234] Checkout.order_values_1])
           empty_database);
    [apply reachable_empty | vm_compute; reflexivity].
Qed.

Lemma first_preparing_reachable : reachable Checkout.first_preparing.
Proof.
  apply (run_reachable
           (Checkout.setup ++ Checkout.checkout ++ Checkout.second_order
            ++ Checkout.cooking) empty_database);
    [apply reachable_empty | vm_compute; reflexivity].
Qed.

Lemma first_ready_reachable : reachable Checkout.first_ready.
Proof.
  apply (run_reachable
           (Checkout.setup ++ Checkout.checkout ++ Checkout.second_order
            ++ Checkout.kitchen) empty_database);
    [apply reachable_empty | vm_compute; reflexivity].
Qed.

Lemma first_completed_reachable : reachable Checkout.first_completed.
Proof.
  apply (run_reachable
           (Checkout.setup ++ Checkout.checkout ++ Checkout.second_order
            ++ Checkout.kitchen ++ [move 6000 (pickup_completed "1234")])
           empty_database);
    [apply reachable_empty | vm_compute; reflexivity].
Qed.

(** ** Pickup-code allocation *)

Lemma code_of_draw_digits (d : Z) :
  0 <= d < 10000 -> four_digit_code (code_of_draw d) = true.
Proof.
  intros Hd.
  assert (forallb (fun n => four_digit_code (code_of_draw (Z.of_nat n)))
            (seq 0 (Z.to_nat 10000)) = true) as Hall
    by (vm_compute; reflexivity).
  rewrite forallb_forall in Hall.
  specialize (Hall (Z.to_nat d)). rewrite Z2Nat.id in Hall by lia.
  apply Hall. apply in_seq. lia.
Qed.

Lemma code_exists_false (code : string) (db : database) :
  code_exists code db = false ->
  forall o, In o (orders db) -> active_status (o_status o) = true ->
            o_pickup_code o <> code.
Proof.
  unfold code_exists. intros H o Ho Hact Heq.
  assert (existsb (fun o => String.eqb (o_pickup_code o) code
                            && active_status (o_status o)) (orders db)
          = true) as Habs; [| congruence].
  apply existsb_exists. exists o. split; [exact Ho |].
  rewrite Heq, String.eqb_refl, Hact. reflexivity.
Qed.

(** The loop returns the code of the first draw that no active order
    carries, after passing over the draws that collide. *)
Lemma generate_pickup_code_first_free (draws : list Z) (db : database)
    (code : string) :
  generate_pickup_code draws db = Ok code ->
  exists tried d later,
    draws = tried ++ d :: later
    /\ code = code_of_draw d
    /\ Forall (fun d' => code_exists (code_of_draw d') db = true) tried
    /\ code_exists code db = false.
Proof.
  induction draws as [|d later IH]; simpl; [discriminate |].
  destruct (code_exists (code_of_draw d) db) eqn:Hex; simpl.
  - intros H. destruct (IH H) as (tried & d' & later' & -> & Hc & Ht & Hf).
    exists (d :: tried), d', later'. repeat split; auto.
  - intros H. injection H as <-.
    exists [], d, later. repeat split; auto.
Qed.

Lemma generate_pickup_code_Looping (draws : list Z) (db : database) :
  generate_pickup_code draws db = Looping
  <-> Forall (fun d => code_exists (code_of_draw d) db = true) draws.
Proof.
  induction draws as [|d later IH]; simpl.
  - split; [constructor | reflexivity].
  - destruct (code_exists (code_of_draw d) db) eqn:Hex; simpl.
    + rewrite IH. split; [intros H; constructor; assumption |].
      intros H; inversion H; assumption.
    + split; [discriminate |]. intros H; inversion H; congruence.
Qed.

Lemma generate_pickup_code_no_error (draws : list Z) (db : database)
    (e : sql_error) :
  generate_pickup_code draws db <> Err e.
Proof.
  induction draws as [|d later IH]; simpl; [discriminate |].
  destruct (negb _); [discriminate | exact IH].
Qed.

(** C7.  The allocator [generate_pickup_code] draws a number between 0 and
    9999, pads it with zeros to four characters, checks the orders whose
    status is not completed or cancelled for that code and draws again on a
    collision: the code it returns is the code of the first draw free among
    the active orders, a string of four decimal digits that no active order
    carries.  It raises no error, and it keeps looping exactly as long as
    every draw collides.  (That the draws are uniform is a property of
    [RANDOM()], outside this embedding.) *)
Theorem generate_pickup_code_allocates (draws : list Z) (db : database) :
  Forall (fun d => 0 <= d < 10000) draws ->
  (forall code,
      generate_pickup_code draws db = Ok code ->
      four_digit_code code = true
      /\ (forall o, In o (orders db) ->
                    active_status (o_status o) = true ->
                    o_pickup_code o <> code)
      /\ exists tried d later,
           draws = tried ++ d :: later
           /\ code = code_of_draw d
           /\ Forall (fun d' => code_exists (code_of_draw d') db = true)
                tried)
  /\ (forall e, generate_pickup_code draws db <> Err e)
  /\ (generate_pickup_code draws db = Looping
      <-> Forall (fun d => code_exists (code_of_draw d) db = true) draws).
Proof.
  intros Hrange. split; [| split].
  - intros code H.
    destruct (generate_pickup_code_first_free draws db code H)
      as (tried & d & later & Hd & Hc & Ht & Hf).
    split; [| split].
    + subst code. apply code_of_draw_digits.
      rewrite Forall_forall in Hrange. apply Hrange.
      rewrite Hd. apply in_or_app. right; left; reflexivity.
    + now apply code_exists_false.
    + exists tried, d, later. auto.
  - intros e. apply generate_pickup_code_no_error.
  - apply generate_pickup_code_Looping.
Qed.

(** The allocator on the database with one order carrying 1234: the draw
    1234 collides and the next draw, 77, gives the code 0077. *)
Lemma generate_pickup_code_allocates_witness :
  Forall (fun d => 0 <= d < 10000) [1234; 77]
  /\ generate_pickup_code [1234; 77] Checkout.checked_out = Ok "0077"
  /\ four_digit_code "0077" = true.
Proof.
  assert (Forall (fun d => 0 <= d < 10000) [1234; 77]) as Hrange
    by (repeat constructor; lia).
  split; [exact Hrange |].
  split; [reflexivity |].
  apply (generate_pickup_code_allocates [1234; 77] Checkout.checked_out
           Hrange).
  reflexivity.
Defined.

(** ** Pickup verification *)

Lemma ready_with_code_In (code : string) (db : database) (o : order) :
  In o (filter (fun o => String.eqb (o_pickup_code o) code
                         && String.eqb (o_status o) "ready") (orders db))
  <-> In o (orders db) /\ o_pickup_code o = code /\ o_status o = "ready".
Proof.
  rewrite filter_In, andb_true_iff, !String.eqb_eq. tauto.
Qed.

(** ** Notifications *)

Lemma eq_any_In (x : uuid) (l : list (option uuid)) :
  eq_any x l = true <-> In (Some x) l.
Proof.
  unfold eq_any. rewrite existsb_exists. split.
  - intros ([y|] & Hy & He); [| discriminate].
    apply String.eqb_eq in He. subst; assumption.
  - intros H. exists (Some x). split; [assumption | apply String.eqb_refl].
Qed.

Lemma to_mark_unread_selected (user : uuid)
    (ids : option (list (option uuid))) (n : notification) :
  to_mark user ids n = true <-> unread_selected user ids n.
Proof.
  unfold to_mark, unread_selected. destruct ids as [l|].
  - rewrite !andb_true_iff, String.eqb_eq, eq_any_In.
    destruct (n_read_at n); split; intros H; try tauto.
    + destruct H as [_ H]; discriminate.
    + destruct H as (_ & H & _); discriminate.
  - rewrite andb_true_iff, String.eqb_eq.
    destruct (n_read_at n); split; intros H; try tauto.
    + destruct H as [_ H]; discriminate.
    + destruct H as (_ & H & _); discriminate.
Qed.

Lemma to_mark_read (user : uuid) (ids : option (list (option uuid)))
    (n : notification) (t : timestamp) :
  to_mark user ids (set_read_at (Some t) n) = false.
Proof.
  unfold to_mark. destruct ids; simpl; apply andb_false_r.
Qed.

Lemma filter_none {A : Type} (f : A -> bool) (l : list A) :
  Forall (fun x => f x = false) l -> filter f l = [].
Proof.
  induction 1 as [|x l Hx _ IH]; simpl; [reflexivity | now rewrite Hx].
Qed.

Lemma map_unselected {A : Type} (f : A -> bool) (g : A -> A) (l : list A) :
  Forall (fun x => f x = false) l ->
  map (fun x => if f x then g x else x) l = l.
Proof.
  induction 1 as [|x l Hx _ IH]; simpl; [reflexivity |].
  now rewrite Hx, IH.
Qed.

(** C9.  [mark_notifications_read] marks the user's unread notifications,
    all of them or those among the given keys, as read at the time of the
    call, leaves every other notification as it was and returns how many
    it marked; a second call with the same arguments marks none, returns 0
    and leaves the database as the first call left it. *)
Theorem mark_notifications_read_idempotent (now1 now2 : timestamp)
    (user : uuid) (ids : option (list (option uuid))) (db : database) :
  let first := mark_notifications_read now1 user ids db in
  let second := mark_notifications_read now2 user ids (snd first) in
  (forall n, to_mark user ids n = true <-> unread_selected user ids n)
  /\ fst first
     = Z.of_nat (List.length (filter (to_mark user ids) (notifications db)))
  /\ Forall2 (fun n n' =>
                if to_mark user ids n then n' = set_read_at (Some now1) n
                else n' = n)
       (notifications db) (notifications (snd first))
  /\ fst second = 0
  /\ snd second = snd first.
Proof.
  simpl. split; [apply to_mark_unread_selected |].
  split; [reflexivity |].
  assert (Hdone :
            Forall (fun n => to_mark user ids n = false)
              (map (fun n => if to_mark user ids n
                             then set_read_at (Some now1) n else n)
                 (notifications db))).
  { apply Forall_forall. intros n' Hn'. apply in_map_iff in Hn'.
    destruct Hn' as (n & <- & _).
    destruct (to_mark user ids n) eqn:Hm; [apply to_mark_read | exact Hm]. }
  split; [| split].
  - clear Hdone. induction (notifications db) as [|n l IH]; simpl;
      constructor; [| exact IH].
    destruct (to_mark user ids n); reflexivity.
  - unfold mark_notifications_read. simpl.
    rewrite (filter_none _ _ Hdone). reflexivity.
  - unfold mark_notifications_read. simpl.
    rewrite (map_unselected _ _ _ Hdone). reflexivity.
Qed.

(** ** Uniqueness of pickup codes *)

Lemma NoDup_map_nth_error {A B : Type} (f : A -> B) (l : list A)
    (i j : nat) (x y : A) :
  NoDup (map f l) -> nth_error l i = Some x -> nth_error l j = Some y ->
  f x = f y -> i = j.
Proof.
  intros Hnd Hi Hj Hf.
  rewrite NoDup_nth_error in Hnd. apply Hnd.
  - rewrite length_map. apply nth_error_Some. congruence.
  - rewrite !nth_error_map, Hi, Hj. simpl. congruence.
Qed.

Lemma varchar_not_Looping (n : nat) (s : string) : varchar n s <> Looping.
Proof.
  unfold varchar. destruct (Nat.leb _ _); [discriminate |].
  destruct (all_spaces _); discriminate.
Qed.

Lemma decimal_not_Looping (c : Z) : decimal_10_2 c <> Looping.
Proof. unfold decimal_10_2. destruct (_ <? _); discriminate. Qed.

Lemma orders_row_checks_not_Looping (o : order) :
  orders_row_checks o <> Looping.
Proof.
  unfold orders_row_checks.
  destruct (orders_status_check _); simpl; [| discriminate].
  destruct (0 <=? _); discriminate.
Qed.

(** Once the row to insert carries a code that is in the table, the
    statement fails, whatever the status of the order that has the code. *)
Lemma insert_order_code_taken (now : timestamp) (draws : list Z)
    (v : order_values) (db : database) (given : option string)
    (code : string) :
  match v_pickup_code v with
  | None => Ok None
  | Some c => c' <- varchar 4 c ;; Ok (Some c')
  end = Ok given ->
  set_pickup_code draws given db = Ok code ->
  In code (map o_pickup_code (orders db)) ->
  exists e, insert_order now draws v db = Err e.
Proof.
  intros Hgiven Hcode Hin. unfold insert_order.
  destruct (varchar 20 _) as [status|e|] eqn:E1; simpl;
    [| eauto | exfalso; revert E1; apply varchar_not_Looping].
  destruct (decimal_10_2 _) as [total|e|] eqn:E2; simpl;
    [| eauto | exfalso; revert E2; apply decimal_not_Looping].
  rewrite Hgiven. simpl. rewrite Hcode. simpl.
  match goal with
  | |- exists e, (orders_row_checks ?N ;;; _) = _ =>
      destruct (orders_row_checks N) as [[]|e|] eqn:E3; simpl;
        [| eauto | exfalso; revert E3; apply orders_row_checks_not_Looping]
  end.
  apply in_list_In in Hin. rewrite Hin. simpl. eauto.
Qed.

Lemma code_exists_terminal_only (code : string) (db : database) :
  (forall o, In o (orders db) -> o_pickup_code o = code ->
             active_status (o_status o) = false) ->
  code_exists code db = false.
Proof.
  intros H. unfold code_exists.
  destruct (existsb _ (orders db)) eqn:Hex; [| reflexivity].
  apply existsb_exists in Hex. destruct Hex as (o & Ho & Hb).
  apply andb_true_iff in Hb. destruct Hb as [Hc Ha].
  apply String.eqb_eq in Hc. rewrite (H o Ho Hc) in Ha. discriminate.
Qed.

(** C2.  In every database the application can be in, two different
    orders whose statuses are both outside completed and cancelled carry
    different pickup codes. *)
Theorem active_pickup_codes_distinct (db : database) :
  reachable db ->
  forall i j o1 o2,
    i <> j ->
    nth_error (orders db) i = Some o1 ->
    nth_error (orders db) j = Some o2 ->
    active_status (o_status o1) = true ->
    active_status (o_status o2) = true ->
    o_pickup_code o1 <> o_pickup_code o2.
Proof.
  intros Hr i j o1 o2 Hij H1 H2 _ _ Heq.
  apply reachable_consistent in Hr.
  apply Hij.
  exact (NoDup_map_nth_error o_pickup_code (orders db) i j o1 o2
           (pickup_codes_unique db Hr) H1 H2 Heq).
Qed.

(** The two active orders of the scenario carry 1234 and 0077. *)
Lemma active_pickup_codes_distinct_witness :
  reachable Checkout.two_orders
  /\ exists o1 o2,
       nth_error (orders Checkout.two_orders) 0 = Some o1
       /\ nth_error (orders Checkout.two_orders) 1 = Some o2
       /\ o_pickup_code o1 <> o_pickup_code o2.
Proof.
  split; [exact two_orders_reachable |].
  eexists _, _. split; [reflexivity |]. split; [reflexivity |].
  apply (active_pickup_codes_distinct Checkout.two_orders
           two_orders_reachable 0%nat 1%nat);
    [discriminate | reflexivity | reflexivity | reflexivity | reflexivity].
Defined.

(** C10.  The unique index on [orders.pickup_code] covers every order,
    completed and cancelled ones included: in every database the
    application can be in, two different orders carry different codes
    whatever their statuses, and an insert that brings the code of an
    existing order fails.  The allocator looks at active orders only: it
    returns the code of a draw that only completed or cancelled orders
    carry, and the insert that relies on it then fails as well. *)
Theorem pickup_codes_globally_unique (db : database) :
  reachable db ->
  (forall i j o1 o2,
      i <> j ->
      nth_error (orders db) i = Some o1 ->
      nth_error (orders db) j = Some o2 ->
      o_pickup_code o1 <> o_pickup_code o2)
  /\ (forall o now draws v,
         In o (orders db) ->
         v_pickup_code v = Some (o_pickup_code o) ->
         exists e, insert_order now draws v db = Err e)
  /\ (forall d later,
         (forall o, In o (orders db) -> o_pickup_code o = code_of_draw d ->
                    active_status (o_status o) = false) ->
         generate_pickup_code (d :: later) db = Ok (code_of_draw d))
  /\ (forall o now d later v,
         In o (orders db) ->
         active_status (o_status o) = false ->
         o_pickup_code o = code_of_draw d ->
         v_pickup_code v = None ->
         exists e, insert_order now (d :: later) v db = Err e).
Proof.
  intros Hr. apply reachable_consistent in Hr.
  assert (Hterm : forall d later,
             (forall o, In o (orders db) ->
                        o_pickup_code o = code_of_draw d ->
                        active_status (o_status o) = false) ->
             generate_pickup_code (d :: later) db = Ok (code_of_draw d)).
  { intros d later H. simpl.
    now rewrite (code_exists_terminal_only _ _ H). }
  split; [| split; [| split]].
  - intros i j o1 o2 Hij H1 H2 Heq. apply Hij.
    exact (NoDup_map_nth_error o_pickup_code (orders db) i j o1 o2
             (pickup_codes_unique db Hr) H1 H2 Heq).
  - intros o now draws v Ho Hv.
    pose proof (pickup_codes_sized db Hr) as Hsz.
    rewrite Forall_forall in Hsz. destruct (Hsz o Ho) as [Hne Hlen].
    apply (insert_order_code_taken now draws v db
             (Some (o_pickup_code o)) (o_pickup_code o)).
    + rewrite Hv, (varchar_short 4 _ Hlen). reflexivity.
    + unfold set_pickup_code.
      destruct (String.eqb_spec (o_pickup_code o) ""); [contradiction |].
      reflexivity.
    + now apply in_map.
  - exact Hterm.
  - intros o now d later v Ho Hterminal Hc Hv.
    apply (insert_order_code_taken now (d :: later) v db None
             (code_of_draw d)).
    + now rewrite Hv.
    + unfold set_pickup_code. apply Hterm.
      intros o' Ho' Hc'.
      destruct (In_nth_error _ _ Ho) as [i Hi].
      destruct (In_nth_error _ _ Ho') as [j Hj].
      assert (i = j) as <-.
      { apply (NoDup_map_nth_error o_pickup_code (orders db) i j o o'
                 (pickup_codes_unique db Hr) Hi Hj). congruence. }
      assert (o' = o) as -> by congruence. exact Hterminal.
    + rewrite <- Hc. now apply in_map.
Qed.

(** After the first order of the scenario is completed its code 1234 is
    free for the allocator and taken for the index: an insert whose draw
    is 1234 fails on the unique constraint. *)
Lemma pickup_codes_globally_unique_witness :
  reachable Checkout.first_completed
  /\ generate_pickup_code [1234] Checkout.first_completed = Ok "1234"
  /\ insert_order 7000 [1234] Checkout.order_values_2
       Checkout.first_completed
     = Err (unique_violation "orders_pickup_code_key")
  /\ exists e,
       insert_order 7000 [1234; 5] Checkout.order_values_2
         Checkout.first_completed = Err e.
Proof.
  split; [exact first_completed_reachable |].
  split; [reflexivity |]. split; [reflexivity |].
  destruct (pickup_codes_globally_unique Checkout.first_completed
              first_completed_reachable) as (_ & _ & _ & H).
  eapply (H _ 7000 1234 [5] Checkout.order_values_2);
    [left; reflexivity | reflexivity | reflexivity | reflexivity].
Defined.

(** ** The staff order queue *)

Lemma queue_leb_trans (r1 r2 r3 : queue_row) :
  queue_leb r1 r2 = true -> queue_leb r2 r3 = true ->
  queue_leb r1 r3 = true.
Proof.
  unfold queue_leb.
  destruct (status_priority (q_status r1)) as [k1|],
           (status_priority (q_status r2)) as [k2|],
           (status_priority (q_status r3)) as [k3|]; simpl;
    try discriminate; try reflexivity; try lia.
  - destruct (Z.eqb_spec k1 k2), (Z.eqb_spec k2 k3), (Z.eqb_spec k1 k3);
      lia.
Qed.

(** The [CASE] of the query numbers the four statuses along the chain of
    the specification. *)
Lemma status_priority_chain (s : string) :
  in_list s ["placed"; "confirmed"; "preparing"; "ready"] = true ->
  exists n, position_in s priority_chain = Some n
            /\ status_priority s = Some (Z.of_nat n + 1).
Proof.
  intros H. apply in_list_In in H. simpl in H.
  repeat (destruct H as [<-|H]; [eexists; split; reflexivity |]).
  contradiction.
Qed.

Lemma queue_leb_before (r1 r2 : queue_row) :
  in_list (q_status r1) ["placed"; "confirmed"; "preparing"; "ready"] = true
  -> in_list (q_status r2) ["placed"; "confirmed"; "preparing"; "ready"]
     = true
  -> queue_leb r1 r2 = true -> queue_before r1 r2.
Proof.
  intros H1 H2.
  destruct (status_priority_chain _ H1) as (n1 & Hp1 & Hk1).
  destruct (status_priority_chain _ H2) as (n2 & Hp2 & Hk2).
  unfold queue_leb, queue_before. rewrite Hp1, Hp2, Hk1, Hk2. simpl.
  destruct (Z.eqb_spec (Z.of_nat n1 + 1) (Z.of_nat n2 + 1)); lia.
Qed.

Lemma StronglySorted_weaken {A : Type} (R R' : A -> A -> Prop)
    (l : list A) :
  (forall x y, In x l -> In y l -> R x y -> R' x y) ->
  StronglySorted R l -> StronglySorted R' l.
Proof.
  intros HR H. induction H as [|x l Hl IH Hx]; constructor.
  - apply IH. intros a b Ha Hb. apply HR; right; assumption.
  - rewrite Forall_forall in *. intros y Hy.
    apply HR; [left; reflexivity | right; assumption | apply Hx; assumption].
Qed.

(** Under the [CHECK] constraint on [status], the four queue statuses are
    the statuses other than completed and cancelled. *)
Lemma queue_status_active (s : string) :
  orders_status_check s = true ->
  in_list s ["placed"; "confirmed"; "preparing"; "ready"] = active_status s.
Proof.
  intros H. apply in_list_In in H. simpl in H.
  repeat (destruct H as [<-|H]; [reflexivity |]). contradiction.
Qed.

Lemma queue_status_priority (s : string) :
  in_list s ["placed"; "confirmed"; "preparing"; "ready"] = true ->
  exists k, status_priority s = Some k.
Proof.
  intros H. apply in_list_In in H. simpl in H.
  repeat (destruct H as [<-|H]; [eexists; reflexivity |]). contradiction.
Qed.

Lemma filter_ext_Forall {A : Type} (f g : A -> bool) (l : list A) :
  Forall (fun x => f x = g x) l -> filter f l = filter g l.
Proof.
  induction 1 as [|x l Hx _ IH]; simpl; [reflexivity |].
  now rewrite Hx, IH.
Qed.

(** With [profiles.user_id] unique, the join finds one profile per user. *)
Lemma profile_of_user (u : uuid) (ps : list profile) (p : profile) :
  NoDup (map p_user_id ps) -> In p ps -> p_user_id p = u ->
  filter (fun x => String.eqb u (p_user_id x)) ps = [p].
Proof.
  intros Hnd Hp Hu. induction ps as [|x ps IH]; [destruct Hp |].
  simpl in Hnd. inversion Hnd as [|? ? Hx Hps]; subst.
  simpl. destruct Hp as [->|Hp].
  - rewrite String.eqb_refl. f_equal.
    apply filter_none. apply Forall_forall. intros y Hy.
    apply String.eqb_neq. intros Heq. apply Hx. rewrite Heq.
    now apply in_map.
  - destruct (String.eqb_spec (p_user_id p) (p_user_id x)) as [Heq|Hne].
    + exfalso. apply Hx. rewrite <- Heq. now apply in_map.
    + now apply IH.
Qed.

(** One queue row per active order, carrying the order's key, status and
    creation time. *)
Lemma queue_rows_orders (now : timestamp) (db : database) :
  consistent db ->
  map (fun r => (q_id r, q_status r, q_created_at r)) (queue_rows now db)
  = map (fun o => (o_id o, o_status o, o_created_at o))
      (filter (fun o => active_status (o_status o)) (orders db)).
Proof.
  intros Hc. unfold queue_rows.
  rewrite (filter_ext_Forall
             (fun o => in_list (o_status o)
                         ["placed"; "confirmed"; "preparing"; "ready"])
             (fun o => active_status (o_status o))).
  2:{ eapply Forall_impl; [| exact (statuses_checked db Hc)].
      intros o Ho. now apply queue_status_active. }
  pose proof (owners_are_users db Hc) as Hown.
  pose proof (users_have_profiles db Hc) as Husr.
  pose proof (profile_users_unique db Hc) as Hnd.
  rewrite Forall_forall in Hown, Husr.
  assert (Hall : forall o,
             In o (filter (fun o => active_status (o_status o)) (orders db))
             -> In o (orders db)).
  { intros o Ho. apply filter_In in Ho. tauto. }
  induction (filter (fun o => active_status (o_status o)) (orders db))
    as [|o l IH]; simpl; [reflexivity |].
  destruct (Husr _ (Hown o (Hall o (or_introl eq_refl)))) as (p & Hp & Hu).
  rewrite (profile_of_user (o_user_id o) (profiles db) p Hnd Hp Hu).
  simpl. f_equal. apply IH. intros o' Ho'. apply Hall. right; assumption.
Qed.

Lemma queue_rows_status (now : timestamp) (db : database) (r : queue_row) :
  In r (queue_rows now db) ->
  in_list (q_status r) ["placed"; "confirmed"; "preparing"; "ready"] = true.
Proof.
  unfold queue_rows. intros H. apply in_flat_map in H.
  destruct H as (o & Ho & Hr). apply filter_In in Ho.
  apply in_map_iff in Hr. destruct Hr as (p & <- & _). simpl. tauto.
Qed.

Lemma has_profile_filter (u : uuid) (db : database) :
  has_profile u db = false ->
  filter (fun p => String.eqb u (p_user_id p)) (profiles db) = [].
Proof.
  unfold has_profile. intros H. apply filter_none.
  apply Forall_forall. intros p Hp.
  destruct (String.eqb u (p_user_id p)) eqn:He; [| reflexivity].
  rewrite <- H. symmetry. apply existsb_exists. exists p. auto.
Qed.

Lemma has_profile_In (u : uuid) (db : database) :
  has_profile u db = true ->
  exists p, In p (profiles db) /\ p_user_id p = u.
Proof.
  unfold has_profile. intros H. apply existsb_exists in H.
  destruct H as (p & Hp & He). apply String.eqb_eq in He. eauto.
Qed.

(** The join with [profiles]: one queue row per order in one of the four
    statuses whose owner has a profile row, none for an order whose owner
    has not. *)
Lemma queue_rows_profiled (now : timestamp) (db : database) :
  Forall (fun o => orders_status_check (o_status o) = true) (orders db) ->
  NoDup (map p_user_id (profiles db)) ->
  map (fun r => (q_id r, q_status r, q_created_at r)) (queue_rows now db)
  = map (fun o => (o_id o, o_status o, o_created_at o))
      (filter (fun o => active_status (o_status o)
                        && has_profile (o_user_id o) db) (orders db)).
Proof.
  intros Hst Hnd. unfold queue_rows.
  induction Hst as [|o l Ho _ IH]; [reflexivity |].
  cbn [filter]. rewrite (queue_status_active _ Ho).
  destruct (active_status (o_status o)); [| exact IH].
  cbn [flat_map andb]. rewrite map_app, IH.
  destruct (has_profile (o_user_id o) db) eqn:Hp.
  - destruct (has_profile_In _ _ Hp) as (p & Hin & Hu).
    rewrite (profile_of_user (o_user_id o) (profiles db) p Hnd Hin Hu).
    reflexivity.
  - rewrite (has_profile_filter _ _ Hp). reflexivity.
Qed.

(** C8 (amended).  For every set of orders within the table constraints
    ([CHECK] on [orders.status], [UNIQUE] on [profiles.user_id]), the
    staff order queue returns the non-terminal orders whose owner has a
    profile row, one row each (the query inner-joins [profiles]: a
    non-terminal order whose owner has no profile row is left out),
    totally ordered first by the fixed status priority
    placed < confirmed < preparing < ready and, within equal statuses, by
    creation time ascending (oldest first).  In the databases the
    statements of the application lead to, every owner has a profile row
    and the queue returns all the non-terminal orders. *)
Theorem staff_order_queue_sorted (now : timestamp) (db : database) :
  Forall (fun o => orders_status_check (o_status o) = true) (orders db) ->
  NoDup (map p_user_id (profiles db)) ->
  Permutation
    (map (fun r => (q_id r, q_status r, q_created_at r))
       (staff_order_queue now db))
    (map (fun o => (o_id o, o_status o, o_created_at o))
       (filter (fun o => active_status (o_status o)
                         && has_profile (o_user_id o) db) (orders db)))
  /\ StronglySorted queue_before (staff_order_queue now db)
  /\ (reachable db ->
      Permutation
        (map (fun r => (q_id r, q_status r, q_created_at r))
           (staff_order_queue now db))
        (map (fun o => (o_id o, o_status o, o_created_at o))
           (filter (fun o => active_status (o_status o)) (orders db)))).
Proof.
  intros Hst Hnd. unfold staff_order_queue.
  split; [| split].
  - rewrite <- (queue_rows_profiled now db Hst Hnd).
    apply Permutation_map. apply Permutation_sym.
    apply QueueSort.Permuted_sort.
  - apply (StronglySorted_weaken
             (fun x y => is_true (queue_leb x y))).
    + intros x y Hx Hy Hle.
      assert (Hin : forall z, In z (QueueSort.sort (queue_rows now db)) ->
                              in_list (q_status z)
                                ["placed"; "confirmed"; "preparing"; "ready"]
                              = true).
      { intros z Hz. apply (queue_rows_status now db).
        eapply Permutation_in; [| exact Hz].
        apply Permutation_sym. apply QueueSort.Permuted_sort. }
      apply queue_leb_before; auto.
    + apply QueueSort.StronglySorted_sort.
      intros x y z. apply queue_leb_trans.
  - intros Hr. apply reachable_consistent in Hr.
    rewrite <- (queue_rows_orders now db Hr).
    apply Permutation_map. apply Permutation_sym.
    apply QueueSort.Permuted_sort.
Qed.

(** The queue at rush hour.  The five orders were placed at 1000, ...,
    5000 and the older ones have come further, so that the order of the
    queue is the reverse of the order of arrival, except for the two
    placed orders, which keep theirs. *)
Lemma staff_order_queue_sorted_witness :
  Forall (fun o => orders_status_check (o_status o) = true)
    (orders Rush.rush_hour)
  /\ NoDup (map p_user_id (profiles Rush.rush_hour))
  /\ map (fun r => (q_id r, q_status r, q_created_at r))
       (staff_order_queue 7000 Rush.rush_hour)
     = [ ("0000", "placed", 4000); ("00000", "placed", 5000);
         ("000", "confirmed", 3000); ("00", "preparing", 2000);
         ("0", "ready", 1000) ]
  /\ StronglySorted queue_before (staff_order_queue 7000 Rush.rush_hour).
Proof.
  assert (Hst : Forall (fun o => orders_status_check (o_status o) = true)
                  (orders Rush.rush_hour))
    by (repeat constructor).
  assert (Hnd : NoDup (map p_user_id (profiles Rush.rush_hour))).
  { repeat constructor; simpl; intuition discriminate. }
  split; [exact Hst |]. split; [exact Hnd |].
  split; [reflexivity |].
  apply (staff_order_queue_sorted 7000 Rush.rush_hour Hst Hnd).
Defined.

(** C8, as stated, fails: with the customer's profile row removed the two
    orders of the scenario are still placed, every table constraint
    holds, and the queue is empty. *)
Lemma order_without_profile_not_queued :
  NoDup (map o_id (orders Rush.profile_removed))
  /\ NoDup (map o_pickup_code (orders Rush.profile_removed))
  /\ Forall (fun o => orders_status_check (o_status o) = true
                      /\ 0 <= o_total_amount o
                      /\ In (o_user_id o) (auth_users Rush.profile_removed))
       (orders Rush.profile_removed)
  /\ NoDup (map p_user_id (profiles Rush.profile_removed))
  /\ Forall (fun p => In (p_user_id p) (auth_users Rush.profile_removed))
       (profiles Rush.profile_removed)
  /\ referenced Rush.profile_removed
  /\ map (fun o => (o_id o, o_status o, active_status (o_status o)))
       (orders Rush.profile_removed)
     = [("0", "placed", true); ("00", "placed", true)]
  /\ staff_order_queue 7000 Rush.profile_removed = [].
Proof.
  assert (Hrows : forall (A : Type) (P : A -> Prop) (l : list A),
             (forall x, In x l -> P x) -> Forall P l)
    by (intros A P l H; now apply Forall_forall).
  split; [repeat constructor; simpl; intuition discriminate |].
  split; [repeat constructor; simpl; intuition discriminate |].
  split.
  { apply Hrows. intros x Hx. simpl in Hx.
    repeat (destruct Hx as [<-|Hx];
            [simpl; split; [reflexivity | split; [lia | auto]] |]).
    destruct Hx. }
  split; [repeat constructor; simpl; intuition discriminate |].
  split.
  { apply Hrows. intros x Hx. simpl in Hx.
    repeat (destruct Hx as [<-|Hx]; [simpl; auto |]). destruct Hx. }
  split; [| split; reflexivity].
  constructor; apply Hrows; intros x Hx; simpl in Hx;
    repeat (destruct Hx as [<-|Hx];
            [simpl; first [lia | eexists; split; [reflexivity |];
                                 first [discriminate | simpl; auto 10]
                          | auto 10] |]);
    destruct Hx.
Qed.

(** ** A status update of one order *)

Lemma order_by_id_In (id : uuid) (db : database) (o : order) :
  order_by_id id db = Some o -> In o (orders db) /\ o_id o = id.
Proof.
  unfold order_by_id. intros H. apply find_some in H.
  destruct H as [Hin He]. apply String.eqb_eq in He. auto.
Qed.

Lemma split_by_id (l : list order) (o : order) :
  NoDup (map o_id l) -> In o l ->
  exists l1 l2,
    l = l1 ++ o :: l2
    /\ Forall (fun x => o_id x <> o_id o) l1
    /\ Forall (fun x => o_id x <> o_id o) l2.
Proof.
  intros Hnd Hin. destruct (in_split _ _ Hin) as (l1 & l2 & ->).
  exists l1, l2. split; [reflexivity |].
  rewrite map_app in Hnd. simpl in Hnd. apply NoDup_remove_2 in Hnd.
  split; apply Forall_forall; intros x Hx Heq; apply Hnd;
    rewrite <- Heq; apply in_or_app; [left | right]; now apply in_map.
Qed.

Lemma find_by_id_app (id : uuid) (l1 l2 : list order) (o : order) :
  Forall (fun x => o_id x <> id) l1 -> o_id o = id ->
  find (fun x => String.eqb (o_id x) id) (l1 ++ o :: l2) = Some o.
Proof.
  intros H Ho. induction H as [|x l1 Hx _ IH]; simpl.
  - rewrite Ho, String.eqb_refl. reflexivity.
  - apply String.eqb_neq in Hx. rewrite Hx. exact IH.
Qed.

Lemma find_other_id_app (id id' : uuid) (l1 l2 : list order) (o o' : order) :
  o_id o = id -> o_id o' = id -> id' <> id ->
  find (fun x => String.eqb (o_id x) id') (l1 ++ o' :: l2)
  = find (fun x => String.eqb (o_id x) id') (l1 ++ o :: l2).
Proof.
  intros Ho Ho' Hne. induction l1 as [|x l1 IH]; simpl.
  - rewrite Ho, Ho'.
    assert (String.eqb id id' = false) as ->
        by (apply String.eqb_neq; congruence).
    reflexivity.
  - destruct (String.eqb (o_id x) id'); [reflexivity | exact IH].
Qed.

Lemma update_orders_one (now : timestamp) (where_ : order -> bool)
    (set_ : order -> order) (db : database) (l1 l2 : list order)
    (o : order) :
  orders db = l1 ++ o :: l2 ->
  Forall (fun x => where_ x = false) l1 ->
  Forall (fun x => where_ x = false) l2 ->
  where_ o = true ->
  orders_row_checks
    (fst (before_update_orders now o (set_ o) (order_status_history db)))
  = Ok tt ->
  update_orders now where_ set_ db
  = Ok ([fst (before_update_orders now o (set_ o)
                (order_status_history db))],
        with_notifications
          (notify_order_ready now "UPDATE" o
             (fst (before_update_orders now o (set_ o)
                     (order_status_history db)))
             (notifications db))
          (with_history
             (snd (before_update_orders now o (set_ o)
                     (order_status_history db)))
             (with_orders
                (l1 ++ fst (before_update_orders now o (set_ o)
                              (order_status_history db)) :: l2) db))).
Proof.
  intros Hdb H1 H2 Ho Hchk. unfold update_orders.
  rewrite Hdb, (update_rows_hit now where_ set_ l1 l2 o _ H1 H2 Ho Hchk).
  reflexivity.
Qed.

Lemma update_rows_refused (now : timestamp) (where_ : order -> bool)
    (set_ : order -> order) (l1 l2 : list order) (o : order)
    (h : list status_history) (e : sql_error) :
  Forall (fun x => where_ x = false) l1 ->
  where_ o = true ->
  orders_row_checks (fst (before_update_orders now o (set_ o) h)) = Err e ->
  update_rows now where_ set_ (l1 ++ o :: l2) h = Err e.
Proof.
  intros H1 Ho Hchk. induction H1 as [|x l1 Hx _ IH]; simpl.
  - rewrite Ho.
    destruct (before_update_orders now o (set_ o) h) as [NEW h1].
    simpl in Hchk. rewrite Hchk. reflexivity.
  - rewrite Hx, IH. reflexivity.
Qed.

Lemma with_same_tables (db : database) :
  with_notifications (notifications db)
    (with_history (order_status_history db) (with_orders (orders db) db))
  = db.
Proof. destruct db; reflexivity. Qed.

Lemma update_orders_none (now : timestamp) (where_ : order -> bool)
    (set_ : order -> order) (db : database) :
  Forall (fun x => where_ x = false) (orders db) ->
  update_orders now where_ set_ db = Ok ([], db).
Proof.
  intros H. unfold update_orders.
  rewrite (update_rows_miss now where_ set_ _ _ H). simpl.
  now rewrite with_same_tables.
Qed.

(** The status update of the order [o], issued with the status the order
    has as the expected one. *)
Lemma update_order_status_one (now : timestamp) (db : database) (o : order)
    (status : string) :
  consistent db -> In o (orders db) ->
  orders_status_check status = true ->
  exists l1 l2,
    orders db = l1 ++ o :: l2
    /\ Forall (fun x => o_id x <> o_id o) l1
    /\ Forall (fun x => o_id x <> o_id o) l2
    /\ update_order_status now (o_id o) (o_status o) status db
       = Ok ([(o_id o, status, o_pickup_code o)],
             with_notifications
               (notify_order_ready now "UPDATE" o
                  (fst (before_update_orders now o (set_status status o)
                          (order_status_history db)))
                  (notifications db))
               (with_history
                  (snd (before_update_orders now o (set_status status o)
                          (order_status_history db)))
                  (with_orders
                     (l1 ++ fst (before_update_orders now o
                                   (set_status status o)
                                   (order_status_history db)) :: l2) db))).
Proof.
  intros Hc Hin Hst.
  destruct (split_by_id _ o (order_ids_unique db Hc) Hin)
    as (l1 & l2 & Hdb & H1 & H2).
  exists l1, l2. repeat split; try assumption.
  unfold update_order_status.
  rewrite (varchar_short 20 status (orders_status_check_length _ Hst)).
  simpl.
  pose proof (totals_checked db Hc) as Htot.
  rewrite Forall_forall in Htot. specialize (Htot o Hin).
  pose proof (before_update_fixed now o (set_status status o)
                (order_status_history db) (set_status_fixed status o))
    as Hfix.
  pose proof (before_update_status now o (set_status status o)
                (order_status_history db)) as Hs. simpl in Hs.
  rewrite (update_orders_one now _ (set_status status) db l1 l2 o Hdb).
  - simpl. destruct Hfix as (Hid & _ & _ & _ & Hcode & _).
    rewrite Hid, Hs, Hcode. reflexivity.
  - eapply Forall_impl; [| exact H1]. intros x Hx. simpl in Hx.
    apply String.eqb_neq in Hx. now rewrite Hx.
  - eapply Forall_impl; [| exact H2]. intros x Hx. simpl in Hx.
    apply String.eqb_neq in Hx. now rewrite Hx.
  - now rewrite !String.eqb_refl.
  - apply orders_row_checks_pass.
    + now rewrite Hs.
    + destruct Hfix as (_ & _ & -> & _). exact Htot.
Qed.

Lemma orders_status_check_short (s : string) :
  orders_status_check s = true -> (String.length s <= 9)%nat.
Proof.
  intros H. apply in_list_In in H. simpl in H.
  repeat (destruct H as [<-|H]; [simpl; lia |]). contradiction.
Qed.

Lemma varchar_20_unchecked (status s' : string) :
  orders_status_check status = false -> varchar 20 status = Ok s' ->
  orders_status_check s' = false.
Proof.
  intros Hst H. unfold varchar in H.
  destruct (Nat.leb (String.length status) 20) eqn:Hle.
  - injection H as <-. exact Hst.
  - destruct (all_spaces _); [| discriminate]. injection H as <-.
    apply Nat.leb_gt in Hle.
    destruct (orders_status_check (substring 0 20 status)) eqn:Hc;
      [| reflexivity].
    apply orders_status_check_short in Hc.
    rewrite length_substring_0 in Hc; lia.
Qed.

Lemma set_status_same (o : order) : set_status (o_status o) o = o.
Proof. destruct o; reflexivity. Qed.

(** A guard on another status than the order's selects no row. *)
Lemma status_guard_miss (now : timestamp) (db : database) (o : order)
    (expected s' : string) :
  consistent db -> In o (orders db) -> expected <> o_status o ->
  update_orders now
    (fun x => String.eqb (o_id x) (o_id o)
              && String.eqb (o_status x) expected)
    (set_status s') db = Ok ([], db).
Proof.
  intros Hc Hin Hexp. apply update_orders_none.
  destruct (split_by_id _ o (order_ids_unique db Hc) Hin)
    as (l1 & l2 & -> & H1 & H2).
  apply Forall_app. split; [| constructor].
  - eapply Forall_impl; [| exact H1]. intros x Hx. simpl in Hx.
    apply String.eqb_neq in Hx. now rewrite Hx.
  - rewrite String.eqb_refl. simpl. apply String.eqb_neq. congruence.
  - eapply Forall_impl; [| exact H2]. intros x Hx. simpl in Hx.
    apply String.eqb_neq in Hx. now rewrite Hx.
Qed.

(** A target outside the six statuses, set on the order, is refused by
    the [CHECK] constraint. *)
Lemma status_check_refuses (now : timestamp) (db : database) (o : order)
    (s' : string) :
  consistent db -> In o (orders db) -> orders_status_check s' = false ->
  update_orders now
    (fun x => String.eqb (o_id x) (o_id o)
              && String.eqb (o_status x) (o_status o))
    (set_status s') db = Err (check_violation "orders_status_check").
Proof.
  intros Hc Hin Hs'.
  destruct (split_by_id _ o (order_ids_unique db Hc) Hin)
    as (l1 & l2 & Hdb & H1 & H2).
  unfold update_orders. rewrite Hdb.
  rewrite (update_rows_refused now _ (set_status s') l1 l2 o _
             (check_violation "orders_status_check")).
  - reflexivity.
  - eapply Forall_impl; [| exact H1]. intros x Hx. simpl in Hx.
    apply String.eqb_neq in Hx. now rewrite Hx.
  - now rewrite !String.eqb_refl.
  - unfold orders_row_checks.
    rewrite before_update_status. simpl. rewrite Hs'. reflexivity.
Qed.

Lemma varchar_long (n : nat) (s : string) :
  (n < String.length s)%nat ->
  varchar n s
  = if all_spaces (substring n (String.length s - n) s)
    then Ok (substring 0 n s) else Err string_data_right_truncation.
Proof.
  intros H. unfold varchar. apply Nat.leb_gt in H. now rewrite H.
Qed.

Lemma long_status_unchecked (status : string) :
  (20 < String.length status)%nat ->
  orders_status_check (substring 0 20 status) = false.
Proof.
  intros H. destruct (orders_status_check (substring 0 20 status)) eqn:Hc;
    [| reflexivity].
  apply orders_status_check_short in Hc.
  rewrite length_substring_0 in Hc; lia.
Qed.

(** C3 (amended).  The code has no transition graph and no
    InvalidTransition error; what a status update of an existing order
    does is decided by the statement's expected status and by the column
    of the target alone.  For a target of at most 20 characters: with the
    order's current status as the expected one, every target among the
    six statuses is accepted, legal successor or not, and becomes the
    order's status, and every other target fails on the [CHECK]
    constraint [orders_status_check]; with another expected status the
    statement selects no row, succeeds and leaves the database unchanged,
    whatever the target.  A longer target fails with a string truncation
    error whatever the expected status, unless all that exceeds 20
    characters is spaces: it is then cut to 20 characters, which is none
    of the six statuses, and fails on the [CHECK] constraint when the
    expected status is the current one and selects no row otherwise.  A
    statement that fails leaves the database as it was. *)
Theorem status_update_ignores_graph (now : timestamp) (db : database)
    (id : uuid) (o : order) (expected status : string) :
  reachable db -> order_by_id id db = Some o ->
  ((String.length status <= 20)%nat ->
   (orders_status_check status = true ->
    exists db',
      update_order_status now id (o_status o) status db
      = Ok ([(id, status, o_pickup_code o)], db')
      /\ option_map o_status (order_by_id id db') = Some status)
   /\ (orders_status_check status = false ->
       update_order_status now id (o_status o) status db
       = Err (check_violation "orders_status_check"))
   /\ (expected <> o_status o ->
       update_order_status now id expected status db = Ok ([], db)))
  /\ ((20 < String.length status)%nat ->
      (all_spaces (substring 20 (String.length status - 20) status) = false
       -> update_order_status now id expected status db
          = Err string_data_right_truncation)
      /\ (all_spaces (substring 20 (String.length status - 20) status)
          = true ->
          update_order_status now id (o_status o) status db
          = Err (check_violation "orders_status_check")
          /\ (expected <> o_status o ->
              update_order_status now id expected status db
              = Ok ([], db)))).
Proof.
  intros Hr Hfind. apply reachable_consistent in Hr.
  apply order_by_id_In in Hfind. destruct Hfind as [Hin <-].
  split.
  - intros Hlen. split; [| split].
    + intros Hst.
      destruct (update_order_status_one now db o status Hr Hin Hst)
        as (l1 & l2 & Hdb & H1 & H2 & Hupd).
      eexists. split; [exact Hupd |].
      unfold order_by_id. simpl.
      rewrite (find_by_id_app (o_id o) l1 l2 _ H1).
      * simpl. now rewrite before_update_status.
      * apply (before_update_fixed now o (set_status status o) _
                 (set_status_fixed status o)).
    + intros Hst. unfold update_order_status.
      rewrite (varchar_short 20 status Hlen). simpl.
      now rewrite (status_check_refuses now db o status Hr Hin Hst).
    + intros Hexp. unfold update_order_status.
      rewrite (varchar_short 20 status Hlen). simpl.
      now rewrite (status_guard_miss now db o expected status Hr Hin Hexp).
  - intros Hlen. split.
    + intros Hsp. unfold update_order_status.
      rewrite (varchar_long 20 status Hlen), Hsp. reflexivity.
    + intros Hsp. split.
      * unfold update_order_status.
        rewrite (varchar_long 20 status Hlen), Hsp. simpl.
        now rewrite (status_check_refuses now db o _ Hr Hin
                       (long_status_unchecked status Hlen)).
      * intros Hexp. unfold update_order_status.
        rewrite (varchar_long 20 status Hlen), Hsp. simpl.
        now rewrite (status_guard_miss now db o expected _ Hr Hin Hexp).
Qed.

(** The placed first order of the scenario: set straight to ready; the
    status eaten is refused when the guard selects the order and goes
    unnoticed when it does not; a status of 22 characters is refused before
    any row is looked at. *)
Lemma status_update_ignores_graph_witness :
  reachable Checkout.two_orders
  /\ legal_successor "placed" "ready" = false
  /\ (exists db',
         update_order_status 3000 "0" "placed" "ready" Checkout.two_orders
         = Ok ([("0", "ready", "1234")], db')
         /\ option_map o_status (order_by_id "0" db') = Some "ready")
  /\ update_order_status 3000 "0" "placed" "eaten" Checkout.two_orders
     = Err (check_violation "orders_status_check")
  /\ update_order_status 3000 "0" "preparing" "eaten" Checkout.two_orders
     = Ok ([], Checkout.two_orders)
  /\ update_order_status 3000 "0" "preparing" "ready-for-the-customer"
       Checkout.two_orders
     = Err string_data_right_truncation.
Proof.
  split; [exact two_orders_reachable |].
  split; [reflexivity |].
  assert (Hfind : exists o, order_by_id "0" Checkout.two_orders = Some o
                            /\ o_status o = "placed"
                            /\ o_pickup_code o = "1234")
    by (eexists; repeat split; reflexivity).
  destruct Hfind as (o & Hfind & Hs & Hc).
  destruct (status_update_ignores_graph 3000 Checkout.two_orders "0" o
              "preparing" "ready" two_orders_reachable Hfind)
    as (Hready & _).
  destruct (status_update_ignores_graph 3000 Checkout.two_orders "0" o
              "preparing" "eaten" two_orders_reachable Hfind)
    as (Heaten & _).
  destruct (status_update_ignores_graph 3000 Checkout.two_orders "0" o
              "preparing" "ready-for-the-customer" two_orders_reachable
              Hfind) as (_ & Hlong).
  destruct Hready as (H1 & _); [simpl; lia |].
  destruct Heaten as (_ & H2 & H3); [simpl; lia |].
  destruct Hlong as (H4 & _); [simpl; lia |].
  rewrite Hs, Hc in *.
  split; [apply H1; reflexivity |].
  split; [apply H2; reflexivity |].
  split; [apply H3; discriminate |].
  apply H4. reflexivity.
Defined.

(** C3, as stated, fails: the placed order of the scenario is moved
    straight to ready, which is no legal successor of placed; the statement
    succeeds and the order is changed. *)
Lemma illegal_transition_accepted :
  legal_successor "placed" "ready" = false
  /\ option_map o_status (order_by_id "0" Checkout.two_orders)
     = Some "placed"
  /\ exists db',
       update_order_status 3000 "0" "placed" "ready" Checkout.two_orders
       = Ok ([("0", "ready", "1234")], db')
       /\ option_map o_status (order_by_id "0" db') = Some "ready"
       /\ order_by_id "0" db' <> order_by_id "0" Checkout.two_orders.
Proof.
  split; [reflexivity |]. split; [reflexivity |].
  eexists. split; [vm_compute; reflexivity |].
  split; [reflexivity | discriminate].
Qed.

(** ** Updates to the current status *)

Lemma before_update_same_status (now : timestamp) (o : order)
    (h : list status_history) :
  before_update_orders now o (set_status (o_status o) o) h
  = (set_updated_at now o, h).
Proof.
  unfold before_update_orders, log_order_status_change,
    update_updated_at_column.
  rewrite set_status_same. simpl. rewrite String.eqb_refl. reflexivity.
Qed.

Lemma notify_order_ready_same_status (now : timestamp) (o : order)
    (ns : list notification) :
  notify_order_ready now "UPDATE" o (set_updated_at now o) ns = ns.
Proof.
  unfold notify_order_ready. simpl. rewrite String.eqb_refl. reflexivity.
Qed.

(** C6 (amended).  A status update whose target is the order's current
    status succeeds whatever its expected status, appends no history entry
    and no notification, and changes no other order and no other table.
    What happens to the order itself depends on the statement's expected
    status: when that is another status than the current one (the
    repository's [SET status = 'ready' ... AND status = 'preparing'] on an
    order that is already ready) no row is selected, no row is returned
    and the whole database, the order's timestamps included, is unchanged;
    when it is the current status the row is selected, returned and
    rewritten, keeping every column except [updated_at], which the
    [set_updated_at_orders] trigger sets to the time of the call. *)
Theorem same_status_update_touches_updated_at (now : timestamp)
    (db : database) (id : uuid) (o : order) (expected : string) :
  reachable db -> order_by_id id db = Some o ->
  exists db',
    update_order_status now id expected (o_status o) db
    = Ok (if String.eqb expected (o_status o)
          then [(id, o_status o, o_pickup_code o)] else [], db')
    /\ order_status_history db' = order_status_history db
    /\ notifications db' = notifications db
    /\ order_items db' = order_items db
    /\ menu_items db' = menu_items db
    /\ profiles db' = profiles db
    /\ auth_users db' = auth_users db
    /\ order_by_id id db'
       = Some (if String.eqb expected (o_status o)
               then set_updated_at now o else o)
    /\ (expected <> o_status o -> db' = db)
    /\ (forall id', id' <> id -> order_by_id id' db' = order_by_id id' db).
Proof.
  intros Hr Hfind. apply reachable_consistent in Hr.
  pose proof Hfind as Hfind'.
  apply order_by_id_In in Hfind. destruct Hfind as [Hin <-].
  pose proof (statuses_checked db Hr) as Hst.
  rewrite Forall_forall in Hst. specialize (Hst o Hin).
  destruct (String.eqb expected (o_status o)) eqn:He.
  - apply String.eqb_eq in He. subst expected.
    destruct (update_order_status_one now db o (o_status o) Hr Hin Hst)
      as (l1 & l2 & Hdb & H1 & H2 & Hupd).
    rewrite before_update_same_status in Hupd. simpl in Hupd.
    rewrite notify_order_ready_same_status in Hupd.
    eexists. split; [exact Hupd |].
    repeat split.
    + unfold order_by_id. simpl. now apply find_by_id_app.
    + intros Hne. now elim Hne.
    + intros id' Hne. unfold order_by_id. simpl. rewrite Hdb.
      now apply (find_other_id_app (o_id o) id').
  - apply String.eqb_neq in He.
    exists db. split.
    + unfold update_order_status.
      rewrite (varchar_short 20 _ (orders_status_check_length _ Hst)).
      simpl.
      now rewrite (status_guard_miss now db o expected _ Hr Hin He).
    + repeat split. exact Hfind'.
Qed.

(** The placed first order of the scenario, updated to placed: with the
    guard on placed its [updated_at] moves, with the guard on preparing
    nothing does. *)
Lemma same_status_update_touches_updated_at_witness :
  reachable Checkout.two_orders
  /\ exists o,
       order_by_id "0" Checkout.two_orders = Some o
       /\ (exists db',
              update_order_status 3000 "0" "placed" "placed"
                Checkout.two_orders
              = Ok ([("0", "placed", "1234")], db')
              /\ order_status_history db'
                 = order_status_history Checkout.two_orders
              /\ order_by_id "0" db' = Some (set_updated_at 3000 o))
       /\ update_order_status 3000 "0" "preparing" "placed"
            Checkout.two_orders
          = Ok ([], Checkout.two_orders).
Proof.
  split; [exact two_orders_reachable |].
  assert (Hfind : exists o, order_by_id "0" Checkout.two_orders = Some o
                            /\ o_status o = "placed"
                            /\ o_pickup_code o = "1234")
    by (eexists; repeat split; reflexivity).
  destruct Hfind as (o & Hfind & Hs & Hc).
  destruct (same_status_update_touches_updated_at 3000
              Checkout.two_orders "0" o "placed" two_orders_reachable Hfind)
    as (db1 & Hupd1 & Hh1 & _ & _ & _ & _ & _ & Ho1 & _).
  destruct (same_status_update_touches_updated_at 3000
              Checkout.two_orders "0" o "preparing" two_orders_reachable
              Hfind)
    as (db2 & Hupd2 & _ & _ & _ & _ & _ & _ & _ & Hsame & _).
  rewrite Hs, Hc in Hupd1. rewrite Hs in Ho1, Hupd2, Hsame.
  simpl in Hupd1, Ho1, Hupd2.
  rewrite (Hsame ltac:(discriminate)) in Hupd2.
  exists o. split; [exact Hfind |]. split.
  - exists db1. auto.
  - exact Hupd2.
Defined.

(** C6, as stated, fails: the order does not stay as it was, its
    [updated_at] moves from the time of the insert to the time of the
    update. *)
Lemma same_status_update_changes_order :
  option_map o_status (order_by_id "0" Checkout.two_orders) = Some "placed"
  /\ option_map o_updated_at (order_by_id "0" Checkout.two_orders)
     = Some 1000
  /\ exists db',
       update_order_status 3000 "0" "placed" "placed" Checkout.two_orders
       = Ok ([("0", "placed", "1234")], db')
       /\ option_map o_updated_at (order_by_id "0" db') = Some 3000
       /\ order_by_id "0" db' <> order_by_id "0" Checkout.two_orders.
Proof.
  split; [reflexivity |]. split; [reflexivity |].
  eexists. split; [vm_compute; reflexivity |].
  split; [reflexivity | discriminate].
Qed.

(** ** The audit trail of a status change *)

Lemma before_update_new_status (now : timestamp) (o : order)
    (status : string) (h : list status_history) :
  status <> o_status o ->
  before_update_orders now o (set_status status o) h
  = (if String.eqb status "completed"
     then set_completed_at (Some now)
            (set_updated_at now (set_status status o))
     else set_updated_at now (set_status status o),
     h ++ [ {| h_id := fresh_uuid (map h_id h);
               h_order_id := o_id o;
               h_previous_status := Some (o_status o);
               h_new_status := status;
               h_changed_by := Some (o_user_id o);
               h_changed_at := now;
               h_notes := Some ("Status changed from " ++ o_status o
                                ++ " to " ++ status)%string |} ]).
Proof.
  intros Hne. unfold before_update_orders, log_order_status_change,
    update_updated_at_column. simpl.
  assert (String.eqb (o_status o) status = false) as ->
      by (apply String.eqb_neq; congruence).
  reflexivity.
Qed.

(** What the history trigger records for a change of status: one entry
    with the old and the new status; the user it names is the owner of
    the order, whoever issued the update; [completed_at] is stamped when
    the new status is completed. *)
Lemma status_change_logged (now : timestamp) (db : database) (id : uuid)
    (o : order) (status : string) :
  reachable db -> order_by_id id db = Some o ->
  orders_status_check status = true -> status <> o_status o ->
  exists db' entry,
    update_order_status now id (o_status o) status db
    = Ok ([(id, status, o_pickup_code o)], db')
    /\ order_status_history db' = order_status_history db ++ [entry]
    /\ h_order_id entry = id
    /\ h_previous_status entry = Some (o_status o)
    /\ h_new_status entry = status
    /\ h_changed_by entry = Some (o_user_id o)
    /\ h_changed_at entry = now
    /\ (status = "completed" ->
        option_map o_completed_at (order_by_id id db') = Some (Some now)).
Proof.
  intros Hr Hfind Hst Hne. apply reachable_consistent in Hr.
  apply order_by_id_In in Hfind. destruct Hfind as [Hin <-].
  destruct (update_order_status_one now db o status Hr Hin Hst)
    as (l1 & l2 & Hdb & H1 & H2 & Hupd).
  rewrite (before_update_new_status now o status _ Hne) in Hupd.
  simpl in Hupd.
  eexists _, _. split; [exact Hupd |].
  simpl. repeat split.
  intros ->. unfold order_by_id. simpl.
  rewrite (find_by_id_app (o_id o) l1 l2 _ H1); reflexivity.
Qed.

(** C5, at the failing input.  The order of the scenario belongs to the
    customer; the staff member, a different user, moves it from preparing
    to ready.  One history entry is appended with the old and the new
    status, but the user it records is the customer: the trigger writes
    [NEW.user_id], and the statement carries no actor at all. *)
Theorem history_records_owner_not_actor :
  reachable Checkout.first_preparing
  /\ In Checkout.staff (auth_users Checkout.first_preparing)
  /\ Checkout.staff <> Checkout.customer
  /\ exists db' entry,
       update_order_status 5000 "0" "preparing" "ready"
         Checkout.first_preparing
       = Ok ([("0", "ready", "1234")], db')
       /\ order_status_history db'
          = order_status_history Checkout.first_preparing ++ [entry]
       /\ h_previous_status entry = Some "preparing"
       /\ h_new_status entry = "ready"
       /\ h_changed_by entry = Some Checkout.customer
       /\ h_changed_by entry <> Some Checkout.staff.
Proof.
  split; [exact first_preparing_reachable |].
  split; [right; left; reflexivity |].
  split; [discriminate |].
  assert (Hfind : exists o,
             order_by_id "0" Checkout.first_preparing = Some o
             /\ o_status o = "preparing" /\ o_pickup_code o = "1234"
             /\ o_user_id o = Checkout.customer)
    by (eexists; repeat split; reflexivity).
  destruct Hfind as (o & Hfind & Hs & Hc & Hu).
  destruct (status_change_logged 5000 Checkout.first_preparing "0" o
              "ready" first_preparing_reachable Hfind)
    as (db' & entry & Hupd & Hh & _ & Hprev & Hnew & Hby & _).
  - reflexivity.
  - rewrite Hs. discriminate.
  - rewrite Hs, Hc in *. rewrite Hu in Hby.
    exists db', entry. repeat split; try assumption.
    rewrite Hby. discriminate.
Qed.

(** ** The order total *)

Lemma Forall2_map_rel {A B : Type} (f g : A -> B) (R : A -> A -> Prop)
    (l l' : list A) :
  (forall x y, R x y -> g y = f x) -> Forall2 R l l' -> map g l' = map f l.
Proof.
  intros HR H. induction H as [|x y l l' Hxy _ IH]; simpl;
    [reflexivity | now rewrite (HR x y Hxy), IH].
Qed.

Lemma Forall_map_eq {A B : Type} (f g : A -> B) (P : B -> Prop)
    (l l' : list A) :
  map g l' = map f l ->
  (Forall (fun x => P (f x)) l <-> Forall (fun y => P (g y)) l').
Proof.
  intros H. rewrite <- (Forall_map f P l), <- (Forall_map g P l'), H.
  reflexivity.
Qed.

(** C1 (amended).  A status transition writes neither [total_amount] nor
    the order items: for every order, the difference between the stored
    total and the sum of quantity times unit price over its items is the
    same after the transition as before, so the transition keeps the
    0.05 tolerance where it held.  Nothing bounds that difference in the
    first place: [validate_order_total], which accepts exactly the totals
    within 0.05 of the sum, is attached to no trigger. *)
Theorem transition_keeps_total_gap (now : timestamp) (t : transition)
    (db db' : database) :
  run_transition now t db = Ok db' ->
  order_items db' = order_items db
  /\ map o_id (orders db') = map o_id (orders db)
  /\ map (total_gap db') (orders db') = map (total_gap db) (orders db)
  /\ (Forall (total_within_tolerance db) (orders db)
      <-> Forall (total_within_tolerance db') (orders db'))
  /\ (forall NEW,
         validate_order_total NEW db' = Ok NEW
         <-> Z.abs (order_items_sum (o_id NEW) db') < 10 ^ 10
             /\ total_within_tolerance db' NEW).
Proof.
  intros H. apply run_transition_rows in H.
  destruct H as (_ & _ & _ & Hitems & HF).
  assert (Hgap : map (total_gap db') (orders db')
                 = map (total_gap db) (orders db)).
  { refine (Forall2_map_rel _ _ _ _ _ _ HF). intros x y Hxy.
    destruct Hxy as [(Hid & _ & Htot & _) _].
    unfold total_gap, order_items_sum. now rewrite Hid, Htot, Hitems. }
  split; [exact Hitems |].
  split; [apply (Forall2_map_eq o_id _ _ _ (fun x y Hxy => proj1 (proj1 Hxy))
                   HF) |].
  split; [exact Hgap |].
  split.
  - unfold total_within_tolerance.
    apply (Forall_map_eq (total_gap db) (total_gap db')
             (fun g => Z.abs g <= 5)). exact Hgap.
  - intros NEW. unfold validate_order_total, calculate_order_total,
      decimal_10_2, total_within_tolerance, total_gap.
    destruct (Z.ltb_spec (Z.abs (order_items_sum (o_id NEW) db')) (10 ^ 10));
      simpl.
    + destruct (Z.ltb_spec 5
                  (Z.abs (o_total_amount NEW
                          - order_items_sum (o_id NEW) db'))).
      * split; [discriminate | lia].
      * split; [intros _; split; lia | reflexivity].
    + split; [discriminate | lia].
Qed.

(** The total of the scenario's order is 100 cents off before the order is
    moved to confirmed, and 100 cents off after. *)
Lemma transition_keeps_total_gap_witness :
  exists db',
    run_transition 3000 (to_status "0" "placed" "confirmed")
      Checkout.two_orders = Ok db'
    /\ map (total_gap Checkout.two_orders) (orders Checkout.two_orders)
       = [100; 400]
    /\ map (total_gap db') (orders db') = [100; 400].
Proof.
  eexists. split; [vm_compute; reflexivity |].
  split; [reflexivity |].
  apply (transition_keeps_total_gap 3000
           (to_status "0" "placed" "confirmed") Checkout.two_orders).
  vm_compute; reflexivity.
Defined.

(** C1, as stated, fails.  Right after the insert of the checkout
    transaction the order has a total of 24.50 and no item; once its four
    items are in, their sum is 23.50.  Both databases are ones the
    application can be in, and in both the total is more than 0.05 away
    from the sum. *)
Lemma total_not_sum_of_items :
  reachable Checkout.order_inserted
  /\ reachable Checkout.checked_out
  /\ (exists o, order_by_id "0" Checkout.order_inserted = Some o
                /\ o_total_amount o = 2450
                /\ order_items_sum "0" Checkout.order_inserted = 0
                /\ ~ total_within_tolerance Checkout.order_inserted o)
  /\ (exists o, order_by_id "0" Checkout.checked_out = Some o
                /\ o_total_amount o = 2450
                /\ order_items_sum "0" Checkout.checked_out = 2350
                /\ ~ total_within_tolerance Checkout.checked_out o).
Proof.
  split; [exact order_inserted_reachable |].
  split; [exact checked_out_reachable |].
  split; eexists; (split; [reflexivity |]);
    (split; [reflexivity |]); (split; [reflexivity |]);
    unfold total_within_tolerance; vm_compute; intros H; apply H;
    reflexivity.
Qed.

(** * Further properties of the code *)

(** ** What an [UPDATE orders] writes *)

Lemma before_update_row (now : timestamp) (OLD NEW : order)
    (h : list status_history) :
  fst (before_update_orders now OLD NEW h)
  = fst (before_update_orders now OLD NEW []).
Proof.
  unfold before_update_orders, log_order_status_change.
  destruct (_ && _); reflexivity.
Qed.

(** The history trigger appends at most one entry, and only for a change
    of status. *)
Lemma before_update_history (now : timestamp) (OLD NEW : order)
    (h : list status_history) :
  exists suffix,
    snd (before_update_orders now OLD NEW h) = h ++ suffix
    /\ List.length suffix
       = (if String.eqb (o_status OLD) (o_status NEW) then 0 else 1)%nat
    /\ Forall (fun e => h_order_id e = o_id NEW
                        /\ h_previous_status e = Some (o_status OLD)
                        /\ h_new_status e = o_status NEW
                        /\ o_status OLD <> o_status NEW
                        /\ h_changed_by e = Some (o_user_id NEW)
                        /\ h_changed_at e = now) suffix.
Proof.
  unfold before_update_orders, log_order_status_change,
    update_updated_at_column. simpl.
  destruct (String.eqb_spec (o_status OLD) (o_status NEW)) as [Heq|Hne];
    simpl.
  - exists []. rewrite app_nil_r. repeat split. constructor.
  - eexists [_]. split; [reflexivity |]. split; [reflexivity |].
    constructor; [| constructor]. simpl. repeat split. exact Hne.
Qed.

(** The table an update leaves: selected rows are replaced by
    [updated_row], the others are kept, and the history grows at its
    end. *)
Lemma update_rows_map (now : timestamp) (where_ : order -> bool)
    (set_ : order -> order) :
  forall rows h rows' updated h',
    update_rows now where_ set_ rows h = Ok (rows', updated, h') ->
    rows' = map (fun o => if where_ o then updated_row now set_ o else o)
              rows
    /\ updated = map (fun o => (o, updated_row now set_ o))
                   (filter where_ rows)
    /\ exists suffix,
         h' = h ++ suffix
         /\ List.length suffix
            = List.length
                (filter (fun o => where_ o
                                  && negb (String.eqb (o_status o)
                                             (o_status (set_ o)))) rows)
         /\ Forall (fun e =>
                      exists o, In o rows /\ where_ o = true
                        /\ h_order_id e = o_id (set_ o)
                        /\ h_previous_status e = Some (o_status o)
                        /\ h_new_status e = o_status (set_ o)
                        /\ o_status o <> o_status (set_ o)
                        /\ h_changed_by e = Some (o_user_id (set_ o))
                        /\ h_changed_at e = now) suffix.
Proof.
  induction rows as [|OLD rest IH]; intros h rows' updated h' H.
  - simpl in H. injection H as <- <- <-.
    repeat split. exists []. rewrite app_nil_r. repeat split. constructor.
  - simpl in H. destruct (where_ OLD) eqn:Hw.
    + pose proof (before_update_row now OLD (set_ OLD) h) as Hrow.
      destruct (before_update_history now OLD (set_ OLD) h)
        as (s1 & Hs1 & Hlen1 & Hall1).
      destruct (before_update_orders now OLD (set_ OLD) h) as [NEW h1].
      simpl in Hrow, Hs1.
      destruct (orders_row_checks NEW) as [[]| |]; simpl in H;
        try discriminate.
      apply bind_Ok in H. destruct H as [[[rest' upd'] h2] [Hrec H]].
      injection H as <- <- <-.
      destruct (IH _ _ _ _ Hrec) as (Hrows & Hupd & s2 & Hs2 & Hlen2 & Hall2).
      simpl. rewrite Hw. simpl. unfold updated_row at 1 3.
      rewrite <- Hrow, Hrows, Hupd.
      split; [reflexivity |]. split; [reflexivity |].
      exists (s1 ++ s2). split; [rewrite Hs2, Hs1, app_assoc; reflexivity |].
      split.
      * rewrite length_app, Hlen1, Hlen2. simpl.
        destruct (String.eqb (o_status OLD) (o_status (set_ OLD)));
          reflexivity.
      * apply Forall_app. split.
        -- eapply Forall_impl; [| exact Hall1]. simpl.
           intros e (E1 & E2 & E3 & E4 & E5 & E6).
           exists OLD. repeat split; auto.
        -- eapply Forall_impl; [| exact Hall2]. simpl.
           intros e (o & Ho & Hrest). exists o. split; [right; exact Ho |].
           exact Hrest.
    + apply bind_Ok in H. destruct H as [[[rest' upd'] h2] [Hrec H]].
      injection H as <- <- <-.
      destruct (IH _ _ _ _ Hrec) as (Hrows & Hupd & s2 & Hs2 & Hlen2 & Hall2).
      simpl. rewrite Hw. simpl. rewrite Hrows, Hupd.
      split; [reflexivity |]. split; [reflexivity |].
      exists s2. split; [exact Hs2 |]. split; [exact Hlen2 |].
      eapply Forall_impl; [| exact Hall2]. simpl.
      intros e (o & Ho & Hrest). exists o. split; [right; exact Ho |].
      exact Hrest.
Qed.

(** An update commits when the rows it rewrites pass the [CHECK]
    constraints. *)
Lemma update_rows_commits (now : timestamp) (where_ : order -> bool)
    (set_ : order -> order) :
  forall rows h,
    Forall (fun o => where_ o = true ->
                     orders_row_checks (updated_row now set_ o) = Ok tt)
      rows ->
    exists r, update_rows now where_ set_ rows h = Ok r.
Proof.
  induction rows as [|OLD rest IH]; intros h Hall; simpl;
    [eexists; reflexivity |].
  inversion Hall as [|? ? Hold Hrest]; subst.
  destruct (where_ OLD) eqn:Hw.
  - pose proof (before_update_row now OLD (set_ OLD) h) as Hrow.
    destruct (before_update_orders now OLD (set_ OLD) h) as [NEW h1].
    simpl in Hrow. specialize (Hold eq_refl).
    unfold updated_row in Hold. rewrite <- Hrow in Hold.
    rewrite Hold. simpl.
    destruct (IH h1 Hrest) as [[[rest' upd'] h2] Hrec].
    rewrite Hrec. simpl. eexists; reflexivity.
  - destruct (IH h Hrest) as [[[rest' upd'] h2] Hrec].
    rewrite Hrec. simpl. eexists; reflexivity.
Qed.

Lemma updated_row_fixed (now : timestamp) (set_ : order -> order)
    (o : order) :
  keeps_fixed_columns set_ -> same_fixed_columns o (updated_row now set_ o).
Proof. intros H. apply before_update_fixed. apply H. Qed.

Lemma updated_row_status (now : timestamp) (set_ : order -> order)
    (o : order) :
  o_status (updated_row now set_ o) = o_status (set_ o).
Proof. apply before_update_status. Qed.

Lemma updated_row_updated_at (now : timestamp) (set_ : order -> order)
    (o : order) :
  o_updated_at (updated_row now set_ o) = now.
Proof.
  unfold updated_row, before_update_orders, log_order_status_change.
  destruct (_ && _); simpl; [destruct (String.eqb _ "completed") |];
    reflexivity.
Qed.

(** The ready notifications of one update: one per row whose status
    changed to ready, addressed to the owner of the order and carrying
    its pickup code at the end of the message. *)
Lemma notify_order_ready_fold (now : timestamp) (set_ : order -> order)
    (rows : list order) (ns : list notification) :
  keeps_fixed_columns set_ ->
  exists suffix,
    fold_left (fun ns p => notify_order_ready now "UPDATE" (fst p) (snd p) ns)
      (map (fun o => (o, updated_row now set_ o)) rows) ns
    = ns ++ suffix
    /\ List.length suffix
       = List.length
           (filter (fun o => negb (String.eqb (o_status o)
                                     (o_status (set_ o)))
                             && String.eqb (o_status (set_ o)) "ready")
              rows)
    /\ Forall (fun n =>
                 exists o, In o rows
                   /\ o_status o <> "ready" /\ o_status (set_ o) = "ready"
                   /\ n_user_id n = o_user_id o
                   /\ n_order_id n = Some (o_id o)
                   /\ n_type n = "order_ready"
                   /\ n_read_at n = None
                   /\ n_sent_at n = now
                   /\ n_message n
                      = ("Order #" ++ SUBSTRING_1 (o_id o) 8
                         ++ " is ready for pickup. Your pickup code is: "
                         ++ o_pickup_code o)%string) suffix.
Proof.
  intros Hset. revert ns. induction rows as [|o rest IH]; intros ns; simpl.
  - exists []. rewrite app_nil_r. repeat split. constructor.
  - destruct (updated_row_fixed now set_ o Hset)
      as (Hid & Huser & _ & _ & Hcode & _).
    unfold notify_order_ready at 2. simpl.
    rewrite (updated_row_status now set_ o).
    destruct (String.eqb_spec (o_status o) (o_status (set_ o))) as [He|Hne];
      simpl.
    + destruct (IH ns) as (suffix & Hs & Hlen & Hall).
      exists suffix. split; [exact Hs |]. split; [exact Hlen |].
      eapply Forall_impl; [| exact Hall]. simpl.
      intros n (x & Hx & Hrest). exists x. split; [right; exact Hx |].
      exact Hrest.
    + destruct (String.eqb_spec (o_status (set_ o)) "ready") as [Hr|Hnr];
        simpl.
      * match goal with
        | |- exists _, fold_left _ _ (ns ++ [?n]) = _ /\ _ =>
            destruct (IH (ns ++ [n])) as (suffix & Hs & Hlen & Hall);
              exists (n :: suffix)
        end.
        split; [rewrite Hs, <- app_assoc; reflexivity |].
        split; [simpl; now rewrite Hlen |].
        constructor.
        -- exists o. simpl. rewrite Hid, Huser, Hcode.
           repeat split; auto. congruence.
        -- eapply Forall_impl; [| exact Hall]. simpl.
           intros n (x & Hx & Hrest). exists x. split; [right; exact Hx |].
           exact Hrest.
      * destruct (IH ns) as (suffix & Hs & Hlen & Hall).
        exists suffix. split; [exact Hs |]. split; [exact Hlen |].
        eapply Forall_impl; [| exact Hall]. simpl.
        intros n (x & Hx & Hrest). exists x. split; [right; exact Hx |].
        exact Hrest.
Qed.

(** In a consistent database an update whose [SET] clause assigns one of
    the six statuses commits, and this is what it leaves. *)
Lemma update_orders_result (now : timestamp) (where_ : order -> bool)
    (set_ : order -> order) (db : database) :
  keeps_fixed_columns set_ -> consistent db ->
  (forall o, In o (orders db) -> where_ o = true ->
             orders_status_check (o_status (set_ o)) = true) ->
  exists db',
    update_orders now where_ set_ db
    = Ok (map (updated_row now set_) (filter where_ (orders db)), db')
    /\ orders db'
       = map (fun o => if where_ o then updated_row now set_ o else o)
           (orders db)
    /\ auth_users db' = auth_users db /\ profiles db' = profiles db
    /\ menu_items db' = menu_items db /\ order_items db' = order_items db
    /\ (exists suffix,
           order_status_history db' = order_status_history db ++ suffix
           /\ List.length suffix
              = List.length
                  (filter (fun o => where_ o
                                    && negb (String.eqb (o_status o)
                                               (o_status (set_ o))))
                     (orders db)))
    /\ notifications db'
       = fold_left
           (fun ns p => notify_order_ready now "UPDATE" (fst p) (snd p) ns)
           (map (fun o => (o, updated_row now set_ o))
              (filter where_ (orders db)))
           (notifications db).
Proof.
  intros Hset Hc Hst.
  destruct (update_rows_commits now where_ set_ (orders db)
              (order_status_history db)) as [[[rows' updated] h'] Hrows].
  { apply Forall_forall. intros o Ho Hw. apply orders_row_checks_pass.
    - rewrite updated_row_status. now apply Hst.
    - destruct (updated_row_fixed now set_ o Hset) as (_ & _ & -> & _).
      pose proof (totals_checked db Hc) as Ht.
      rewrite Forall_forall in Ht. now apply Ht. }
  destruct (update_rows_map now where_ set_ _ _ _ _ _ Hrows)
    as (Hr & Hu & suffix & Hh & Hlen & _).
  subst rows' updated.
  unfold update_orders. rewrite Hrows. simpl.
  eexists. split.
  - rewrite map_map. simpl. reflexivity.
  - simpl. repeat split. exists suffix. auto.
Qed.

Lemma find_by_id_map (f : order -> order) (l : list order) (o : order) :
  NoDup (map o_id l) -> In o l -> (forall x, o_id (f x) = o_id x) ->
  find (fun x => String.eqb (o_id x) (o_id o)) (map f l) = Some (f o).
Proof.
  intros Hnd Hin Hf.
  destruct (split_by_id l o Hnd Hin) as (l1 & l2 & -> & H1 & _).
  rewrite map_app. simpl. apply find_by_id_app; [| apply Hf].
  apply Forall_forall. intros y Hy. apply in_map_iff in Hy.
  destruct Hy as (x & <- & Hx). rewrite Hf.
  rewrite Forall_forall in H1. now apply H1.
Qed.

(** ** Completing an order after pickup *)

Lemma completed_row (now : timestamp) (o : order) :
  o_status o = "ready" ->
  updated_row now
    (fun o => set_completed_at (Some now) (set_status "completed" o)) o
  = set_completed_at (Some now)
      (set_updated_at now
         (set_completed_at (Some now) (set_status "completed" o))).
Proof.
  intros Hs. unfold updated_row, before_update_orders,
    log_order_status_change, update_updated_at_column. simpl.
  rewrite Hs. reflexivity.
Qed.

Lemma awaiting_pickup_ready (code : string) (o : order) :
  awaiting_pickup code o = true ->
  o_pickup_code o = code /\ o_status o = "ready".
Proof.
  unfold awaiting_pickup. rewrite andb_true_iff, !String.eqb_eq. tauto.
Qed.

(** [complete_order_after_pickup]: in every database the application can
    be in, the statement commits and returns the key and the owner of the
    orders [verify_pickup_code] accepts for the code; these orders become
    completed with [completed_at] set to the time of the call, every other
    order is left as it is, the code is no longer accepted, and running
    the statement again selects nothing and changes nothing. *)
Theorem pickup_completion_closes_code (now now' : timestamp) (code : string)
    (db : database) :
  reachable db ->
  exists db',
    complete_order_after_pickup now code db
    = Ok (map (fun r => (pd_order_id r, pd_user_id r))
            (verify_pickup_code code db), db')
    /\ verify_pickup_code code db' = []
    /\ (forall o, In o (orders db) -> awaiting_pickup code o = true ->
          exists o', order_by_id (o_id o) db' = Some o'
                     /\ o_status o' = "completed"
                     /\ o_completed_at o' = Some now
                     /\ same_fixed_columns o o')
    /\ (forall o, In o (orders db) -> awaiting_pickup code o = false ->
          In o (orders db'))
    /\ complete_order_after_pickup now' code db' = Ok ([], db').
Proof.
  intros Hr. apply reachable_consistent in Hr.
  pose (set_ := fun o => set_completed_at (Some now)
                           (set_status "completed" o)).
  destruct (update_orders_result now (awaiting_pickup code) set_ db
              (set_completed_fixed now) Hr)
    as (db' & Hupd & Horders & _ & _ & _ & _ & _ & _);
    [intros; reflexivity |].
  assert (Hclosed : Forall (fun x => awaiting_pickup code x = false)
                      (orders db')).
  { rewrite Horders. apply Forall_forall. intros x Hx.
    apply in_map_iff in Hx. destruct Hx as (o & <- & Ho).
    destruct (awaiting_pickup code o) eqn:Hw; [| exact Hw].
    unfold awaiting_pickup. rewrite updated_row_status. simpl.
    apply andb_false_r. }
  exists db'. split; [| split; [| split; [| split]]].
  - unfold complete_order_after_pickup.
    change (fun o => String.eqb (o_pickup_code o) code
                     && String.eqb (o_status o) "ready")
      with (awaiting_pickup code).
    fold set_. rewrite Hupd. simpl. f_equal. f_equal.
    unfold verify_pickup_code. rewrite !map_map.
    apply map_ext_in. intros o Ho. simpl.
    destruct (updated_row_fixed now set_ o (set_completed_fixed now))
      as (-> & -> & _). reflexivity.
  - unfold verify_pickup_code.
    change (fun o => String.eqb (o_pickup_code o) code
                     && String.eqb (o_status o) "ready")
      with (awaiting_pickup code).
    now rewrite (filter_none _ _ Hclosed).
  - intros o Ho Hw. exists (updated_row now set_ o).
    split; [| split; [| split]].
    + unfold order_by_id. rewrite Horders.
      rewrite (find_by_id_map _ _ o (order_ids_unique db Hr) Ho).
      * now rewrite Hw.
      * intros x. destruct (awaiting_pickup code x); [| reflexivity].
        apply (updated_row_fixed now set_ x (set_completed_fixed now)).
    + rewrite updated_row_status. reflexivity.
    + apply awaiting_pickup_ready in Hw. destruct Hw as [_ Hs].
      unfold set_. rewrite (completed_row now o Hs). reflexivity.
    + apply updated_row_fixed. apply set_completed_fixed.
  - intros o Ho Hw. rewrite Horders. apply in_map_iff.
    exists o. now rewrite Hw.
  - unfold complete_order_after_pickup.
    change (fun o => String.eqb (o_pickup_code o) code
                     && String.eqb (o_status o) "ready")
      with (awaiting_pickup code).
    now rewrite (update_orders_none _ _ _ _ Hclosed).
Qed.

(** The ready order of the scenario is picked up with its code 1234. *)
Lemma pickup_completion_closes_code_witness :
  reachable Checkout.first_ready
  /\ verify_pickup_code "1234" Checkout.first_ready <> []
  /\ exists db',
       complete_order_after_pickup 6000 "1234" Checkout.first_ready
       = Ok ([("0", Checkout.customer)], db')
       /\ verify_pickup_code "1234" db' = [].
Proof.
  split; [exact first_ready_reachable |].
  split; [discriminate |].
  destruct (pickup_completion_closes_code 6000 6000 "1234"
              Checkout.first_ready first_ready_reachable)
    as (db' & Hupd & Hclosed & _).
  exists db'. split; [exact Hupd | exact Hclosed].
Defined.

(** ** Cancelling orders *)

Lemma cancellable_status (ids : list (option uuid)) (o : order) :
  cancellable ids o = true ->
  o_status o = "placed" \/ o_status o = "confirmed".
Proof.
  unfold cancellable. rewrite andb_true_iff. intros [_ H].
  apply in_list_In in H. simpl in H. intuition.
Qed.

(** [cancel_orders]: in every database the application can be in, the
    statement commits; it cancels exactly the orders among the given keys
    whose status is placed or confirmed, leaves every other order as it
    is (preparing, ready, completed and cancelled orders are out of its
    reach), logs one history entry per cancelled order, sends no
    notification, and running it again selects nothing and changes
    nothing. *)
Theorem cancel_orders_scope (now now' : timestamp)
    (ids : list (option uuid)) (db : database) :
  reachable db ->
  exists db',
    cancel_orders now ids db
    = Ok (map (fun o => (o_id o, o_user_id o, "cancelled"))
            (filter (cancellable ids) (orders db)), db')
    /\ (forall o, In o (orders db) -> cancellable ids o = true ->
          exists o', order_by_id (o_id o) db' = Some o'
                     /\ o_status o' = "cancelled"
                     /\ o_completed_at o' = o_completed_at o
                     /\ same_fixed_columns o o')
    /\ (forall o, In o (orders db) -> cancellable ids o = false ->
          In o (orders db'))
    /\ (exists suffix,
           order_status_history db' = order_status_history db ++ suffix
           /\ List.length suffix
              = List.length (filter (cancellable ids) (orders db)))
    /\ notifications db' = notifications db
    /\ cancel_orders now' ids db' = Ok ([], db').
Proof.
  intros Hr. apply reachable_consistent in Hr.
  destruct (update_orders_result now (cancellable ids)
              (set_status "cancelled") db (set_status_fixed "cancelled") Hr)
    as (db' & Hupd & Horders & _ & _ & _ & _ & (suffix & Hh & Hlen) & Hn);
    [intros; reflexivity |].
  assert (Hrow : forall o, cancellable ids o = true ->
                   updated_row now (set_status "cancelled") o
                   = set_updated_at now (set_status "cancelled" o)).
  { intros o Hw. apply cancellable_status in Hw.
    unfold updated_row, before_update_orders, log_order_status_change,
      update_updated_at_column. simpl.
    destruct Hw as [-> | ->]; reflexivity. }
  assert (Hdone : Forall (fun x => cancellable ids x = false) (orders db')).
  { rewrite Horders. apply Forall_forall. intros x Hx.
    apply in_map_iff in Hx. destruct Hx as (o & <- & Ho).
    destruct (cancellable ids o) eqn:Hw; [| exact Hw].
    unfold cancellable. rewrite updated_row_status. simpl.
    apply andb_false_r. }
  exists db'. split; [| split; [| split; [| split; [| split]]]].
  - unfold cancel_orders.
    change (fun o => eq_any (o_id o) ids
                     && in_list (o_status o) ["placed"; "confirmed"])
      with (cancellable ids).
    rewrite Hupd. simpl. f_equal. f_equal. rewrite map_map.
    apply map_ext_in. intros o Ho. apply filter_In in Ho.
    rewrite (Hrow o (proj2 Ho)). reflexivity.
  - intros o Ho Hw. exists (updated_row now (set_status "cancelled") o).
    split; [| split; [| split]].
    + unfold order_by_id. rewrite Horders.
      rewrite (find_by_id_map _ _ o (order_ids_unique db Hr) Ho).
      * now rewrite Hw.
      * intros x. destruct (cancellable ids x); [| reflexivity].
        apply (updated_row_fixed now _ x (set_status_fixed "cancelled")).
    + rewrite updated_row_status. reflexivity.
    + rewrite (Hrow o Hw). reflexivity.
    + apply updated_row_fixed. apply set_status_fixed.
  - intros o Ho Hw. rewrite Horders. apply in_map_iff.
    exists o. now rewrite Hw.
  - exists suffix. split; [exact Hh |]. rewrite Hlen. f_equal.
    apply filter_ext_Forall. apply Forall_forall. intros o _.
    destruct (cancellable ids o) eqn:Hw; [| reflexivity].
    apply cancellable_status in Hw. simpl.
    destruct Hw as [-> | ->]; reflexivity.
  - rewrite Hn.
    destruct (notify_order_ready_fold now (set_status "cancelled")
                (filter (cancellable ids) (orders db)) (notifications db)
                (set_status_fixed "cancelled"))
      as (nsuffix & -> & Hnlen & _).
    rewrite (filter_none _ (filter (cancellable ids) (orders db)))
      in Hnlen.
    + destruct nsuffix; [apply app_nil_r | discriminate].
    + apply Forall_forall. intros o _. simpl. apply andb_false_r.
  - unfold cancel_orders.
    change (fun o => eq_any (o_id o) ids
                     && in_list (o_status o) ["placed"; "confirmed"])
      with (cancellable ids).
    now rewrite (update_orders_none _ _ _ _ Hdone).
Qed.

(** Cancelling both orders of the scenario while the first is ready:
    only the second, still placed, is cancelled. *)
Lemma cancel_orders_scope_witness :
  reachable Checkout.first_ready
  /\ exists db',
       cancel_orders 6000 [Some "0"; Some "00"] Checkout.first_ready
       = Ok ([("00", Checkout.customer, "cancelled")], db')
       /\ notifications db' = notifications Checkout.first_ready.
Proof.
  split; [exact first_ready_reachable |].
  destruct (cancel_orders_scope 6000 6000 [Some "0"; Some "00"]
              Checkout.first_ready first_ready_reachable)
    as (db' & Hupd & _ & _ & _ & Hn & _).
  exists db'. split; [exact Hupd | exact Hn].
Defined.

(** ** The ready notification *)

(** [notify_order_ready] on a status update: when an order moves to ready
    from another status, exactly one notification is appended, unread,
    addressed to the owner of the order, of type order_ready, whose
    message ends with the pickup code; an update to any other status, or
    of an order that is ready already, appends none. *)
Theorem ready_notification_sent (now : timestamp) (db : database)
    (id : uuid) (o : order) (status : string) :
  reachable db -> order_by_id id db = Some o ->
  orders_status_check status = true ->
  exists db',
    update_order_status now id (o_status o) status db
    = Ok ([(id, status, o_pickup_code o)], db')
    /\ (status = "ready" -> o_status o <> "ready" ->
        exists n,
          notifications db' = notifications db ++ [n]
          /\ n_user_id n = o_user_id o
          /\ n_order_id n = Some id
          /\ n_type n = "order_ready"
          /\ n_read_at n = None
          /\ n_sent_at n = now
          /\ n_message n
             = ("Order #" ++ SUBSTRING_1 id 8
                ++ " is ready for pickup. Your pickup code is: "
                ++ o_pickup_code o)%string)
    /\ (status <> "ready" \/ o_status o = "ready" ->
        notifications db' = notifications db).
Proof.
  intros Hr Hfind Hst. apply reachable_consistent in Hr.
  apply order_by_id_In in Hfind. destruct Hfind as [Hin <-].
  destruct (update_order_status_one now db o status Hr Hin Hst)
    as (l1 & l2 & _ & _ & _ & Hupd).
  eexists. split; [exact Hupd |].
  destruct (before_update_fixed now o (set_status status o)
              (order_status_history db) (set_status_fixed status o))
    as (Hid & Huser & _ & _ & Hcode & _).
  pose proof (before_update_status now o (set_status status o)
                (order_status_history db)) as Hs.
  simpl in Hs. unfold notify_order_ready. simpl. rewrite Hs.
  split.
  - intros -> Hne. apply String.eqb_neq in Hne. rewrite Hne. simpl.
    eexists. split; [reflexivity |]. simpl. rewrite Hid, Huser, Hcode.
    repeat split.
  - intros [Hne | He].
    + apply String.eqb_neq in Hne. rewrite Hne, andb_false_r. reflexivity.
    + destruct (String.eqb_spec (o_status o) status) as [_|Hne'];
        [reflexivity |].
      simpl. destruct (String.eqb_spec status "ready") as [->|_];
        [congruence | reflexivity].
Qed.

(** The first order of the scenario is moved from preparing to ready. *)
Lemma ready_notification_sent_witness :
  reachable Checkout.first_preparing
  /\ exists db' n,
       update_order_status 5000 "0" "preparing" "ready"
         Checkout.first_preparing
       = Ok ([("0", "ready", "1234")], db')
       /\ notifications db'
          = notifications Checkout.first_preparing ++ [n]
       /\ n_user_id n = Checkout.customer
       /\ n_message n
          = "Order #0 is ready for pickup. Your pickup code is: 1234".
Proof.
  split; [exact first_preparing_reachable |].
  assert (Hfind : exists o,
             order_by_id "0" Checkout.first_preparing = Some o
             /\ o_status o = "preparing" /\ o_pickup_code o = "1234"
             /\ o_user_id o = Checkout.customer)
    by (eexists; repeat split; reflexivity).
  destruct Hfind as (o & Hfind & Hs & Hc & Hu).
  destruct (ready_notification_sent 5000 Checkout.first_preparing "0" o
              "ready" first_preparing_reachable Hfind eq_refl)
    as (db' & Hupd & Hready & _).
  destruct Hready as (n & Hn & Hnu & _ & _ & _ & _ & Hm);
    [reflexivity | rewrite Hs; discriminate |].
  rewrite Hs, Hc in Hupd. rewrite Hc in Hm. rewrite Hu in Hnu.
  exists db', n. auto.
Defined.

(** ** A status update that finds no row *)

(** A status update for a key no order has selects no row.  For every
    target status of at most 20 characters, one that the [CHECK]
    constraint would refuse included, and for a longer target whose
    characters after the 20th are all spaces, it commits, returns no row
    and leaves the database as it is: no error tells the caller that the
    order does not exist.  Any other target of more than 20 characters
    fails on the [VARCHAR(20)] column with a string truncation error,
    before any row is looked for. *)
Theorem update_order_status_unknown_id (now : timestamp) (db : database)
    (id : uuid) (expected status : string) :
  ~ In id (map o_id (orders db)) ->
  ((String.length status <= 20)%nat ->
   update_order_status now id expected status db = Ok ([], db))
  /\ ((20 < String.length status)%nat ->
      all_spaces (substring 20 (String.length status - 20) status) = true ->
      update_order_status now id expected status db = Ok ([], db))
  /\ ((20 < String.length status)%nat ->
      all_spaces (substring 20 (String.length status - 20) status) = false ->
      update_order_status now id expected status db
      = Err string_data_right_truncation).
Proof.
  intros Hid.
  assert (Hnone : forall s',
             update_orders now
               (fun o => String.eqb (o_id o) id
                         && String.eqb (o_status o) expected)
               (set_status s') db = Ok ([], db)).
  { intros s'. apply update_orders_none.
    apply Forall_forall. intros o Ho.
    destruct (String.eqb_spec (o_id o) id) as [He|Hne]; [| reflexivity].
    exfalso. apply Hid. rewrite <- He. now apply in_map. }
  unfold update_order_status. split; [| split].
  - intros Hlen. rewrite (varchar_short 20 status Hlen). simpl.
    now rewrite Hnone.
  - intros Hlen Hsp. rewrite (varchar_long 20 status Hlen), Hsp. simpl.
    now rewrite Hnone.
  - intros Hlen Hsp. rewrite (varchar_long 20 status Hlen), Hsp.
    reflexivity.
Qed.

(** No order of the scenario has the key "7"; even a status that the
    table would refuse goes unnoticed, one of 22 characters does not. *)
Lemma update_order_status_unknown_id_witness :
  ~ In "7" (map o_id (orders Checkout.two_orders))
  /\ update_order_status 3000 "7" "placed" "eaten" Checkout.two_orders
     = Ok ([], Checkout.two_orders)
  /\ update_order_status 3000 "7" "placed" "ready-for-the-customer"
       Checkout.two_orders
     = Err string_data_right_truncation.
Proof.
  assert (~ In "7" (map o_id (orders Checkout.two_orders))) as Hid.
  { simpl. intros [H|[H|[]]]; discriminate. }
  split; [exact Hid |].
  destruct (update_order_status_unknown_id 3000 Checkout.two_orders "7"
              "placed" "eaten" Hid) as (Hshort & _).
  destruct (update_order_status_unknown_id 3000 Checkout.two_orders "7"
              "placed" "ready-for-the-customer" Hid) as (_ & _ & Hlong).
  split.
  - apply Hshort. simpl. lia.
  - apply Hlong; [simpl; lia | reflexivity].
Defined.

(** ** Placing an order *)

(** [INSERT INTO orders] with its two triggers: a committed insert appends
    one order under a key new to the table, owned by an existing user,
    with the total the client gave (non-negative, not compared with any
    item), one of the six statuses (placed when none is given), both
    timestamps at the time of the call and no completion time, and a
    pickup code no order of the table carries; it appends one unread
    order_placed notification for the owner and writes nothing to the
    status history or the order items. *)
Theorem insert_order_stores (now : timestamp) (draws : list Z)
    (v : order_values) (db db' : database) (id : uuid) (code : string) :
  insert_order now draws v db = Ok ((id, code), db') ->
  exists NEW n,
    orders db' = orders db ++ [NEW]
    /\ order_by_id id db' = Some NEW
    /\ o_id NEW = id /\ ~ In id (map o_id (orders db))
    /\ o_pickup_code NEW = code
    /\ ~ In code (map o_pickup_code (orders db))
    /\ o_user_id NEW = v_user_id v /\ In (v_user_id v) (auth_users db)
    /\ o_total_amount NEW = v_total_amount v /\ 0 <= v_total_amount v
    /\ orders_status_check (o_status NEW) = true
    /\ (v_status v = None -> o_status NEW = "placed")
    /\ o_created_at NEW = now /\ o_updated_at NEW = now
    /\ o_completed_at NEW = None
    /\ notifications db' = notifications db ++ [n]
    /\ n_user_id n = v_user_id v /\ n_order_id n = Some id
    /\ n_type n = "order_placed" /\ n_read_at n = None
    /\ order_status_history db' = order_status_history db
    /\ order_items db' = order_items db.
Proof.
  unfold insert_order. intros H.
  apply bind_Ok in H. destruct H as [status [Hstatus H]].
  apply bind_Ok in H. destruct H as [total [Htotal H]].
  apply bind_Ok in H. destruct H as [given [Hgiven H]].
  apply bind_Ok in H. destruct H as [code' [Hcode H]].
  match type of H with
  | (orders_row_checks ?N ;;; _) = _ => set (NEW := N) in *
  end.
  destruct (orders_row_checks NEW) as [[]| |] eqn:Hchk; simpl in H;
    try discriminate.
  apply guard_Ok in H. destruct H as [Huniq H].
  apply guard_Ok in H. destruct H as [Hfk H].
  injection H as <- <- <-.
  apply orders_row_checks_Ok in Hchk. destruct Hchk as [Hs Ht].
  assert (total = v_total_amount v) as ->.
  { unfold decimal_10_2 in Htotal.
    destruct (Z.abs _ <? 10 ^ 10); [| discriminate].
    now injection Htotal as <-. }
  pose proof (fresh_uuid_new (map o_id (orders db))) as Hfresh.
  eexists NEW, _. simpl.
  split; [reflexivity |]. split.
  { unfold order_by_id. simpl.
    apply (find_by_id_app _ (orders db) [] NEW); [| reflexivity].
    apply Forall_forall. intros x Hx Heq. apply Hfresh.
    rewrite <- Heq. now apply in_map. }
  split; [reflexivity |]. split; [exact Hfresh |].
  split; [reflexivity |]. split.
  { apply negb_true_iff in Huniq. now apply in_list_not_In in Huniq. }
  split; [reflexivity |]. split; [now apply in_list_In |].
  split; [reflexivity |]. split; [exact Ht |].
  split; [exact Hs |]. split.
  { intros Hnone. rewrite Hnone in Hstatus. now injection Hstatus as <-. }
  repeat split.
Qed.

(** The second order of the scenario, inserted without a status. *)
Lemma insert_order_stores_witness :
  exists db' NEW,
    insert_order 2000 [77] Checkout.order_values_2 Checkout.checked_out
    = Ok (("00", "0077"), db')
    /\ order_by_id "00" db' = Some NEW
    /\ o_status NEW = "placed" /\ o_total_amount NEW = 400
    /\ order_status_history db' = [].
Proof.
  assert (Hrun : exists db',
             insert_order 2000 [77] Checkout.order_values_2
               Checkout.checked_out = Ok (("00", "0077"), db'))
    by (eexists; vm_compute; reflexivity).
  destruct Hrun as [db' Hrun].
  destruct (insert_order_stores _ _ _ _ _ _ _ Hrun)
    as (NEW & n & _ & Hfind & _ & _ & _ & _ & _ & _ & Htot & _ & _ & Hst
        & _ & _ & _ & _ & _ & _ & _ & _ & Hh & _).
  exists db', NEW. repeat split; try assumption.
  apply Hst. reflexivity.
Defined.

Lemma generate_pickup_code_app (tried later : list Z) (d : Z)
    (db : database) :
  Forall (fun d' => code_exists (code_of_draw d') db = true) tried ->
  code_exists (code_of_draw d) db = false ->
  generate_pickup_code (tried ++ d :: later) db = Ok (code_of_draw d).
Proof.
  intros Htried Hfree. induction Htried as [|x tried Hx _ IH]; simpl.
  - now rewrite Hfree.
  - now rewrite Hx.
Qed.

(** The insert commits under the conditions the table states: a status
    among the six (or none), a total between 0 and the capacity of
    [DECIMAL(10,2)], an existing user, and, for a generated code, a draw
    whose code no order of the table carries after draws that collide
    with active orders; the order gets the code of that draw. *)
Theorem insert_order_commits (now : timestamp) (tried later : list Z)
    (d : Z) (v : order_values) (db : database) :
  match v_status v with
  | None => True
  | Some s => orders_status_check s = true
  end ->
  0 <= v_total_amount v < 10 ^ 10 ->
  In (v_user_id v) (auth_users db) ->
  v_pickup_code v = None ->
  Forall (fun d' => code_exists (code_of_draw d') db = true) tried ->
  ~ In (code_of_draw d) (map o_pickup_code (orders db)) ->
  exists db',
    insert_order now (tried ++ d :: later) v db
    = Ok ((fresh_uuid (map o_id (orders db)), code_of_draw d), db').
Proof.
  intros Hst Htot Huser Hcode Htried Hfree. unfold insert_order.
  assert (exists s, varchar 20 (match v_status v with
                                | Some s => s
                                | None => "placed"
                                end) = Ok s
                    /\ orders_status_check s = true) as (s & -> & Hs).
  { destruct (v_status v) as [s|].
    - exists s. split; [| exact Hst].
      apply varchar_short. now apply orders_status_check_length.
    - exists "placed". split; reflexivity. }
  simpl. unfold decimal_10_2.
  assert ((Z.abs (v_total_amount v) <? 10 ^ 10) = true) as ->
      by (apply Z.ltb_lt; lia).
  simpl. rewrite Hcode. simpl.
  rewrite (generate_pickup_code_app tried later d db Htried).
  2:{ apply code_exists_terminal_only. intros o Ho He.
      exfalso. apply Hfree. rewrite <- He. now apply in_map. }
  simpl. unfold orders_row_checks. simpl. rewrite Hs. simpl.
  assert ((0 <=? v_total_amount v) = true) as -> by (apply Z.leb_le; lia).
  simpl.
  apply in_list_not_In in Hfree. rewrite Hfree. simpl.
  apply in_list_In in Huser. rewrite Huser. simpl.
  eexists. reflexivity.
Qed.

(** The second order of the scenario: the draw 1234 collides with the
    first order, the draw 77 is free. *)
Lemma insert_order_commits_witness :
  exists db',
    insert_order 2000 ([1234] ++ 77 :: []) Checkout.order_values_2
      Checkout.checked_out = Ok (("00", "0077"), db').
Proof.
  apply (insert_order_commits 2000 [1234] [] 77 Checkout.order_values_2
           Checkout.checked_out).
  - exact I.
  - simpl. lia.
  - left; reflexivity.
  - reflexivity.
  - repeat constructor.
  - simpl. intros [H|[]]; discriminate.
Defined.

(** ** Order items *)

Lemma sum_snoc (l : list Z) (x : Z) :
  fold_right Z.add 0 (l ++ [x]) = fold_right Z.add 0 l + x.
Proof. induction l as [|y l IH]; simpl; [lia | rewrite IH; lia]. Qed.

Lemma order_items_sum_snoc (id : uuid) (db : database) (oi : order_item) :
  order_items_sum id (with_order_items (order_items db ++ [oi]) db)
  = order_items_sum id db
    + (if String.eqb (oi_order_id oi) id
       then oi_quantity oi * oi_unit_price oi else 0).
Proof.
  unfold order_items_sum. simpl. rewrite filter_app. simpl.
  destruct (String.eqb (oi_order_id oi) id).
  - rewrite map_app. simpl. apply sum_snoc.
  - rewrite app_nil_r. lia.
Qed.

Lemma find_menu_item_In (id : uuid) (l : list menu_item) :
  In id (map mi_id l) ->
  exists m, find (fun m => String.eqb (mi_id m) id) l = Some m.
Proof.
  induction l as [|x l IH]; simpl; [tauto |].
  intros [<-|Hin].
  - rewrite String.eqb_refl. eauto.
  - destruct (String.eqb (mi_id x) id); eauto.
Qed.

(** [INSERT INTO order_items] with the availability trigger: a committed
    insert has a quantity of at least 1 (1 when none is given), a
    non-negative unit price, an existing order and an available menu
    item; it raises the sum of that order's items by quantity times the
    unit price given by the client (the price of the menu item is not
    read) and leaves the sums of the other orders, and the orders
    themselves, as they were. *)
Theorem insert_order_item_adds (now : timestamp) (v : order_item_values)
    (db db' : database) :
  insert_order_item now v db = Ok db' ->
  let quantity := match iv_quantity v with Some q => q | None => 1 end in
  1 <= quantity /\ 0 <= iv_unit_price v
  /\ In (iv_order_id v) (map o_id (orders db))
  /\ (exists m,
         find (fun m => String.eqb (mi_id m) (iv_menu_item_id v))
           (menu_items db) = Some m
         /\ mi_available m = true)
  /\ order_items_sum (iv_order_id v) db'
     = order_items_sum (iv_order_id v) db + quantity * iv_unit_price v
  /\ (forall id, id <> iv_order_id v ->
                 order_items_sum id db' = order_items_sum id db)
  /\ orders db' = orders db.
Proof.
  unfold insert_order_item. intros H.
  apply bind_Ok in H. destruct H as [q [Hq H]].
  apply bind_Ok in H. destruct H as [p [Hp H]].
  apply bind_Ok in H. destruct H as [[] [Havail H]].
  apply guard_Ok in H. destruct H as [Hq1 H].
  apply guard_Ok in H. destruct H as [Hp0 H].
  apply guard_Ok in H. destruct H as [Hfk1 H].
  apply guard_Ok in H. destruct H as [Hfk2 H].
  injection H as <-.
  assert (q = match iv_quantity v with Some q => q | None => 1 end) as Eq.
  { unfold int4 in Hq. destruct (_ && _); [| discriminate].
    now injection Hq as <-. }
  assert (p = iv_unit_price v) as ->.
  { unfold decimal_10_2 in Hp. destruct (_ <? _); [| discriminate].
    now injection Hp as <-. }
  simpl. rewrite <- Eq.
  split; [now apply Z.leb_le |]. split; [now apply Z.leb_le |].
  split; [now apply in_list_In |]. split.
  { apply in_list_In in Hfk2.
    destruct (find_menu_item_In _ _ Hfk2) as [m Hm].
    exists m. split; [exact Hm |].
    unfold validate_menu_item_availability in Havail.
    rewrite Hm in Havail. simpl in Havail.
    destruct (mi_available m); [reflexivity | discriminate]. }
  split.
  - rewrite order_items_sum_snoc. simpl. now rewrite String.eqb_refl.
  - split; [| reflexivity]. intros id Hne.
    rewrite order_items_sum_snoc. simpl.
    assert (String.eqb (iv_order_id v) id = false) as ->
        by (apply String.eqb_neq; congruence).
    lia.
Qed.

(** Two portions of fries for the order of the scenario. *)
Lemma insert_order_item_adds_witness :
  exists db',
    insert_order_item 1000
      {| iv_order_id := "0"; iv_menu_item_id := "00";
         iv_quantity := Some 2; iv_unit_price := 350;
         iv_special_instructions := None |} Checkout.order_inserted
    = Ok db'
    /\ order_items_sum "0" Checkout.order_inserted = 0
    /\ order_items_sum "0" db' = 700.
Proof.
  assert (Hrun : exists db',
             insert_order_item 1000
               {| iv_order_id := "0"; iv_menu_item_id := "00";
                  iv_quantity := Some 2; iv_unit_price := 350;
                  iv_special_instructions := None |}
               Checkout.order_inserted = Ok db')
    by (eexists; vm_compute; reflexivity).
  destruct Hrun as [db' Hrun]. exists db'.
  split; [exact Hrun |]. split; [reflexivity |].
  destruct (insert_order_item_adds 1000 _ Checkout.order_inserted db' Hrun)
    as (_ & _ & _ & _ & Hsum & _).
  simpl in Hsum. rewrite Hsum. reflexivity.
Defined.

Lemma find_disabled (id : uuid) (ids : list (option uuid))
    (l : list menu_item) :
  eq_any id ids = true -> In id (map mi_id l) ->
  option_map mi_available
    (find (fun m => String.eqb (mi_id m) id)
       (map (fun m => if eq_any (mi_id m) ids then set_available false m
                      else m) l))
  = Some false.
Proof.
  intros Hany. induction l as [|x l IH]; simpl; [tauto |].
  intros Hin.
  destruct (String.eqb_spec (mi_id x) id) as [He|Hne].
  - rewrite He, Hany. simpl. rewrite He, String.eqb_refl. reflexivity.
  - assert (String.eqb
              (mi_id (if eq_any (mi_id x) ids then set_available false x
                      else x)) id = false) as ->.
    { destruct (eq_any (mi_id x) ids); simpl; now apply String.eqb_neq. }
    apply IH. destruct Hin as [Hin|Hin]; [contradiction | exact Hin].
Qed.

(** Availability gates ordering: once [disable_menu_items] has switched a
    menu item off, no order item for it is accepted; with a quantity and
    a price that fit their columns the insert fails on the trigger's
    exception.  The items ordered before keep their rows. *)
Theorem disabled_item_refused (now : timestamp) (ids : list (option uuid))
    (v : order_item_values) (db : database) :
  eq_any (iv_menu_item_id v) ids = true ->
  In (iv_menu_item_id v) (map mi_id (menu_items db)) ->
  (forall db', insert_order_item now v (disable_menu_items ids db)
               <> Ok db')
  /\ (- 2 ^ 31 <= match iv_quantity v with Some q => q | None => 1 end
      < 2 ^ 31 ->
      Z.abs (iv_unit_price v) < 10 ^ 10 ->
      insert_order_item now v (disable_menu_items ids db)
      = Err (raise_exception "Cannot order unavailable menu item %"))
  /\ order_items (disable_menu_items ids db) = order_items db.
Proof.
  intros Hany Hin. pose proof (find_disabled _ ids _ Hany Hin) as Hoff.
  split; [| split; [| reflexivity]].
  - intros db' H. apply insert_order_item_adds in H.
    destruct H as (_ & _ & _ & (m & Hm & Ha) & _).
    simpl in Hm. rewrite Hm in Hoff. simpl in Hoff. congruence.
  - intros Hq Hp. unfold insert_order_item, int4, decimal_10_2.
    assert (((- 2 ^ 31 <=? match iv_quantity v with
                            | Some q => q
                            | None => 1
                            end)
             && (match iv_quantity v with Some q => q | None => 1 end
                 <? 2 ^ 31)) = true) as ->.
    { apply andb_true_iff. split; [apply Z.leb_le | apply Z.ltb_lt]; lia. }
    assert ((Z.abs (iv_unit_price v) <? 10 ^ 10) = true) as ->
        by (apply Z.ltb_lt; lia).
    simpl. unfold validate_menu_item_availability. simpl.
    rewrite Hoff. reflexivity.
Qed.

(** The fries of the scenario are switched off, then ordered. *)
Lemma disabled_item_refused_witness :
  eq_any "00" [Some "00"] = true
  /\ insert_order_item 1500
       {| iv_order_id := "0"; iv_menu_item_id := "00";
          iv_quantity := Some 1; iv_unit_price := 350;
          iv_special_instructions := None |}
       (disable_menu_items [Some "00"] Checkout.checked_out)
     = Err (raise_exception "Cannot order unavailable menu item %").
Proof.
  split; [reflexivity |].
  refine (proj1 (proj2
            (disabled_item_refused 1500 [Some "00"] _ Checkout.checked_out
               _ _)) _ _).
  - reflexivity.
  - simpl. right; left; reflexivity.
  - simpl. lia.
  - simpl. lia.
Defined.

(** ** Referential integrity and the append-only history *)

Lemma run_transition_update (now : timestamp) (t : transition)
    (db db' : database) :
  run_transition now t db = Ok db' ->
  exists where_ set_ rows,
    keeps_fixed_columns set_
    /\ update_orders now where_ set_ db = Ok (rows, db').
Proof.
  intros H. destruct t as [id expected status | code | ids]; simpl in H.
  - unfold update_order_status in H.
    apply bind_Ok in H. destruct H as [[r d] [H Hd]]. injection Hd as <-.
    apply bind_Ok in H. destruct H as [status' [_ H]].
    apply bind_Ok in H. destruct H as [[rows d'] [H Hd]].
    injection Hd as _ <-.
    eexists _, _, _. split; [apply (set_status_fixed status') | exact H].
  - unfold complete_order_after_pickup in H.
    apply bind_Ok in H. destruct H as [[r d] [H Hd]]. injection Hd as <-.
    apply bind_Ok in H. destruct H as [[rows d'] [H Hd]].
    injection Hd as _ <-.
    eexists _, _, _. split; [apply (set_completed_fixed now) | exact H].
  - unfold cancel_orders in H.
    apply bind_Ok in H. destruct H as [[r d] [H Hd]]. injection Hd as <-.
    apply bind_Ok in H. destruct H as [[rows d'] [H Hd]].
    injection Hd as _ <-.
    eexists _, _, _. split; [apply (set_status_fixed "cancelled") | exact H].
Qed.

(** What a committed transition appends: history entries of real changes
    of existing orders, and ready notifications for their owners. *)
Lemma run_transition_appends (now : timestamp) (t : transition)
    (db db' : database) :
  run_transition now t db = Ok db' ->
  map o_id (orders db') = map o_id (orders db)
  /\ (exists suffix,
         order_status_history db' = order_status_history db ++ suffix
         /\ Forall (fun e =>
                      In (h_order_id e) (map o_id (orders db))
                      /\ (exists s, h_previous_status e = Some s
                                    /\ s <> h_new_status e)
                      /\ h_changed_at e = now) suffix)
  /\ (exists suffix,
         notifications db' = notifications db ++ suffix
         /\ Forall (fun n =>
                      exists o, In o (orders db)
                        /\ n_user_id n = o_user_id o
                        /\ n_order_id n = Some (o_id o)
                        /\ n_type n = "order_ready"
                        /\ n_read_at n = None) suffix).
Proof.
  intros H. pose proof (run_transition_rows now t db db' H) as Hrows.
  destruct Hrows as (_ & _ & _ & _ & HF).
  destruct (run_transition_update now t db db' H)
    as (where_ & set_ & rows & Hset & Hupd).
  unfold update_orders in Hupd.
  apply bind_Ok in Hupd. destruct Hupd as [[[rows' updated] h'] [Hr Hupd]].
  injection Hupd as _ <-. simpl.
  destruct (update_rows_map now where_ set_ _ _ _ _ _ Hr)
    as (_ & Hu & suffix & Hh & _ & Hall).
  split; [| split].
  - simpl in HF. apply (Forall2_map_eq o_id _ _ _
                          (fun x y Hxy => proj1 (proj1 Hxy)) HF).
  - exists suffix. split; [exact Hh |].
    eapply Forall_impl; [| exact Hall]. simpl.
    intros e (o & Ho & _ & E1 & E2 & E3 & E4 & _ & E6).
    destruct (Hset o) as (Hid & _).
    split; [rewrite E1, Hid; now apply in_map |].
    split; [exists (o_status o); split; [exact E2 | now rewrite E3] |].
    exact E6.
  - subst updated.
    destruct (notify_order_ready_fold now set_
                (filter where_ (orders db)) (notifications db) Hset)
      as (nsuffix & Hn & _ & Hnall).
    exists nsuffix. split; [exact Hn |].
    eapply Forall_impl; [| exact Hnall]. simpl.
    intros n (o & Ho & _ & _ & N1 & N2 & N3 & N4 & _).
    apply filter_In in Ho. exists o. tauto.
Qed.

Lemma Forall_snoc {A : Type} (P : A -> Prop) (l : list A) (x : A) :
  Forall P l -> P x -> Forall P (l ++ [x]).
Proof.
  intros Hl Hx. apply Forall_app. split; [exact Hl |].
  constructor; [exact Hx | constructor].
Qed.

Lemma step_referenced (db db' : database) :
  consistent db -> referenced db -> step db db' -> referenced db'.
Proof.
  intros Hc [Hchk Hio Him Hho Hhc Hnu Hno] [c H].
  destruct c; simpl in H.
  - unfold auth_user_insert in H.
    apply guard_Ok in H. destruct H as [_ H].
    apply bind_Ok in H. destruct H as [ps [_ H]]. injection H as <-.
    constructor; simpl; try assumption.
    eapply Forall_impl; [| exact Hnu]. intros n Hn.
    apply in_or_app; left; exact Hn.
  - unfold insert_menu_item in H.
    apply bind_Ok in H. destruct H as [n [_ H]].
    apply bind_Ok in H. destruct H as [p [_ H]].
    apply guard_Ok in H. destruct H as [_ H]. injection H as <-.
    constructor; simpl; try assumption.
    eapply Forall_impl; [| exact Him]. intros oi Hoi.
    rewrite map_app. apply in_or_app; left; exact Hoi.
  - injection H as <-. constructor; simpl; try assumption.
    rewrite map_map.
    erewrite map_ext; [exact Him |].
    intros m. destruct (eq_any (mi_id m) ids); reflexivity.
  - apply bind_Ok in H. destruct H as [[r d] [H Hd]]. injection Hd as <-.
    apply insert_order_Ok in H.
    destruct H as (NEW & -> & _ & _ & Huser & _ & _ & _ & _ & Hfk & _).
    assert (Hsub : forall x, In x (map o_id (orders db)) ->
                             In x (map o_id (orders db ++ [NEW]))).
    { intros x Hx. rewrite map_app. apply in_or_app; left; exact Hx. }
    constructor; simpl; try assumption.
    + eapply Forall_impl; [| exact Hio]. intros oi. apply Hsub.
    + eapply Forall_impl; [| exact Hho]. intros e. apply Hsub.
    + unfold notify_order_placed. apply Forall_snoc; [exact Hnu |].
      simpl. rewrite Huser. exact Hfk.
    + unfold notify_order_placed. apply Forall_snoc.
      * eapply Forall_impl; [| exact Hno].
        intros x (i & Hi1 & Hi2). exists i. split; [exact Hi1 |].
        now apply Hsub.
      * simpl. eexists. split; [reflexivity |]. rewrite map_app.
        apply in_or_app; right. left; reflexivity.
  - unfold insert_order_item in H.
    apply bind_Ok in H. destruct H as [q [_ H]].
    apply bind_Ok in H. destruct H as [p [_ H]].
    apply bind_Ok in H. destruct H as [[] [_ H]].
    apply guard_Ok in H. destruct H as [Hq1 H].
    apply guard_Ok in H. destruct H as [Hp0 H].
    apply guard_Ok in H. destruct H as [Hfk1 H].
    apply guard_Ok in H. destruct H as [Hfk2 H].
    injection H as <-.
    constructor; simpl; try assumption.
    + apply Forall_snoc; [exact Hchk |]. simpl.
      split; now apply Z.leb_le.
    + apply Forall_snoc; [exact Hio |]. simpl. now apply in_list_In.
    + apply Forall_snoc; [exact Him |]. simpl. now apply in_list_In.
  - pose proof (run_transition_rows now t db db' H)
      as (Ha & _ & Hm & Hi & _).
    destruct (run_transition_appends now t db db' H)
      as (Hids & (hs & Hh & Hhall) & (ns & Hn & Hnall)).
    constructor; rewrite ?Hids, ?Ha, ?Hm, ?Hi, ?Hh, ?Hn; try assumption.
    + apply Forall_app. split; [exact Hho |].
      eapply Forall_impl; [| exact Hhall]. simpl. tauto.
    + apply Forall_app. split; [exact Hhc |].
      eapply Forall_impl; [| exact Hhall]. simpl. tauto.
    + apply Forall_app. split; [exact Hnu |].
      eapply Forall_impl; [| exact Hnall]. simpl.
      intros n (o & Ho & -> & _).
      pose proof (owners_are_users db Hc) as Hown.
      rewrite Forall_forall in Hown. now apply Hown.
    + apply Forall_app. split; [exact Hno |].
      eapply Forall_impl; [| exact Hnall]. simpl.
      intros n (o & Ho & _ & Hid & _).
      exists (o_id o). split; [exact Hid | now apply in_map].
  - injection H as <-. constructor; simpl; try assumption.
    + apply Forall_forall. intros n Hn. apply in_map_iff in Hn.
      destruct Hn as (x & <- & Hx).
      rewrite Forall_forall in Hnu.
      destruct (to_mark user ids x); simpl; now apply Hnu.
    + apply Forall_forall. intros n Hn. apply in_map_iff in Hn.
      destruct Hn as (x & <- & Hx).
      rewrite Forall_forall in Hno.
      destruct (to_mark user ids x); simpl; now apply Hno.
Qed.

Lemma reachable_referenced (db : database) : reachable db -> referenced db.
Proof.
  induction 1 as [|db db' Hr IH Hstep].
  - constructor; simpl; constructor.
  - eapply step_referenced; [| exact IH | exact Hstep].
    now apply reachable_consistent.
Qed.

(** The foreign keys, the [CHECK] constraints of [order_items] and the
    guard of the history trigger, as facts about every database the
    application can be in: an order item has a quantity of at least 1, a
    non-negative unit price, an existing order and an existing menu item;
    a history entry belongs to an existing order and records a change
    from a status to a different one (so none records the creation of an
    order); a notification addresses an existing user about an existing
    order. *)
Theorem tables_stay_referenced (db : database) :
  reachable db ->
  (forall oi, In oi (order_items db) ->
     1 <= oi_quantity oi /\ 0 <= oi_unit_price oi
     /\ (exists o, In o (orders db) /\ o_id o = oi_order_id oi)
     /\ (exists m, In m (menu_items db) /\ mi_id m = oi_menu_item_id oi))
  /\ (forall e, In e (order_status_history db) ->
        (exists o, In o (orders db) /\ o_id o = h_order_id e)
        /\ (exists s, h_previous_status e = Some s /\ s <> h_new_status e))
  /\ (forall n, In n (notifications db) ->
        In (n_user_id n) (auth_users db)
        /\ (exists o, In o (orders db) /\ n_order_id n = Some (o_id o))).
Proof.
  intros Hr. apply reachable_referenced in Hr.
  destruct Hr as [Hchk Hio Him Hho Hhc Hnu Hno].
  rewrite Forall_forall in *.
  split; [| split].
  - intros oi Hoi. destruct (Hchk oi Hoi) as [Hq Hp].
    split; [exact Hq |]. split; [exact Hp |]. split.
    + specialize (Hio oi Hoi). apply in_map_iff in Hio.
      destruct Hio as (o & Ho & Hin). eauto.
    + specialize (Him oi Hoi). apply in_map_iff in Him.
      destruct Him as (m & Hm & Hin). eauto.
  - intros e He. split; [| now apply Hhc].
    specialize (Hho e He). apply in_map_iff in Hho.
    destruct Hho as (o & Ho & Hin). eauto.
  - intros n Hn. split; [now apply Hnu |].
    destruct (Hno n Hn) as (id & Hid & Hin). apply in_map_iff in Hin.
    destruct Hin as (o & Ho & Hin'). exists o. split; [exact Hin' |].
    now rewrite Ho.
Qed.

(** The tables of the scenario after the pickup of the first order. *)
Lemma tables_stay_referenced_witness :
  reachable Checkout.first_completed
  /\ (forall e, In e (order_status_history Checkout.first_completed) ->
        exists s, h_previous_status e = Some s /\ s <> h_new_status e).
Proof.
  split; [exact first_completed_reachable |].
  intros e He.
  apply (tables_stay_referenced Checkout.first_completed
           first_completed_reachable). exact He.
Defined.

(** One committed statement only appends. *)
Lemma step_only_appends (db db' : database) :
  step db db' ->
  (exists suffix,
      order_status_history db' = order_status_history db ++ suffix)
  /\ (exists suffix, order_items db' = order_items db ++ suffix)
  /\ (exists suffix,
         map (fun o => (o_id o, o_user_id o, o_total_amount o,
                        o_pickup_time o, o_pickup_code o, o_notes o,
                        o_created_at o)) (orders db')
         = map (fun o => (o_id o, o_user_id o, o_total_amount o,
                          o_pickup_time o, o_pickup_code o, o_notes o,
                          o_created_at o)) (orders db)
           ++ suffix)
  /\ (exists suffix,
         map (fun n => (n_id n, n_user_id n, n_order_id n, n_type n,
                        n_title n, n_message n, n_sent_at n))
           (notifications db')
         = map (fun n => (n_id n, n_user_id n, n_order_id n, n_type n,
                          n_title n, n_message n, n_sent_at n))
             (notifications db)
           ++ suffix).
Proof.
  assert (Hnil : forall (A : Type) (l : list A), exists s, l = l ++ s)
    by (intros A l; exists []; now rewrite app_nil_r).
  intros [c H]. destruct c; simpl in H.
  - unfold auth_user_insert in H.
    apply guard_Ok in H. destruct H as [_ H].
    apply bind_Ok in H. destruct H as [ps [_ H]]. injection H as <-.
    simpl. repeat split; apply Hnil.
  - unfold insert_menu_item in H.
    apply bind_Ok in H. destruct H as [n [_ H]].
    apply bind_Ok in H. destruct H as [p [_ H]].
    apply guard_Ok in H. destruct H as [_ H]. injection H as <-.
    simpl. repeat split; apply Hnil.
  - injection H as <-. simpl. repeat split; apply Hnil.
  - apply bind_Ok in H. destruct H as [[r d] [H Hd]]. injection Hd as <-.
    apply insert_order_Ok in H. destruct H as (NEW & -> & _).
    simpl. split; [apply Hnil |]. split; [apply Hnil |].
    unfold notify_order_placed. rewrite !map_app.
    split; eexists; reflexivity.
  - unfold insert_order_item in H.
    apply bind_Ok in H. destruct H as [q [_ H]].
    apply bind_Ok in H. destruct H as [p [_ H]].
    apply bind_Ok in H. destruct H as [[] [_ H]].
    repeat (apply guard_Ok in H; destruct H as [_ H]).
    injection H as <-. simpl.
    split; [apply Hnil |]. split; [eexists; reflexivity |].
    split; apply Hnil.
  - pose proof (run_transition_rows now t db db' H)
      as (_ & _ & _ & Hi & HF).
    destruct (run_transition_appends now t db db' H)
      as (_ & (hs & Hh & _) & (ns & Hn & _)).
    split; [exists hs; exact Hh |].
    split; [rewrite Hi; apply Hnil |].
    split.
    + exists []. rewrite app_nil_r.
      refine (Forall2_map_eq _ _ _ _ _ HF).
      intros x y [(E1 & E2 & E3 & E4 & E5 & E6 & E7) _].
      now rewrite E1, E2, E3, E4, E5, E6, E7.
    + exists (map (fun n => (n_id n, n_user_id n, n_order_id n, n_type n,
                             n_title n, n_message n, n_sent_at n)) ns).
      now rewrite Hn, map_app.
  - injection H as <-. simpl.
    split; [apply Hnil |]. split; [apply Hnil |]. split; [apply Hnil |].
    exists []. rewrite app_nil_r, map_map. apply map_ext.
    intros n. destruct (to_mark user ids n); reflexivity.
Qed.

(** No statement of the application deletes or rewrites what is on
    record: across any sequence of committed statements the status
    history and the order items only grow at their end, no order is
    removed and none changes its key, owner, total, pickup time, pickup
    code, notes or creation time, and no notification is removed or
    changes anything but its read mark: its key, user, order, type,
    title, message and sending time stay. *)
Theorem statements_only_append (script : list command)
    (db db' : database) :
  run script db = Ok db' ->
  (exists suffix,
      order_status_history db' = order_status_history db ++ suffix)
  /\ (exists suffix, order_items db' = order_items db ++ suffix)
  /\ (exists suffix,
         map (fun o => (o_id o, o_user_id o, o_total_amount o,
                        o_pickup_time o, o_pickup_code o, o_notes o,
                        o_created_at o)) (orders db')
         = map (fun o => (o_id o, o_user_id o, o_total_amount o,
                          o_pickup_time o, o_pickup_code o, o_notes o,
                          o_created_at o)) (orders db)
           ++ suffix)
  /\ (exists suffix,
         map (fun n => (n_id n, n_user_id n, n_order_id n, n_type n,
                        n_title n, n_message n, n_sent_at n))
           (notifications db')
         = map (fun n => (n_id n, n_user_id n, n_order_id n, n_type n,
                          n_title n, n_message n, n_sent_at n))
             (notifications db)
           ++ suffix).
Proof.
  revert db. induction script as [|c later IH]; intros db H; simpl in H.
  - injection H as <-.
    repeat split; exists []; now rewrite app_nil_r.
  - apply bind_Ok in H. destruct H as [db1 [Hc H]].
    destruct (step_only_appends db db1 (ex_intro _ c Hc))
      as ((h1 & Hh1) & (i1 & Hi1) & (o1 & Ho1) & (n1 & Hn1)).
    destruct (IH db1 H)
      as ((h2 & Hh2) & (i2 & Hi2) & (o2 & Ho2) & (n2 & Hn2)).
    split; [exists (h1 ++ h2); now rewrite Hh2, Hh1, app_assoc |].
    split; [exists (i1 ++ i2); now rewrite Hi2, Hi1, app_assoc |].
    split; [exists (o1 ++ o2); now rewrite Ho2, Ho1, app_assoc |].
    exists (n1 ++ n2). now rewrite Hn2, Hn1, app_assoc.
Qed.

(** The kitchen moves of the scenario extend its history and its
    notifications, and keep what the notifications on record say. *)
Lemma statements_only_append_witness :
  run Checkout.kitchen Checkout.two_orders = Ok Checkout.first_ready
  /\ (exists suffix,
         order_status_history Checkout.first_ready
         = order_status_history Checkout.two_orders ++ suffix)
  /\ exists suffix,
       map (fun n => (n_id n, n_user_id n, n_order_id n, n_type n,
                      n_title n, n_message n, n_sent_at n))
         (notifications Checkout.first_ready)
       = map (fun n => (n_id n, n_user_id n, n_order_id n, n_type n,
                        n_title n, n_message n, n_sent_at n))
           (notifications Checkout.two_orders)
         ++ suffix.
Proof.
  assert (run Checkout.kitchen Checkout.two_orders
          = Ok Checkout.first_ready) as Hrun by (vm_compute; reflexivity).
  split; [exact Hrun |].
  destruct (statements_only_append Checkout.kitchen Checkout.two_orders
              Checkout.first_ready Hrun) as (Hh & _ & _ & Hn).
  split; [exact Hh | exact Hn].
Defined.

(** ** The order total function *)

Lemma order_items_sum_nonneg (id : uuid) (db : database) :
  Forall (fun oi => 1 <= oi_quantity oi /\ 0 <= oi_unit_price oi)
    (order_items db) ->
  0 <= order_items_sum id db.
Proof.
  unfold order_items_sum. intros H.
  induction H as [|oi l [Hq Hp] _ IH]; simpl; [lia |].
  destruct (String.eqb (oi_order_id oi) id); simpl; [nia | exact IH].
Qed.

(** [calculate_order_total]: in every database the application can be
    in, the sum of an order's items is never negative; the function
    returns it when it fits [DECIMAL(10,2)] and fails with a numeric
    overflow otherwise; for an order without items, and for a key no
    order has, it returns 0 and no error. *)
Theorem calculate_order_total_sum (db : database) (id : uuid) :
  reachable db ->
  0 <= order_items_sum id db
  /\ (order_items_sum id db < 10 ^ 10 ->
      calculate_order_total id db = Ok (order_items_sum id db))
  /\ (10 ^ 10 <= order_items_sum id db ->
      calculate_order_total id db = Err numeric_value_out_of_range)
  /\ (~ In id (map oi_order_id (order_items db)) ->
      calculate_order_total id db = Ok 0).
Proof.
  intros Hr. apply reachable_referenced in Hr.
  pose proof (order_items_sum_nonneg id db (items_checked db Hr)) as Hpos.
  unfold calculate_order_total, decimal_10_2.
  split; [exact Hpos |]. split; [| split].
  - intros Hlt.
    assert ((Z.abs (order_items_sum id db) <? 10 ^ 10) = true) as ->
        by (apply Z.ltb_lt; lia).
    reflexivity.
  - intros Hge.
    assert ((Z.abs (order_items_sum id db) <? 10 ^ 10) = false) as ->
        by (apply Z.ltb_ge; lia).
    reflexivity.
  - intros Hnone.
    assert (order_items_sum id db = 0) as ->; [| reflexivity].
    unfold order_items_sum. rewrite filter_none; [reflexivity |].
    apply Forall_forall. intros oi Hoi. apply String.eqb_neq.
    intros He. apply Hnone. rewrite <- He. now apply in_map.
Qed.

(** The scenario: 23.50 for the first order, 0 for an unknown key. *)
Lemma calculate_order_total_sum_witness :
  reachable Checkout.checked_out
  /\ calculate_order_total "0" Checkout.checked_out = Ok 2350
  /\ calculate_order_total "7" Checkout.checked_out = Ok 0.
Proof.
  split; [exact checked_out_reachable |].
  split; [reflexivity |].
  apply (calculate_order_total_sum Checkout.checked_out "7"
           checked_out_reachable).
  simpl. intros [H|[H|[H|[H|[]]]]]; discriminate.
Defined.

(** ** Roles and sign-up *)

Lemma user_role_None (user : uuid) (db : database) :
  user_role user db = None
  <-> forall p, In p (profiles db) -> p_user_id p <> user.
Proof.
  unfold user_role. split.
  - intros H p Hp Heq.
    destruct (find _ (profiles db)) eqn:Hf; [discriminate |].
    apply (find_none _ _ Hf) in Hp. apply String.eqb_neq in Hp.
    contradiction.
  - intros H. destruct (find _ (profiles db)) as [p|] eqn:Hf;
      [| reflexivity].
    apply find_some in Hf. destruct Hf as [Hp He].
    apply String.eqb_eq in He. exfalso. now apply (H p Hp).
Qed.

(** [is_staff] and [is_admin]: an admin is staff; for a user without a
    profile both answer [NULL], neither true nor false, and they answer
    [NULL] for the same users. *)
Theorem admin_is_staff (user : uuid) (db : database) :
  (is_admin user db = Some true -> is_staff user db = Some true)
  /\ (is_staff user db = None
      <-> forall p, In p (profiles db) -> p_user_id p <> user)
  /\ (is_admin user db = None <-> is_staff user db = None).
Proof.
  unfold is_admin, is_staff. split; [| split].
  - destruct (user_role user db) as [role|]; simpl; [| discriminate].
    intros H. injection H as H. apply String.eqb_eq in H. now subst.
  - rewrite <- user_role_None.
    destruct (user_role user db); simpl; split; intros H;
      try discriminate; reflexivity.
  - destruct (user_role user db); simpl; split; intros H;
      try discriminate; reflexivity.
Qed.

(** The roster: the admin passes both checks, the staff member only the
    first, an unknown user gets [NULL]. *)
Lemma admin_is_staff_witness :
  is_admin "u-admin" roster = Some true
  /\ is_staff "u-admin" roster = Some true
  /\ is_staff "u-staff" roster = Some true
  /\ is_admin "u-staff" roster = Some false
  /\ is_staff "nobody" roster = None.
Proof.
  split; [reflexivity |].
  split; [apply (admin_is_staff "u-admin" roster); reflexivity |].
  repeat split.
Defined.

Lemma find_profile_snoc (user : uuid) (ps : list profile) (p : profile) :
  (forall x, In x ps -> p_user_id x <> user) -> p_user_id p = user ->
  find (fun x => String.eqb (p_user_id x) user) (ps ++ [p]) = Some p.
Proof.
  intros Hps Hp. induction ps as [|x ps IH]; simpl.
  - rewrite Hp, String.eqb_refl. reflexivity.
  - assert (String.eqb (p_user_id x) user = false) as ->.
    { apply String.eqb_neq. apply Hps. left; reflexivity. }
    apply IH. intros y Hy. apply Hps. right; exact Hy.
Qed.

(** Sign-up ([on_auth_user_created]): a committed sign-up adds the user;
    when the user had no profile it appends one profile for them with
    the role student (named User when the meta data has no name), so
    that the new user is neither staff nor admin; when a profile for the
    user exists already the profiles are left as they are; the orders
    are not touched, and signing the same key up again fails on the
    primary key. *)
Theorem sign_up_provisions (id : uuid) (full_name : option string)
    (db db' : database) :
  auth_user_insert id full_name db = Ok db' ->
  ~ In id (auth_users db) /\ auth_users db' = auth_users db ++ [id]
  /\ (user_role id db = None ->
      exists p,
        profiles db' = profiles db ++ [p]
        /\ p_user_id p = id /\ p_role p = "student"
        /\ (full_name = None -> p_full_name p = "User")
        /\ is_staff id db' = Some false /\ is_admin id db' = Some false)
  /\ (user_role id db <> None -> profiles db' = profiles db)
  /\ orders db' = orders db
  /\ (forall full_name',
         auth_user_insert id full_name' db'
         = Err (unique_violation "users_pkey")).
Proof.
  unfold auth_user_insert. intros H.
  apply guard_Ok in H. destruct H as [Hnew H].
  apply bind_Ok in H. destruct H as [ps [Hps H]]. injection H as <-.
  unfold create_profile_for_new_user in Hps.
  apply bind_Ok in Hps. destruct Hps as [name [Hname Hps]].
  apply negb_true_iff in Hnew.
  split; [now apply in_list_not_In |]. split; [reflexivity |].
  split; [| split; [| split; [reflexivity |]]].
  - intros Hnone. pose proof (proj1 (user_role_None id db) Hnone) as Hno.
    assert (existsb (fun p => String.eqb (p_user_id p) id) (profiles db)
            = false) as Hex.
    { destruct (existsb _ (profiles db)) eqn:Hex; [| reflexivity].
      apply existsb_exists in Hex. destruct Hex as (p & Hp & He).
      apply String.eqb_eq in He. exfalso. now apply (Hno p Hp). }
    rewrite Hex in Hps. injection Hps as <-.
    eexists. split; [reflexivity |]. simpl.
    split; [reflexivity |]. split; [reflexivity |]. split.
    + intros ->. now injection Hname as <-.
    + unfold is_staff, is_admin, user_role. simpl.
      rewrite (find_profile_snoc id (profiles db)); auto.
  - intros Hsome.
    destruct (existsb (fun p => String.eqb (p_user_id p) id) (profiles db))
      eqn:Hex; [now injection Hps as <- |].
    exfalso. apply Hsome. apply user_role_None. intros p Hp Heq.
    assert (existsb (fun p => String.eqb (p_user_id p) id) (profiles db)
            = true) as Habs; [| congruence].
    apply existsb_exists. exists p. split; [exact Hp |].
    now apply String.eqb_eq.
  - intros full_name'. simpl.
    assert (in_list id (auth_users db ++ [id]) = true) as ->.
    { apply in_list_In. apply in_or_app. right; left; reflexivity. }
    reflexivity.
Qed.

(** A cook signs up on the scenario's database without giving a name. *)
Lemma sign_up_provisions_witness :
  exists db' p,
    auth_user_insert "cook-1" None Checkout.checked_out = Ok db'
    /\ profiles db' = profiles Checkout.checked_out ++ [p]
    /\ p_full_name p = "User"
    /\ is_staff "cook-1" db' = Some false.
Proof.
  assert (Hrun : exists db',
             auth_user_insert "cook-1" None Checkout.checked_out = Ok db')
    by (eexists; vm_compute; reflexivity).
  destruct Hrun as [db' Hrun].
  destruct (sign_up_provisions "cook-1" None Checkout.checked_out db' Hrun)
    as (_ & _ & Hp & _).
  destruct (Hp eq_refl) as (p & Hps & _ & _ & Hname & Hstaff & _).
  exists db', p. repeat split; auto.
Defined.

(** ** The notification inbox *)

Lemma sent_after_trans (n1 n2 n3 : notification) :
  sent_after n1 n2 = true -> sent_after n2 n3 = true ->
  sent_after n1 n3 = true.
Proof. unfold sent_after. lia. Qed.

Lemma StronglySorted_firstn {A : Type} (R : A -> A -> Prop) (k : nat)
    (l : list A) :
  StronglySorted R l -> StronglySorted R (firstn k l).
Proof.
  intros H. revert k. induction H as [|x l Hl IH Hx]; intros k.
  - rewrite firstn_nil. constructor.
  - destruct k as [|k]; simpl; constructor; [apply IH |].
    rewrite Forall_forall in *. intros y Hy. apply Hx.
    eapply (In_nth_error) in Hy. destruct Hy as [i Hi].
    apply nth_error_In with (n := i).
    rewrite nth_error_firstn in Hi.
    destruct (Nat.ltb i k); [exact Hi | discriminate].
Qed.

Lemma StronglySorted_map {A B : Type} (f : A -> B) (R : A -> A -> Prop)
    (R' : B -> B -> Prop) (l : list A) :
  (forall x y, R x y -> R' (f x) (f y)) ->
  StronglySorted R l -> StronglySorted R' (map f l).
Proof.
  intros HR H. induction H as [|x l Hl IH Hx]; simpl; constructor;
    [exact IH |].
  rewrite Forall_forall in *. intros y Hy. apply in_map_iff in Hy.
  destruct Hy as (z & <- & Hz). apply HR. now apply Hx.
Qed.

Lemma In_firstn {A : Type} (k : nat) (l : list A) (x : A) :
  In x (firstn k l) -> In x l.
Proof.
  revert l. induction k as [|k IH]; intros l H; simpl in H; [destruct H |].
  destruct l as [|y l]; [destruct H |].
  destruct H as [->|H]; [left; reflexivity | right; now apply IH].
Qed.

(** The unread-notifications query: at most 50 rows, newest first, each
    the row of an unread notification of the user; when the user has no
    more than 50 unread notifications all of them are listed. *)
Theorem unread_notifications_inbox (user : uuid) (db : database) :
  (List.length (unread_notifications user db) <= 50)%nat
  /\ StronglySorted (fun r1 r2 => u_sent_at r2 <= u_sent_at r1)
       (unread_notifications user db)
  /\ (forall r, In r (unread_notifications user db) ->
        exists n, In n (notifications db) /\ r = unread_row_of n
                  /\ n_user_id n = user /\ n_read_at n = None)
  /\ ((List.length (filter (unread_of user) (notifications db)) <= 50)%nat
      -> Permutation (unread_notifications user db)
           (map unread_row_of
              (filter (unread_of user) (notifications db)))).
Proof.
  unfold unread_notifications.
  set (unread := filter (unread_of user) (notifications db)).
  split; [| split; [| split]].
  - rewrite length_map, length_firstn. apply Nat.le_min_l.
  - apply (StronglySorted_map unread_row_of
             (fun x y => is_true (sent_after x y))).
    + intros x y H. unfold sent_after in H. simpl.
      apply Z.leb_le. exact H.
    + apply StronglySorted_firstn.
      apply SentSort.StronglySorted_sort.
      intros x y z. apply sent_after_trans.
  - intros r Hr. apply in_map_iff in Hr. destruct Hr as (n & <- & Hn).
    apply In_firstn in Hn.
    apply (Permutation_in _ (Permutation_sym (SentSort.Permuted_sort unread)))
      in Hn.
    apply filter_In in Hn. destruct Hn as [Hin Hu].
    unfold unread_of in Hu. apply andb_true_iff in Hu.
    destruct Hu as [Hu1 Hu2]. apply String.eqb_eq in Hu1.
    exists n. repeat split; try assumption.
    destruct (n_read_at n); [discriminate | reflexivity].
  - intros Hlen. apply Permutation_map.
    rewrite firstn_all2.
    + apply Permutation_sym. apply SentSort.Permuted_sort.
    + rewrite <- (Permutation_length (SentSort.Permuted_sort unread)).
      exact Hlen.
Qed.

(** The customer of the scenario has three unread notifications, the
    ready notice first. *)
Lemma unread_notifications_inbox_witness :
  map u_type (unread_notifications Checkout.customer Checkout.first_ready)
  = ["order_ready"; "order_placed"; "order_placed"]
  /\ Permutation
       (unread_notifications Checkout.customer Checkout.first_ready)
       (map unread_row_of
          (filter (unread_of Checkout.customer)
             (notifications Checkout.first_ready))).
Proof.
  split; [reflexivity |].
  apply (unread_notifications_inbox Checkout.customer Checkout.first_ready).
  simpl. lia.
Defined.

Lemma unread_of_to_mark (user : uuid) (n : notification) :
  to_mark user None n = unread_of user n.
Proof. reflexivity. Qed.

Lemma to_mark_user (user : uuid) (ids : option (list (option uuid)))
    (n : notification) :
  to_mark user ids n = true -> n_user_id n = user.
Proof.
  intros H. apply to_mark_unread_selected in H. apply H.
Qed.

(** Marking and the inbox: after [mark_notifications_read] without keys
    the user's unread list is empty; marking with keys removes from it
    exactly the rows it marked; and marking for one user leaves the
    unread list of every other user as it was. *)
Theorem mark_read_empties_inbox (now : timestamp) (user other : uuid)
    (ids : option (list (option uuid))) (db : database) :
  unread_notifications user (snd (mark_notifications_read now user None db))
  = []
  /\ (forall r,
         In r (unread_notifications user
                 (snd (mark_notifications_read now user ids db))) ->
         exists n, In n (notifications db) /\ r = unread_row_of n
                   /\ to_mark user ids n = false)
  /\ (other <> user ->
      unread_notifications user
        (snd (mark_notifications_read now other ids db))
      = unread_notifications user db).
Proof.
  split; [| split].
  - unfold unread_notifications.
    change (notifications
              (snd (mark_notifications_read now user None db)))
      with (map (fun n => if to_mark user None n
                          then set_read_at (Some now) n else n)
              (notifications db)).
    rewrite filter_none; [reflexivity |].
    apply Forall_forall. intros n' Hn'. apply in_map_iff in Hn'.
    destruct Hn' as (n & <- & _).
    rewrite <- unread_of_to_mark.
    destruct (to_mark user None n) eqn:Hm;
      [apply to_mark_read | exact Hm].
  - intros r Hr.
    destruct (unread_notifications_inbox user
                (snd (mark_notifications_read now user ids db)))
      as (_ & _ & Hrows & _).
    destruct (Hrows r Hr) as (n' & Hn' & -> & Hu & Hunread).
    change (notifications (snd (mark_notifications_read now user ids db)))
      with (map (fun n => if to_mark user ids n
                          then set_read_at (Some now) n else n)
              (notifications db)) in Hn'.
    apply in_map_iff in Hn'. destruct Hn' as (n & Hn & Hin).
    destruct (to_mark user ids n) eqn:Hm.
    + subst n'. simpl in Hunread. discriminate.
    + subst n'. exists n. auto.
  - intros Hne. unfold unread_notifications.
    change (notifications (snd (mark_notifications_read now other ids db)))
      with (map (fun n => if to_mark other ids n
                          then set_read_at (Some now) n else n)
              (notifications db)).
    do 3 f_equal.
    induction (notifications db) as [|n l IH]; [reflexivity |].
    cbn [map filter].
    destruct (to_mark other ids n) eqn:Hm.
    + apply to_mark_user in Hm.
      assert (unread_of user n = false) as Hn.
      { unfold unread_of.
        assert (String.eqb (n_user_id n) user = false) as ->
            by (apply String.eqb_neq; congruence).
        reflexivity. }
      assert (unread_of user (set_read_at (Some now) n) = false) as ->
          by (unfold unread_of; simpl; apply andb_false_r).
      rewrite Hn. exact IH.
    + destruct (unread_of user n); [f_equal |]; exact IH.
Qed.

(** The customer of the scenario marks everything read; the staff member
    marking theirs changes nothing for the customer. *)
Lemma mark_read_empties_inbox_witness :
  unread_notifications Checkout.customer
    (snd (mark_notifications_read 7000 Checkout.customer None
            Checkout.first_ready)) = []
  /\ unread_notifications Checkout.customer
       (snd (mark_notifications_read 7000 Checkout.staff None
               Checkout.first_ready))
     = unread_notifications Checkout.customer Checkout.first_ready.
Proof.
  destruct (mark_read_empties_inbox 7000 Checkout.customer Checkout.staff
              None Checkout.first_ready) as (H1 & _ & H3).
  split; [exact H1 | apply H3; discriminate].
Defined.

(** The function and the statement that mark notifications read: they
    write the same table when none of the user's notifications among the
    keys is read yet; on one that is read already they differ, the
    function keeps its read time and the statement, which has no
    [read_at IS NULL], stamps it again. *)
Theorem mark_read_statement_restamps (now : timestamp) (user : uuid)
    (ids : list (option uuid)) (db : database) :
  ((forall n, In n (notifications db) -> n_user_id n = user ->
              In (Some (n_id n)) ids -> n_read_at n = None) ->
   mark_read_statement now user ids db
   = snd (mark_notifications_read now user (Some ids) db))
  /\ (forall n t,
         In n (notifications db) -> n_user_id n = user ->
         In (Some (n_id n)) ids -> n_read_at n = Some t ->
         In n (notifications
                 (snd (mark_notifications_read now user (Some ids) db)))
         /\ In (set_read_at (Some now) n)
              (notifications (mark_read_statement now user ids db))).
Proof.
  split.
  - intros Hunread. unfold mark_read_statement, mark_notifications_read.
    simpl. f_equal. apply map_ext_in. intros n Hn. unfold to_mark.
    destruct (String.eqb_spec (n_user_id n) user) as [Hu|_];
      [| reflexivity].
    destruct (eq_any (n_id n) ids) eqn:Hany; [| reflexivity].
    apply eq_any_In in Hany. rewrite (Hunread n Hn Hu Hany). reflexivity.
  - intros n t Hn Hu Hid Hread. split.
    + simpl. apply in_map_iff. exists n. split; [| exact Hn].
      unfold to_mark. rewrite Hread, andb_false_r. reflexivity.
    + simpl. apply in_map_iff. exists n. split; [| exact Hn].
      apply eq_any_In in Hid. rewrite Hu, String.eqb_refl, Hid.
      reflexivity.
Qed.

(** The first notification of the scenario, read at 7000, is marked
    again at 8000 through the statement. *)
Lemma mark_read_statement_restamps_witness :
  exists n,
    In n (notifications
            (snd (mark_notifications_read 7000 Checkout.customer None
                    Checkout.first_ready)))
    /\ n_read_at n = Some 7000
    /\ In (set_read_at (Some 8000) n)
         (notifications
            (mark_read_statement 8000 Checkout.customer [Some "0"]
               (snd (mark_notifications_read 7000 Checkout.customer None
                       Checkout.first_ready)))).
Proof.
  eexists. split; [left; reflexivity |]. split; [reflexivity |].
  refine (proj2 (proj2 (mark_read_statement_restamps 8000
                          Checkout.customer [Some "0"] _) _ 7000 _ _ _ _)).
  - left; reflexivity.
  - reflexivity.
  - left; reflexivity.
  - reflexivity.
Defined.

(** ** The space of pickup codes *)

Lemma number_of_code (d : Z) :
  0 <= d < 10000 -> number_of_digits 0 (code_of_draw d) = d.
Proof.
  intros Hd.
  assert (forallb (fun n => number_of_digits 0 (code_of_draw (Z.of_nat n))
                            =? Z.of_nat n)
            (seq 0 (Z.to_nat 10000)) = true) as Hall
    by (vm_compute; reflexivity).
  rewrite forallb_forall in Hall.
  specialize (Hall (Z.to_nat d)). rewrite Z2Nat.id in Hall by lia.
  apply Z.eqb_eq. apply Hall. apply in_seq. lia.
Qed.

(** The code of a draw, read as a decimal number, is the draw: the 10000
    draws between 0 and 9999 give 10000 different codes. *)
Theorem code_of_draw_injective (d1 d2 : Z) :
  0 <= d1 < 10000 -> 0 <= d2 < 10000 ->
  number_of_digits 0 (code_of_draw d1) = d1
  /\ (code_of_draw d1 = code_of_draw d2 -> d1 = d2).
Proof.
  intros H1 H2. split; [now apply number_of_code |].
  intros Heq. rewrite <- (number_of_code d1 H1), <- (number_of_code d2 H2).
  now rewrite Heq.
Qed.

Lemma code_of_draw_injective_witness :
  code_of_draw 42 = "0042" /\ number_of_digits 0 (code_of_draw 42) = 42.
Proof.
  split; [reflexivity |].
  destruct (code_of_draw_injective 42 42) as [H _]; [lia | lia | exact H].
Defined.

(** ** Pickup verification: the function and the query *)

Lemma pickup_items_In (o : order) (db : database) (name : string)
    (qty : Z) :
  In (name, qty) (pickup_items o db)
  <-> exists oi mi,
        In oi (order_items db) /\ oi_order_id oi = o_id o
        /\ In mi (menu_items db) /\ mi_id mi = oi_menu_item_id oi
        /\ name = mi_name mi /\ qty = oi_quantity oi.
Proof.
  unfold pickup_items. rewrite in_flat_map. split.
  - intros (oi & Hoi & Hin). apply filter_In in Hoi.
    destruct Hoi as [Hoi He]. apply String.eqb_eq in He.
    apply in_map_iff in Hin. destruct Hin as (mi & Heq & Hmi).
    apply filter_In in Hmi. destruct Hmi as [Hmi Hm].
    apply String.eqb_eq in Hm. injection Heq as <- <-.
    exists oi, mi. auto 10.
  - intros (oi & mi & Hoi & He & Hmi & Hm & -> & ->).
    exists oi. split.
    + apply filter_In. split; [exact Hoi |]. apply String.eqb_eq. auto.
    + apply in_map_iff. exists mi. split; [reflexivity |].
      apply filter_In. split; [exact Hmi |]. apply String.eqb_eq. auto.
Qed.

Lemma pickup_items_some (o : order) (db : database) :
  pickup_items o db <> []
  <-> exists oi mi,
        In oi (order_items db) /\ oi_order_id oi = o_id o
        /\ In mi (menu_items db) /\ mi_id mi = oi_menu_item_id oi.
Proof.
  split.
  - intros Hne. destruct (pickup_items o db) as [|[name qty] l] eqn:Hit;
      [now elim Hne |].
    assert (In (name, qty) (pickup_items o db)) as Hin
      by (rewrite Hit; left; reflexivity).
    apply pickup_items_In in Hin.
    destruct Hin as (oi & mi & H1 & H2 & H3 & H4 & _). eauto 10.
  - intros (oi & mi & H1 & H2 & H3 & H4) Hnil.
    assert (In (mi_name mi, oi_quantity oi) (pickup_items o db)) as Hin
      by (apply pickup_items_In; eauto 10).
    rewrite Hnil in Hin. destruct Hin.
Qed.

(** The rows of the pickup verification query: one for each ready order
    with the code, each profile row of its owner, when the order has
    items. *)
Lemma pickup_query_rows (code : string) (db : database) (r : pickup_row) :
  In r (pickup_verification_query code db)
  <-> exists o p,
        In o (orders db) /\ o_pickup_code o = code /\ o_status o = "ready"
        /\ In p (profiles db) /\ p_user_id p = o_user_id o
        /\ pickup_items o db <> []
        /\ r = {| pr_id := o_id o; pr_user_id := o_user_id o;
                  pr_status := o_status o;
                  pr_pickup_code := o_pickup_code o;
                  pr_customer_name := p_full_name p;
                  pr_total_amount := o_total_amount o;
                  pr_items := pickup_items o db |}.
Proof.
  unfold pickup_verification_query. rewrite in_flat_map. split.
  - intros (o & Ho & Hin). apply ready_with_code_In in Ho.
    destruct Ho as (Ho & Hc & Hs).
    apply in_flat_map in Hin. destruct Hin as (p & Hp & Hin).
    apply filter_In in Hp. destruct Hp as [Hp Hu].
    apply String.eqb_eq in Hu.
    change (flat_map _ (filter _ (order_items db)))
      with (pickup_items o db) in Hin.
    destruct (pickup_items o db) as [|i items] eqn:Hit; simpl in Hin;
      [destruct Hin |].
    destruct Hin as [<-|[]]. exists o, p. rewrite Hit.
    repeat (split; [solve [auto | discriminate] |]). reflexivity.
  - intros (o & p & Ho & Hc & Hs & Hp & Hu & Hne & ->).
    exists o. split; [apply ready_with_code_In; auto |].
    apply in_flat_map. exists p. split.
    + apply filter_In. split; [exact Hp |]. apply String.eqb_eq. auto.
    + change (flat_map _ (filter _ (order_items db)))
        with (pickup_items o db).
      destruct (pickup_items o db) as [|i items]; [now elim Hne |].
      left; reflexivity.
Qed.




(** ** The two pickup verifications *)

(** The pickup verification query of the common operations against
    [verify_pickup_code]: in every database the application can be in,
    the query returns a row for an order exactly when the function does
    and the order has at least one item; a ready order without items is
    accepted by the function and not found by the query. *)
Theorem pickup_query_needs_items (code : string) (db : database)
    (id : uuid) :
  reachable db ->
  (exists r, In r (pickup_verification_query code db) /\ pr_id r = id)
  <-> ((exists r, In r (verify_pickup_code code db) /\ pd_order_id r = id)
       /\ exists oi, In oi (order_items db) /\ oi_order_id oi = id).
Proof.
  intros Hr. pose proof (reachable_consistent db Hr) as Hc.
  apply reachable_referenced in Hr.
  unfold pickup_verification_query, verify_pickup_code. split.
  - intros (r & Hin & Hid). apply in_flat_map in Hin.
    destruct Hin as (o & Ho & Hin). apply in_flat_map in Hin.
    destruct Hin as (p & _ & Hin).
    destruct (flat_map _ (filter _ (order_items db))) as [|i items] eqn:Hit;
      simpl in Hin; [destruct Hin |].
    destruct Hin as [<-|[]]. simpl in Hid. subst id. split.
    + exists (pickup_details_of o). split; [now apply in_map | reflexivity].
    + assert (In i (i :: items)) as Hi by (left; reflexivity).
      rewrite <- Hit in Hi. apply in_flat_map in Hi.
      destruct Hi as (oi & Hoi & _). apply filter_In in Hoi.
      destruct Hoi as [Hoi He]. apply String.eqb_eq in He.
      exists oi. auto.
  - intros ((r & Hin & Hid) & (oi & Hoi & Hoid)).
    apply in_map_iff in Hin. destruct Hin as (o & <- & Ho).
    simpl in Hid. subst id.
    assert (Hord : In o (orders db)) by (apply filter_In in Ho; tauto).
    pose proof (owners_are_users db Hc) as Hown.
    pose proof (users_have_profiles db Hc) as Husr.
    rewrite Forall_forall in Hown, Husr.
    destruct (Husr _ (Hown o Hord)) as (p & Hp & Hu).
    pose proof (items_of_menu db Hr) as Him.
    rewrite Forall_forall in Him. specialize (Him oi Hoi).
    apply in_map_iff in Him. destruct Him as (m & Hm & Hmin).
    assert (Hitems :
              In (mi_name m, oi_quantity oi)
                (flat_map
                   (fun oi =>
                      map (fun mi => (mi_name mi, oi_quantity oi))
                        (filter (fun mi => String.eqb (oi_menu_item_id oi)
                                             (mi_id mi)) (menu_items db)))
                   (filter (fun oi => String.eqb (o_id o) (oi_order_id oi))
                      (order_items db)))).
    { apply in_flat_map. exists oi. split.
      - apply filter_In. split; [exact Hoi |].
        apply String.eqb_eq. congruence.
      - apply in_map_iff. exists m. split; [reflexivity |].
        apply filter_In. split; [exact Hmin |].
        apply String.eqb_eq. congruence. }
    destruct (flat_map _ (filter _ (order_items db))) as [|i items] eqn:Hit;
      [destruct Hitems |].
    eexists. split.
    + apply in_flat_map. exists o. split; [exact Ho |].
      apply in_flat_map. exists p. split.
      * apply filter_In. split; [exact Hp |].
        apply String.eqb_eq. congruence.
      * rewrite Hit. left; reflexivity.
    + reflexivity.
Qed.

(** The ready order of the scenario has items and is found by both. *)
Lemma pickup_query_needs_items_witness :
  reachable Checkout.first_ready
  /\ exists r,
       In r (pickup_verification_query "1234" Checkout.first_ready)
       /\ pr_id r = "0".
Proof.
  split; [exact first_ready_reachable |].
  apply (pickup_query_needs_items "1234" Checkout.first_ready "0"
           first_ready_reachable).
  split.
  - eexists. split; [left; reflexivity | reflexivity].
  - eexists. split; [left; reflexivity | reflexivity].
Defined.

(** ** Orders per hour of the day *)

Lemma hour_of_timestamp_range (t : timestamp) :
  0 <= hour_of_timestamp t < 24.
Proof. unfold hour_of_timestamp. apply Z.mod_pos_bound. lia. Qed.

Lemma hours_of_day_sorted : StronglySorted Z.lt hours_of_day.
Proof. unfold hours_of_day. simpl. repeat constructor. Qed.

Lemma hours_of_day_all (h : Z) : 0 <= h < 24 -> In h hours_of_day.
Proof.
  intros Hh. unfold hours_of_day. apply in_map_iff.
  exists (Z.to_nat h). split; [lia |]. apply in_seq. lia.
Qed.

Lemma StronglySorted_lt_NoDup (l : list Z) :
  StronglySorted Z.lt l -> NoDup l.
Proof.
  induction 1 as [|x l _ IH Hx]; constructor; [| exact IH].
  intros Hin. rewrite Forall_forall in Hx. specialize (Hx x Hin). lia.
Qed.

Lemma sum_map_add {A : Type} (f g : A -> Z) (l : list A) :
  fold_right Z.add 0 (map (fun x => f x + g x) l)
  = fold_right Z.add 0 (map f l) + fold_right Z.add 0 (map g l).
Proof. induction l as [|x l IH]; simpl; [reflexivity | rewrite IH; lia]. Qed.

Lemma sum_indicator (x w : Z) (hs : list Z) :
  NoDup hs ->
  fold_right Z.add 0 (map (fun h => if x =? h then w else 0) hs)
  = if existsb (Z.eqb x) hs then w else 0.
Proof.
  induction 1 as [|h hs Hh _ IH]; simpl; [reflexivity |].
  rewrite IH. destruct (Z.eqb_spec x h) as [->|Hne]; simpl; [| lia].
  destruct (existsb (Z.eqb h) hs) eqn:Hex; [| lia].
  apply existsb_exists in Hex. destruct Hex as (y & Hy & He).
  apply Z.eqb_eq in He. subst y. contradiction.
Qed.

(** Grouping by hour loses nothing: the groups of the hours in [hs] add
    up to the orders whose hour is in [hs]. *)
Lemma sum_by_hour (w : order -> Z) (sel : list order) (hs : list Z) :
  NoDup hs ->
  fold_right Z.add 0
    (map (fun h =>
            fold_right Z.add 0
              (map w (filter (fun o => hour_of_timestamp (o_created_at o)
                                       =? h) sel))) hs)
  = fold_right Z.add 0
      (map w (filter (fun o => existsb
                                 (Z.eqb (hour_of_timestamp (o_created_at o)))
                                 hs) sel)).
Proof.
  intros Hnd. induction sel as [|o rest IH]; simpl.
  - induction hs as [|h hs IHh]; simpl; [reflexivity |].
    inversion Hnd; subst. rewrite IHh; auto.
  - transitivity
      (fold_right Z.add 0
         (map (fun h =>
                 (if hour_of_timestamp (o_created_at o) =? h
                  then w o else 0)
                 + fold_right Z.add 0
                     (map w (filter
                               (fun o => hour_of_timestamp (o_created_at o)
                                         =? h) rest))) hs)).
    + f_equal. apply map_ext. intros h.
      destruct (hour_of_timestamp (o_created_at o) =? h); simpl; lia.
    + rewrite sum_map_add, IH, (sum_indicator _ _ _ Hnd).
      destruct (existsb _ hs); simpl; lia.
Qed.

Lemma sum_ones {A : Type} (l : list A) :
  fold_right Z.add 0 (map (fun _ => 1) l) = Z.of_nat (List.length l).
Proof.
  induction l as [|x l IH]; [reflexivity |].
  cbn [map fold_right List.length]. rewrite IH, Nat2Z.inj_succ. lia.
Qed.

Lemma filter_all {A : Type} (f : A -> bool) (l : list A) :
  Forall (fun x => f x = true) l -> filter f l = l.
Proof.
  induction 1 as [|x l Hx _ IH]; simpl; [reflexivity |].
  now rewrite Hx, IH.
Qed.

(** The rows built for the hours [hs], summed through [proj], are the
    groups of these hours summed through [agg]. *)
Lemma peak_rows_sum (proj : peak_hour_row -> Z) (agg : list order -> Z)
    (sel : list order) (hs : list Z) :
  agg [] = 0 ->
  (forall h g, proj {| ph_hour_of_day := h;
                       ph_order_count := Z.of_nat (List.length g);
                       ph_total_revenue :=
                         fold_right Z.add 0 (map o_total_amount g) |}
               = agg g) ->
  fold_right Z.add 0
    (map proj
       (flat_map
          (fun h =>
             match filter (fun o => hour_of_timestamp (o_created_at o) =? h)
                     sel with
             | [] => []
             | o :: group =>
                 [ {| ph_hour_of_day := h;
                      ph_order_count := Z.of_nat (List.length (o :: group));
                      ph_total_revenue :=
                        fold_right Z.add 0
                          (map o_total_amount (o :: group)) |} ]
             end) hs))
  = fold_right Z.add 0
      (map (fun h => agg (filter (fun o => hour_of_timestamp
                                             (o_created_at o) =? h) sel))
         hs).
Proof.
  intros Hnil Hagg. induction hs as [|h hs IH]; [reflexivity |].
  cbn [flat_map map fold_right]. rewrite map_app, fold_right_app.
  rewrite <- IH.
  destruct (filter (fun o => hour_of_timestamp (o_created_at o) =? h) sel)
    as [|o g].
  - rewrite Hnil. simpl. lia.
  - cbn [map fold_right]. rewrite Hagg. reflexivity.
Qed.

Lemma peak_rows_hours (sel : list order) (hs : list Z)
    (r : peak_hour_row) :
  In r (flat_map
          (fun h =>
             match filter (fun o => hour_of_timestamp (o_created_at o) =? h)
                     sel with
             | [] => []
             | o :: group =>
                 [ {| ph_hour_of_day := h;
                      ph_order_count := Z.of_nat (List.length (o :: group));
                      ph_total_revenue :=
                        fold_right Z.add 0
                          (map o_total_amount (o :: group)) |} ]
             end) hs) ->
  In (ph_hour_of_day r) hs /\ 1 <= ph_order_count r
  /\ ph_order_count r
     = Z.of_nat (List.length
                   (filter (fun o => hour_of_timestamp (o_created_at o)
                                     =? ph_hour_of_day r) sel)).
Proof.
  intros H. apply in_flat_map in H. destruct H as (h & Hh & Hr).
  destruct (filter (fun o => hour_of_timestamp (o_created_at o) =? h) sel)
    as [|o g] eqn:Hf; [destruct Hr |].
  destruct Hr as [<-|[]]. cbn [ph_hour_of_day ph_order_count].
  split; [exact Hh |]. split; [| now rewrite Hf].
  cbn [List.length]. rewrite Nat2Z.inj_succ. lia.
Qed.

Lemma peak_rows_sorted (sel : list order) (hs : list Z) :
  StronglySorted Z.lt hs ->
  StronglySorted (fun r1 r2 => ph_hour_of_day r1 < ph_hour_of_day r2)
    (flat_map
       (fun h =>
          match filter (fun o => hour_of_timestamp (o_created_at o) =? h)
                  sel with
          | [] => []
          | o :: group =>
              [ {| ph_hour_of_day := h;
                   ph_order_count := Z.of_nat (List.length (o :: group));
                   ph_total_revenue :=
                     fold_right Z.add 0
                       (map o_total_amount (o :: group)) |} ]
          end) hs).
Proof.
  induction 1 as [|h hs _ IH Hh]; [constructor |].
  cbn [flat_map].
  destruct (filter (fun o => hour_of_timestamp (o_created_at o) =? h) sel)
    as [|o g].
  - cbn [app]. exact IH.
  - cbn [app]. constructor; [exact IH |].
    apply Forall_forall. intros r Hr.
    apply peak_rows_hours in Hr. destruct Hr as [Hr _].
    rewrite Forall_forall in Hh. simpl. now apply Hh.
Qed.

(** [get_peak_hours_stats]: the rows come in strictly increasing hours
    between 0 and 23, one per hour with at least one order; a row counts
    the orders of its hour that were created in the date range and are
    not cancelled; the counts of all rows add up to the number of these
    orders and the revenues to the sum of their totals. *)
Theorem get_peak_hours_stats_totals (p_start_date p_end_date : Z)
    (db : database) :
  let selected :=
    filter (counted_in_peak_hours p_start_date p_end_date) (orders db) in
  let rows := get_peak_hours_stats p_start_date p_end_date db in
  (forall o, In o selected <->
             In o (orders db)
             /\ p_start_date <= date_of_timestamp (o_created_at o)
                <= p_end_date
             /\ o_status o <> "cancelled")
  /\ StronglySorted (fun r1 r2 => ph_hour_of_day r1 < ph_hour_of_day r2) rows
  /\ Forall (fun r =>
               0 <= ph_hour_of_day r < 24 /\ 1 <= ph_order_count r
               /\ ph_order_count r
                  = Z.of_nat
                      (List.length
                         (filter (fun o => hour_of_timestamp (o_created_at o)
                                           =? ph_hour_of_day r) selected)))
       rows
  /\ fold_right Z.add 0 (map ph_order_count rows)
     = Z.of_nat (List.length selected)
  /\ fold_right Z.add 0 (map ph_total_revenue rows)
     = fold_right Z.add 0 (map o_total_amount selected).
Proof.
  intros selected rows.
  assert (Hevery : filter (fun o => existsb
                                     (Z.eqb (hour_of_timestamp
                                               (o_created_at o)))
                                     hours_of_day) selected = selected).
  { apply filter_all. apply Forall_forall. intros o _.
    apply existsb_exists. exists (hour_of_timestamp (o_created_at o)).
    split; [apply hours_of_day_all, hour_of_timestamp_range |].
    apply Z.eqb_refl. }
  pose proof (StronglySorted_lt_NoDup _ hours_of_day_sorted) as Hnd.
  split; [| split; [| split; [| split]]].
  - intros o. unfold selected, counted_in_peak_hours.
    rewrite filter_In, !andb_true_iff, !Z.leb_le, negb_true_iff.
    unfold in_list. simpl. rewrite orb_false_r, String.eqb_neq. tauto.
  - apply peak_rows_sorted. exact hours_of_day_sorted.
  - apply Forall_forall. intros r Hr.
    unfold rows, get_peak_hours_stats in Hr. fold selected in Hr.
    apply peak_rows_hours in Hr. destruct Hr as (Hh & Hc & Hcount).
    split; [| split; assumption].
    unfold hours_of_day in Hh. apply in_map_iff in Hh.
    destruct Hh as (n & <- & Hn). apply in_seq in Hn. lia.
  - unfold rows, get_peak_hours_stats. fold selected.
    rewrite (peak_rows_sum ph_order_count
               (fun g => fold_right Z.add 0 (map (fun _ => 1) g)));
      [| reflexivity | intros h g; simpl; now rewrite sum_ones].
    cbv beta.
    rewrite (sum_by_hour (fun _ => 1) selected hours_of_day Hnd), Hevery.
    apply sum_ones.
  - unfold rows, get_peak_hours_stats. fold selected.
    rewrite (peak_rows_sum ph_total_revenue
               (fun g => fold_right Z.add 0 (map o_total_amount g)));
      [| reflexivity | intros h g; reflexivity].
    cbv beta. unfold cents.
    now rewrite (sum_by_hour o_total_amount selected hours_of_day Hnd),
      Hevery.
Qed.

(** ** Edge cases of the inserts and of the verification *)

Lemma find_menu_item_absent (id : uuid) (l : list menu_item) :
  ~ In id (map mi_id l) ->
  find (fun m => String.eqb (mi_id m) id) l = None.
Proof.
  intros H. destruct (find _ l) as [m|] eqn:Hf; [| reflexivity].
  apply find_some in Hf. destruct Hf as [Hm He].
  apply String.eqb_eq in He. exfalso. apply H. rewrite <- He.
  now apply in_map.
Qed.

(** An order item for a menu item that does not exist gets past the
    availability trigger ([item_available] is [NULL] and [IF NOT NULL]
    does not raise) and is stopped by the foreign key; a quantity below 1
    is stopped by the [CHECK] constraint once the trigger has passed. *)
Theorem insert_order_item_unknown_menu_item (now : timestamp)
    (v : order_item_values) (db : database) (q : Z) :
  iv_quantity v = Some q -> - 2 ^ 31 <= q < 2 ^ 31 ->
  0 <= iv_unit_price v < 10 ^ 10 ->
  ~ In (iv_menu_item_id v) (map mi_id (menu_items db)) ->
  validate_menu_item_availability (iv_menu_item_id v) db = Ok tt
  /\ (q < 1 ->
      insert_order_item now v db
      = Err (check_violation "order_items_quantity_check"))
  /\ (1 <= q -> In (iv_order_id v) (map o_id (orders db)) ->
      insert_order_item now v db
      = Err (foreign_key_violation "order_items_menu_item_id_fkey")).
Proof.
  intros Hq Hrange Hp Habsent.
  assert (Htrig : validate_menu_item_availability (iv_menu_item_id v) db
                  = Ok tt).
  { unfold validate_menu_item_availability.
    now rewrite (find_menu_item_absent _ _ Habsent). }
  split; [exact Htrig |].
  unfold insert_order_item, int4, decimal_10_2. rewrite Hq, Htrig.
  assert (((- 2 ^ 31 <=? q) && (q <? 2 ^ 31)) = true) as ->.
  { apply andb_true_iff. split; [apply Z.leb_le | apply Z.ltb_lt]; lia. }
  assert ((Z.abs (iv_unit_price v) <? 10 ^ 10) = true) as ->
      by (apply Z.ltb_lt; lia).
  simpl. split.
  - intros Hlow.
    assert ((1 <=? q) = false) as -> by (apply Z.leb_gt; lia).
    reflexivity.
  - intros Hone Horder.
    assert ((1 <=? q) = true) as -> by (apply Z.leb_le; lia).
    assert ((0 <=? iv_unit_price v) = true) as -> by (apply Z.leb_le; lia).
    apply in_list_In in Horder. rewrite Horder.
    apply in_list_not_In in Habsent. rewrite Habsent. reflexivity.
Qed.

(** No menu item of the scenario has the key "9". *)
Lemma insert_order_item_unknown_menu_item_witness :
  insert_order_item 1500
    {| iv_order_id := "0"; iv_menu_item_id := "9"; iv_quantity := Some 1;
       iv_unit_price := 100; iv_special_instructions := None |}
    Checkout.checked_out
  = Err (foreign_key_violation "order_items_menu_item_id_fkey").
Proof.
  destruct (insert_order_item_unknown_menu_item 1500
              {| iv_order_id := "0"; iv_menu_item_id := "9";
                 iv_quantity := Some 1; iv_unit_price := 100;
                 iv_special_instructions := None |}
              Checkout.checked_out 1) as (_ & _ & H).
  - reflexivity.
  - lia.
  - simpl. lia.
  - simpl. intros [H|[H|[H|[H|[]]]]]; discriminate.
  - apply H; [lia | left; reflexivity].
Defined.

(** [set_pickup_code] leaves a code the insert brings alone: a non-empty
    code of at most four characters that no order carries is stored as it
    is, whether or not it consists of four digits, and no draw is
    used. *)
Theorem insert_order_keeps_given_code (now : timestamp) (draws : list Z)
    (v : order_values) (db : database) (code : string) :
  v_pickup_code v = Some code -> code <> "" ->
  (String.length code <= 4)%nat ->
  ~ In code (map o_pickup_code (orders db)) ->
  v_status v = None -> 0 <= v_total_amount v < 10 ^ 10 ->
  In (v_user_id v) (auth_users db) ->
  exists db',
    insert_order now draws v db
    = Ok ((fresh_uuid (map o_id (orders db)), code), db')
    /\ insert_order now [] v db
       = Ok ((fresh_uuid (map o_id (orders db)), code), db').
Proof.
  intros Hcode Hne Hlen Hfree Hst Htot Huser.
  unfold insert_order. rewrite Hst, Hcode. simpl.
  unfold decimal_10_2.
  assert ((Z.abs (v_total_amount v) <? 10 ^ 10) = true) as ->
      by (apply Z.ltb_lt; lia).
  simpl. rewrite (varchar_short 4 code Hlen). simpl.
  unfold set_pickup_code.
  destruct (String.eqb_spec code ""); [contradiction |].
  simpl. unfold orders_row_checks. simpl.
  assert ((0 <=? v_total_amount v) = true) as -> by (apply Z.leb_le; lia).
  simpl. apply in_list_not_In in Hfree. rewrite Hfree. simpl.
  apply in_list_In in Huser. rewrite Huser. simpl.
  eexists. split; reflexivity.
Qed.

(** A code of two letters is stored for the customer of the scenario. *)
Lemma insert_order_keeps_given_code_witness :
  four_digit_code "ab" = false
  /\ exists db',
       insert_order 2000 []
         {| v_user_id := Checkout.customer; v_status := None;
            v_total_amount := 400; v_pickup_time := None;
            v_pickup_code := Some "ab"; v_notes := None |}
         Checkout.checked_out = Ok (("00", "ab"), db').
Proof.
  split; [reflexivity |].
  destruct (insert_order_keeps_given_code 2000 []
              {| v_user_id := Checkout.customer; v_status := None;
                 v_total_amount := 400; v_pickup_time := None;
                 v_pickup_code := Some "ab"; v_notes := None |}
              Checkout.checked_out "ab") as (db' & H & _).
  - reflexivity.
  - discriminate.
  - simpl. lia.
  - simpl. intros [H|[]]; discriminate.
  - reflexivity.
  - simpl. lia.
  - left; reflexivity.
  - exists db'. exact H.
Defined.

Lemma filter_unique_code (code : string) (l : list order) (o : order) :
  NoDup (map o_pickup_code l) -> In o l -> o_pickup_code o = code ->
  filter (fun x => String.eqb (o_pickup_code x) code) l = [o].
Proof.
  intros Hnd Hin Hc. induction l as [|x l IH]; [destruct Hin |].
  simpl in Hnd. inversion Hnd as [|? ? Hx Hl]; subst.
  simpl. destruct Hin as [->|Hin].
  - rewrite String.eqb_refl. f_equal. apply filter_none.
    apply Forall_forall. intros y Hy. apply String.eqb_neq.
    intros He. apply Hx. rewrite <- He. now apply in_map.
  - destruct (String.eqb_spec (o_pickup_code x) (o_pickup_code o))
      as [He|_]; [| now apply IH].
    exfalso. apply Hx. rewrite He. now apply in_map.
Qed.

Lemma filter_andb {A : Type} (f g : A -> bool) (l : list A) :
  filter (fun x => f x && g x) l = filter g (filter f l).
Proof.
  induction l as [|x l IH]; simpl; [reflexivity |].
  destruct (f x); simpl; [destruct (g x) |]; now rewrite IH.
Qed.

(** [verify_pickup_code] finds one order at most: in every database the
    application can be in it returns at most one row, and for the code
    of a ready order exactly the row of that order. *)
Theorem verify_pickup_code_unique (code : string) (db : database) :
  reachable db ->
  (List.length (verify_pickup_code code db) <= 1)%nat
  /\ (forall o, In o (orders db) -> o_status o = "ready" ->
                verify_pickup_code (o_pickup_code o) db
                = [pickup_details_of o]).
Proof.
  intros Hr. apply reachable_consistent in Hr.
  pose proof (pickup_codes_unique db Hr) as Hnd.
  unfold verify_pickup_code. split.
  - rewrite length_map, filter_andb.
    destruct (filter (fun x => String.eqb (o_pickup_code x) code)
                (orders db)) as [|o l] eqn:Hf; [simpl; lia |].
    assert (In o (filter (fun x => String.eqb (o_pickup_code x) code)
                    (orders db))) as Ho by (rewrite Hf; left; reflexivity).
    apply filter_In in Ho. destruct Ho as [Ho Hc].
    apply String.eqb_eq in Hc.
    rewrite (filter_unique_code code _ o Hnd Ho Hc) in Hf.
    injection Hf as <-. simpl. destruct (String.eqb (o_status o) "ready");
      simpl; lia.
  - intros o Ho Hs. rewrite filter_andb.
    rewrite (filter_unique_code _ _ o Hnd Ho eq_refl). simpl.
    now rewrite Hs.
Qed.

(** The ready order of the scenario. *)
Lemma verify_pickup_code_unique_witness :
  reachable Checkout.first_ready
  /\ (List.length (verify_pickup_code "1234" Checkout.first_ready) = 1)%nat
  /\ (List.length (verify_pickup_code "0077" Checkout.first_ready) <= 1)%nat.
Proof.
  split; [exact first_ready_reachable |].
  split; [reflexivity |].
  apply (verify_pickup_code_unique "0077" Checkout.first_ready
           first_ready_reachable).
Defined.

(** The orders of the scenario by hour: both were created in the first
    hour of day 0. *)
Lemma get_peak_hours_stats_totals_witness :
  get_peak_hours_stats 0 0 Checkout.first_completed
  = [ {| ph_hour_of_day := 0; ph_order_count := 2;
         ph_total_revenue := 2850 |} ]
  /\ fold_right Z.add 0
       (map ph_order_count
          (get_peak_hours_stats 0 0 Checkout.first_completed))
     = 2.
Proof.
  split; [reflexivity |].
  destruct (get_peak_hours_stats_totals 0 0 Checkout.first_completed)
    as (_ & _ & _ & Hcount & _).
  rewrite Hcount. reflexivity.
Defined.
